(** * Secrets scanner: detection-and-classification engine

    A shallow embedding of the decision logic of the two legacy scanners

      - [src/legacy/secrets_scanner.py]   (module [Scanner1])
      - [src/legacy/secrets_scanner2.py]  (module [Scanner2])

    together with the properties of the natural-language specification
    that concern pattern compilation, classification, allowlisting,
    per-line scanning, git-history escalation and de-duplication.

    Conventions.  A Python [str] is a [string]; its characters stand for
    the code points 0..255.  Python's [re], [fnmatch] and the git
    subprocess calls are libraries outside the repository: they enter
    the scanner definitions as section variables.  For the allowlist
    matcher a concrete model of [re.match] is given for the patterns
    built from literal characters, [.], [*] and groups ([PyRe]). *)

From Stdlib Require Import String Ascii List ZArith Bool Lia Arith.
From Stdlib Require Import DecimalString DecimalZ.
From Stdlib Require Sorted.
Import ListNotations.

Open Scope string_scope.
Open Scope list_scope.

(* ===================================================================== *)
(** * Python built-ins on strings *)
(* ===================================================================== *)

Module Py.

(** The double quote character, [chr(34)]. *)
Definition dquote : string := String (ascii_of_nat 34) EmptyString.

(** [s.startswith(p)] *)
Fixpoint startswith (p s : string) : bool :=
  match p, s with
  | EmptyString, _ => true
  | String _ _, EmptyString => false
  | String a p', String b s' => Ascii.eqb a b && startswith p' s'
  end.

(** [needle in hay] *)
Fixpoint contains (needle hay : string) : bool :=
  startswith needle hay ||
  match hay with
  | EmptyString => false
  | String _ t => contains needle t
  end.

(** [any(term in s for term in terms)] *)
Definition any_in (terms : list string) (s : string) : bool :=
  existsb (fun term => contains term s) terms.

(** [ch.lower()] on code points below 256: A-Z, and the Latin-1 capitals
    U+00C0..U+00DE except the multiplication sign U+00D7. *)
Definition lower_char (c : ascii) : ascii :=
  let n := nat_of_ascii c in
  if (((65 <=? n) && (n <=? 90)) ||
      ((192 <=? n) && (n <=? 222) && negb (n =? 215)))%nat
  then ascii_of_nat (n + 32) else c.

(** [s.lower()] *)
Fixpoint lower (s : string) : string :=
  match s with
  | EmptyString => EmptyString
  | String c t => String (lower_char c) (lower t)
  end.

(** [ch.isspace()] on code points below 256. *)
Definition isspace (c : ascii) : bool :=
  let n := nat_of_ascii c in
  (((9 <=? n) && (n <=? 13)) || ((28 <=? n) && (n <=? 32)) ||
   (n =? 133) || (n =? 160))%nat.

(** [s.lstrip()] *)
Fixpoint lstrip (s : string) : string :=
  match s with
  | EmptyString => EmptyString
  | String c t => if isspace c then lstrip t else s
  end.

(** [s.rstrip()] *)
Fixpoint rstrip (s : string) : string :=
  match s with
  | EmptyString => EmptyString
  | String c t =>
      match rstrip t with
      | EmptyString => if isspace c then EmptyString else String c EmptyString
      | t' => String c t'
      end
  end.

(** [s.strip()] *)
Definition strip (s : string) : string := rstrip (lstrip s).

(** [s.replace(old, new)] for a non-empty [old]: occurrences are replaced
    left to right without overlap.  [skip] counts the characters of the
    occurrence just replaced that are still to be dropped. *)
Fixpoint replace_go (old new s : string) (skip : nat) : string :=
  match s with
  | EmptyString => EmptyString
  | String c t =>
      match skip with
      | S k => replace_go old new t k
      | O =>
          if startswith old s
          then new ++ replace_go old new t (String.length old - 1)
          else String c (replace_go old new t 0)
      end
  end.

(** [s.replace("", new)] puts [new] before every character and at the end. *)
Fixpoint interleave (new s : string) : string :=
  match s with
  | EmptyString => new
  | String c t => new ++ String c (interleave new t)
  end.

Definition replace (old new s : string) : string :=
  match old with
  | EmptyString => interleave new s
  | String _ _ => replace_go old new s 0
  end.

(** [str(n)] for an [int]. *)
Definition str_int (n : Z) : string := NilZero.string_of_int (Z.to_int n).

(** [s.rfind(ch)]: index of the last occurrence, [None] for Python's -1. *)
Fixpoint rfind (ch : ascii) (s : string) : option nat :=
  match s with
  | EmptyString => None
  | String c t =>
      match rfind ch t with
      | Some i => Some (S i)
      | None => if Ascii.eqb c ch then Some 0 else None
      end
  end.

(** [s[i:]] *)
Fixpoint drop (i : nat) (s : string) : string :=
  match i, s with
  | O, _ => s
  | S _, EmptyString => EmptyString
  | S k, String _ t => drop k t
  end.

(** [enumerate(xs, start)] *)
Fixpoint enumerate {A : Type} (start : Z) (xs : list A) : list (Z * A) :=
  match xs with
  | [] => []
  | x :: t => (start, x) :: enumerate (start + 1) t
  end.

(** The line feed and the carriage return. *)
Definition LF : ascii := ascii_of_nat 10.
Definition CR : ascii := ascii_of_nat 13.

(** The text of one line feed, and [not s] for a string. *)
Definition nl : string := String LF EmptyString.

Definition is_empty (s : string) : bool :=
  match s with
  | EmptyString => true
  | String _ _ => false
  end.

(** What [open(path, 'r')] hands to the program of the text [s] of a file
    (universal newlines): [\r\n] and a lone [\r] read as [\n]. *)
Fixpoint translate_newlines (s : string) : string :=
  match s with
  | EmptyString => EmptyString
  | String c t =>
      if Ascii.eqb c CR then
        match t with
        | String d t' =>
            if Ascii.eqb d LF then String LF (translate_newlines t')
            else String LF (translate_newlines t)
        | EmptyString => String LF EmptyString
        end
      else String c (translate_newlines t)
  end.

(** The lines of a text, each with its line feed, the last one maybe
    without. *)
Fixpoint split_lines (s : string) : list string :=
  match s with
  | EmptyString => []
  | String c t =>
      if Ascii.eqb c LF then String c EmptyString :: split_lines t
      else
        match split_lines t with
        | [] => [String c EmptyString]
        | line :: rest => String c line :: rest
        end
  end.

(** [for line in f] and [f.readlines()] on a file that holds [s]. *)
Definition readlines (s : string) : list string :=
  split_lines (translate_newlines s).

(** [f.write(a); f.write(b); ...] on a file opened with ['w']. *)
Definition written (chunks : list string) : string :=
  String.concat EmptyString chunks.

(** An index of a slice brought into [0..len]. *)
Definition slice_index (len i : Z) : Z :=
  (if i <? 0 then Z.max 0 (len + i) else Z.min i len)%Z.

(** [xs[start:stop]] *)
Definition slice {A : Type} (xs : list A) (start stop : Z) : list A :=
  let len := Z.of_nat (length xs) in
  let a := slice_index len start in
  let b := slice_index len stop in
  firstn (Z.to_nat (b - a)%Z) (skipn (Z.to_nat a) xs).

(** The outcome of a call that can raise: the value it returns, or the
    class name of the exception that leaves it. *)
Inductive result (A : Type) : Type :=
| Returns (a : A)
| Raises (exc : string).

Arguments Returns {A} a.
Arguments Raises {A} exc.

(** The statements after a call: they run on its value; an exception
    of the call passes through. *)
Definition and_then {A B : Type} (r : result A) (k : A -> result B)
  : result B :=
  match r with
  | Returns a => k a
  | Raises exc => Raises exc
  end.

End Py.

(** [os.path] of a POSIX system. *)
Module OsPath.

(** [os.path.basename(p)]: what follows the last slash. *)
Definition basename (p : string) : string :=
  match Py.rfind "/" p with
  | Some i => Py.drop (S i) p
  | None => p
  end.

(** The loop of [posixpath.splitext] that skips the leading dots of the
    file name: [true] when a character other than a dot occurs among the
    first [n] characters of [s]. *)
Fixpoint has_non_dot (n : nat) (s : string) : bool :=
  match n, s with
  | O, _ => false
  | S _, EmptyString => false
  | S k, String c t => negb (Ascii.eqb c ".") || has_non_dot k t
  end.

(** [os.path.splitext(p)[1]]: the extension, from the last dot of the
    file name, empty when that dot only follows leading dots. *)
Definition splitext_ext (p : string) : string :=
  let name_start := match Py.rfind "/" p with Some i => S i | None => 0 end in
  match Py.rfind "." p with
  | None => EmptyString
  | Some dot =>
      if (name_start <=? dot)%nat &&
         has_non_dot (dot - name_start) (Py.drop name_start p)
      then Py.drop dot p
      else EmptyString
  end.

End OsPath.

(* ===================================================================== *)
(** * A model of [re.match] for glob-derived patterns *)
(* ===================================================================== *)

(** The allowlist matchers turn an entry into a regular expression with
    [entry.replace('*', '.*')] and hand it to [re.match].  [PyRe] models
    that call for the patterns written with literal characters, [.], [*]
    and parentheses; a pattern using any other special character of the
    [re] syntax is passed to the engine [ext] given by the caller. *)
Module PyRe.

Inductive regex : Type :=
| Empty                      (* matches nothing *)
| Eps                        (* the empty string *)
| Chr (c : ascii)            (* a literal character *)
| Any                        (* [.]: any character but a newline *)
| Cat (a b : regex)
| Alt (a b : regex)
| Star (a : regex).

Definition newline : ascii := ascii_of_nat 10.

(** Special characters of the [re] syntax that this model leaves to [ext]. *)
Definition unmodelled (c : ascii) : bool :=
  existsb (Ascii.eqb c)
    ["^"; "$"; "+"; "?"; "{"; "}"; "["; "]"; "\"; "|"]%char.

Fixpoint in_fragment (p : string) : bool :=
  match p with
  | EmptyString => true
  | String c t => negb (unmodelled c) && in_fragment t
  end.

(** An item of a sequence under construction, with a flag telling whether
    it already carries a repetition. *)
Definition item : Type := regex * bool.

(** The items arrive most recent first. *)
Definition seq_of (items : list item) : regex :=
  fold_left (fun acc it => Cat (fst it) acc) items Eps.

(** The parser of [re.compile] on the fragment.  [cur] holds the items of
    the sequence being read, [stack] the sequences of the enclosing
    groups.  [None] is [re.error]: "missing )", "unbalanced parenthesis",
    "nothing to repeat" or "multiple repeat". *)
Fixpoint parse_go (p : string) (cur : list item) (stack : list (list item))
  : option regex :=
  match p with
  | EmptyString =>
      match stack with
      | [] => Some (seq_of cur)
      | _ :: _ => None
      end
  | String c t =>
      if Ascii.eqb c "(" then parse_go t [] (cur :: stack)
      else if Ascii.eqb c ")" then
        match stack with
        | [] => None
        | parent :: stack' => parse_go t ((seq_of cur, false) :: parent) stack'
        end
      else if Ascii.eqb c "*" then
        match cur with
        | [] => None
        | (_, true) :: _ => None
        | (r, false) :: cur' => parse_go t ((Star r, true) :: cur') stack
        end
      else if Ascii.eqb c "." then parse_go t ((Any, false) :: cur) stack
      else parse_go t ((Chr c, false) :: cur) stack
  end.

Definition parse (p : string) : option regex := parse_go p [] [].

Fixpoint nullable (r : regex) : bool :=
  match r with
  | Empty => false
  | Eps => true
  | Chr _ => false
  | Any => false
  | Cat a b => nullable a && nullable b
  | Alt a b => nullable a || nullable b
  | Star _ => true
  end.

(** Brzozowski derivative. *)
Fixpoint deriv (c : ascii) (r : regex) : regex :=
  match r with
  | Empty => Empty
  | Eps => Empty
  | Chr d => if Ascii.eqb c d then Eps else Empty
  | Any => if Ascii.eqb c newline then Empty else Eps
  | Cat a b =>
      if nullable a then Alt (Cat (deriv c a) b) (deriv c b)
      else Cat (deriv c a) b
  | Alt a b => Alt (deriv c a) (deriv c b)
  | Star a => Cat (deriv c a) (Star a)
  end.

(** [true] when some prefix of [s] is matched by [r]: what
    [compiled.match(s) is not None] tests. *)
Fixpoint match_prefix (r : regex) (s : string) : bool :=
  nullable r ||
  match s with
  | EmptyString => false
  | String c t => match_prefix (deriv c r) t
  end.

(** [bool(re.match(p, s))]; [None] when [re.match] raises [re.error]. *)
Definition re_match_with (ext : string -> string -> option bool)
    (p s : string) : option bool :=
  if in_fragment p then
    match parse p with
    | Some r => Some (match_prefix r s)
    | None => None
    end
  else ext p s.

(** The language of a regular expression, as a predicate. *)
Inductive star (L : string -> Prop) : string -> Prop :=
| star_nil : star L EmptyString
| star_app u v : L u -> star L v -> star L (u ++ v)%string.

Fixpoint lang (r : regex) (s : string) : Prop :=
  match r with
  | Empty => False
  | Eps => s = EmptyString
  | Chr c => s = String c EmptyString
  | Any => exists c, c <> newline /\ s = String c EmptyString
  | Cat a b => exists u v, s = (u ++ v)%string /\ lang a u /\ lang b v
  | Alt a b => lang a s \/ lang b s
  | Star a => star (lang a) s
  end.

(** What [re.compile(pattern, flags)] does with a pattern: it returns
    a pattern object, raises [re.error], or raises an exception of
    another class, which [except re.error] does not catch (CPython
    raises [OverflowError] on a repetition count of [MAXREPEAT] or
    more, and can raise [RecursionError] or [MemoryError]). *)
Inductive compiled (C : Type) : Type :=
| Compiles (c : C)
| ReError
| OtherError (exc : string).

Arguments Compiles {C} c.
Arguments ReError {C}.
Arguments OtherError {C} exc.

End PyRe.

(* ===================================================================== *)
(** * Data model shared by both scanners *)
(* ===================================================================== *)

(** [class Severity(Enum)] *)
Inductive Severity : Type := HIGH | MEDIUM | LOW.

(** [class RiskType(Enum)] *)
Inductive RiskType : Type :=
| HARDCODED_SECRET
| DATA_EXPOSURE_LOGS
| DATA_EXPOSURE_RESPONSE
| SENSITIVE_CONFIG.

Definition Severity_eqb (a b : Severity) : bool :=
  match a, b with
  | HIGH, HIGH | MEDIUM, MEDIUM | LOW, LOW => true
  | _, _ => false
  end.

(** The order HIGH > MEDIUM > LOW of the specification. *)
Definition rank (s : Severity) : nat :=
  match s with HIGH => 2 | MEDIUM => 1 | LOW => 0 end.

(** [x in xs] for strings. *)
Definition mem_str (x : string) (xs : list string) : bool :=
  existsb (String.eqb x) xs.

(** A loop that appends to a [findings] list inside a [try] block.  The
    state is the list built so far; [None] in the result means that an
    exception left the loop, the list keeping what was appended before. *)
Module Loop.
Section WithFinding.
Context {F : Type}.

Definition M (A : Type) : Type := list F -> list F * option A.

Definition ret {A} (a : A) : M A := fun st => (st, Some a).

Definition bind {A B} (m : M A) (k : A -> M B) : M B :=
  fun st =>
    match m st with
    | (st', Some a) => k a st'
    | (st', None) => (st', None)
    end.

Definition raise {A} : M A := fun st => (st, None).

(** A call whose result is [None] when it raises. *)
Definition call {A} (o : option A) : M A :=
  match o with
  | Some a => ret a
  | None => raise
  end.

(** [findings.append(f)] *)
Definition append (f : F) : M unit := fun st => (st ++ [f], Some tt).

(** [for x in xs: body(x)] *)
Fixpoint for_each {X} (xs : list X) (body : X -> M unit) : M unit :=
  match xs with
  | [] => ret tt
  | x :: t => bind (body x) (fun _ => for_each t body)
  end.

(** [try: m  except Exception: pass], started on the list [st]. *)
Definition catching (m : M unit) (st : list F) : list F := fst (m st).
End WithFinding.
End Loop.

Notation "x <- m ;; k" := (Loop.bind m (fun x => k))
  (at level 61, m at next level, right associativity).
Notation "m ;;; k" := (Loop.bind m (fun _ => k))
  (at level 61, right associativity).

(* ===================================================================== *)
(** * [secrets_scanner2.py] *)
(* ===================================================================== *)

Module Scanner2.

(** [class Finding].  The two fingerprints are computed once in
    [__init__] from fields that are never assigned afterwards. *)
Record Finding : Type := mkFinding {
  file_path : string;
  line_number : Z;
  line_content : string;
  pattern : string;
  severity : Severity;
  risk_type : RiskType;
  description : string;
  is_gitignored : bool;
  in_git_history : bool;
  is_still_tracked : bool
}.

(** [f"{file_path}:{line_number}"] *)
Definition fingerprint (f : Finding) : string :=
  (file_path f ++ ":" ++ Py.str_int (line_number f))%string.

(** [f"{file_path}:{line_number}:{pattern}"] *)
Definition full_fingerprint (f : Finding) : string :=
  (file_path f ++ ":" ++ Py.str_int (line_number f) ++ ":" ++ pattern f)%string.

Definition set_severity (s : Severity) (f : Finding) : Finding :=
  mkFinding (file_path f) (line_number f) (line_content f) (pattern f) s
    (risk_type f) (description f) (is_gitignored f) (in_git_history f)
    (is_still_tracked f).

Definition set_description (d : string) (f : Finding) : Finding :=
  mkFinding (file_path f) (line_number f) (line_content f) (pattern f)
    (severity f) (risk_type f) d (is_gitignored f) (in_git_history f)
    (is_still_tracked f).

Definition set_provenance (ignored history tracked : bool) (f : Finding)
  : Finding :=
  mkFinding (file_path f) (line_number f) (line_content f) (pattern f)
    (severity f) (risk_type f) (description f) ignored history tracked.

(** ** [class PatternManager] *)

(** The pattern lists set by [_load_default_patterns] or
    [_load_patterns_from_file]. *)
Record Patterns : Type := mkPatterns {
  loose_patterns : list string;
  additional_patterns : list string;
  strict_patterns : list string;
  override_patterns : list string;
  config_patterns : list string;
  exclusion_patterns : list string;
  extensions : list string;
  config_files : list string;
  exclude_dirs : list string
}.

(** [config_files] of [_load_default_patterns]. *)
Definition default_config_files : list string :=
  [".env"; "*.env"; "*.env.*"; "*.ini"; "*.conf"; "*.cfg";
   "*.properties"; "*.tfvars"; "*.yaml"; "*.yml"; "config.*"].

Section PatternManager.
(** [re.Pattern] objects. *)
Variable Compiled : Type.
(** [re.compile(pattern, re.IGNORECASE)] *)
Variable re_compile : string -> PyRe.compiled Compiled.
(** [compiled.search(line)], as a truth value. *)
Variable search : Compiled -> string -> bool.
(** [fnmatch.fnmatch(name, pattern)] *)
Variable fnmatch : string -> string -> bool.

(** The lists built by [_compile_patterns]. *)
Record PatternManager : Type := mkPatternManager {
  raw : Patterns;
  compiled_patterns : list (Compiled * string);
  compiled_overrides : list (Compiled * string);
  compiled_config_patterns : list (Compiled * string);
  compiled_exclusions : list Compiled
}.

(** [pattern.replace('\\s+', '\\s*').replace('{10,}', '{10,100}')] *)
Definition simplified (pattern : string) : string :=
  Py.replace "{10,}" "{10,100}" (Py.replace "\s+" "\s*" pattern).

(** The loop over [patterns_to_use], continuing the list
    [compiled_patterns]: a pattern that raises [re.error] is tried again
    in its simplified form and skipped if that raises [re.error] too.
    Both calls stand under [except re.error] only: an exception of
    another class leaves the loop. *)
Fixpoint compile_main (patterns : list string)
    (compiled_patterns : list (Compiled * string))
  : Py.result (list (Compiled * string)) :=
  match patterns with
  | [] => Py.Returns compiled_patterns
  | pattern :: rest =>
      match re_compile pattern with
      | PyRe.Compiles c =>
          compile_main rest (compiled_patterns ++ [(c, pattern)])
      | PyRe.ReError =>
          match re_compile (simplified pattern) with
          | PyRe.Compiles c =>
              compile_main rest (compiled_patterns ++ [(c, pattern)])
          | PyRe.ReError => compile_main rest compiled_patterns
          | PyRe.OtherError exc => Py.Raises exc
          end
      | PyRe.OtherError exc => Py.Raises exc
      end
  end.

(** The loops over the override and config patterns: skip on
    [re.error]. *)
Fixpoint compile_pairs (patterns : list string)
    (compiled : list (Compiled * string))
  : Py.result (list (Compiled * string)) :=
  match patterns with
  | [] => Py.Returns compiled
  | pattern :: rest =>
      match re_compile pattern with
      | PyRe.Compiles c => compile_pairs rest (compiled ++ [(c, pattern)])
      | PyRe.ReError => compile_pairs rest compiled
      | PyRe.OtherError exc => Py.Raises exc
      end
  end.

(** The loop over the exclusion patterns. *)
Fixpoint compile_plain (patterns : list string)
    (compiled_exclusions : list Compiled) : Py.result (list Compiled) :=
  match patterns with
  | [] => Py.Returns compiled_exclusions
  | pattern :: rest =>
      match re_compile pattern with
      | PyRe.Compiles c => compile_plain rest (compiled_exclusions ++ [c])
      | PyRe.ReError => compile_plain rest compiled_exclusions
      | PyRe.OtherError exc => Py.Raises exc
      end
  end.

Definition patterns_to_use (mode : string) (p : Patterns) : list string :=
  if String.eqb mode "strict" then strict_patterns p
  else loose_patterns p ++ additional_patterns p.

(** [PatternManager._compile_patterns]: the four loops in turn.  It
    returns the lists it has built, or lets through the first exception
    that is not [re.error]. *)
Definition _compile_patterns (mode : string) (p : Patterns)
  : Py.result PatternManager :=
  Py.and_then (compile_main (patterns_to_use mode p) [])
    (fun compiled_patterns =>
  Py.and_then (compile_pairs (override_patterns p) [])
    (fun compiled_overrides =>
  Py.and_then (compile_pairs (config_patterns p) [])
    (fun compiled_config_patterns =>
  Py.and_then (compile_plain (exclusion_patterns p) [])
    (fun compiled_exclusions =>
  Py.Returns
    (mkPatternManager p compiled_patterns compiled_overrides
       compiled_config_patterns compiled_exclusions))))).

(** [PatternManager.should_scan_file] *)
Definition should_scan_file (pm : PatternManager) (path : string)
    (extra_exclude_dirs : list string) : bool :=
  if existsb (fnmatch path) (exclude_dirs (raw pm)) then false
  else if existsb (fnmatch path) extra_exclude_dirs then false
  else existsb (fnmatch (OsPath.basename path)) (extensions (raw pm)).

Definition config_extensions : list string :=
  [".ini"; ".conf"; ".env"; ".cfg"; ".yaml"; ".yml"; ".properties";
   ".tfvars"].

(** [PatternManager.is_config_file] *)
Definition is_config_file (pm : PatternManager) (path : string) : bool :=
  let file_name := OsPath.basename path in
  let file_ext := Py.lower (OsPath.splitext_ext path) in
  mem_str file_ext config_extensions ||
  existsb (fnmatch file_name) (config_files (raw pm)).

(** [PatternManager.should_exclude_line] *)
Definition should_exclude_line (pm : PatternManager) (line : string) : bool :=
  existsb (fun c => search c line) (compiled_exclusions pm).

End PatternManager.

Arguments raw {Compiled} _.
Arguments compiled_patterns {Compiled} _.
Arguments compiled_overrides {Compiled} _.
Arguments compiled_config_patterns {Compiled} _.
Arguments compiled_exclusions {Compiled} _.
Arguments mkPatternManager {Compiled} _ _ _ _ _.

(** ** [class AllowlistManager] *)

Section AllowlistManager.
(** [bool(re.match(pattern, s))]; [None] when [re.match] raises
    [re.error]. *)
Variable re_match : string -> string -> option bool.

(** The loop over [self.allowlist.items()], in the order of the dict. *)
Fixpoint allowlist_globs (entries : list string) (f : Finding)
  : option bool :=
  match entries with
  | [] => Some false
  | pattern :: rest =>
      if Py.contains "*" pattern then
        let regex_pattern := Py.replace "*" ".*" pattern in
        match re_match regex_pattern (fingerprint f) with
        | None => None
        | Some true => Some true
        | Some false =>
            match re_match regex_pattern (full_fingerprint f) with
            | None => None
            | Some true => Some true
            | Some false => allowlist_globs rest f
            end
        end
      else allowlist_globs rest f
  end.

(** [AllowlistManager.is_allowlisted]; [allowlist] lists the keys of
    [self.allowlist].  [None] when the call raises. *)
Definition is_allowlisted (allowlist : list string) (f : Finding)
  : option bool :=
  if mem_str (fingerprint f) allowlist then Some true
  else if mem_str (full_fingerprint f) allowlist then Some true
  else allowlist_globs allowlist f.

End AllowlistManager.

(** ** [class SecretsScanner] *)

(** [SecretsScanner._determine_risk_type] *)
Definition _determine_risk_type (line : string) : RiskType :=
  if Py.any_in ["console."; "print"; "echo"; "log."] (Py.lower line)
  then DATA_EXPOSURE_LOGS
  else if Py.any_in ["return"; "res."; "response"] (Py.lower line)
  then DATA_EXPOSURE_RESPONSE
  else if Py.contains "[" line && Py.contains "]" line
  then SENSITIVE_CONFIG
  else HARDCODED_SECRET.

Definition sensitive_terms : list string :=
  ["client_id"; "client_secret"; "api_key"; "password"; "token";
   "access_key"; "DATABASE_URL"; "POSTGRES_PASSWORD"; "secret"; "key";
   "auth"; "credential"].

(** [r'(=|:)\s*["\'][0-9a-zA-Z._=/-]{16,}["\']'] *)
Definition quoted_value_pattern : string :=
  ("(=|:)\s*[" ++ Py.dquote ++ "\'][0-9a-zA-Z._=/-]{16,}[" ++ Py.dquote
   ++ "\']")%string.

(** [r'(password|pass|pwd)\s*='] *)
Definition password_assignment_pattern : string := "(password|pass|pwd)\s*=".

Definition special_chars : list string :=
  ["!"; "@"; "#"; "$"; "%"; "^"; "&"; "*"].

Section SecretsScanner.
Variable Compiled : Type.
Variable search : Compiled -> string -> bool.
Variable fnmatch : string -> string -> bool.
(** [re.search(pattern, s)], as a truth value, for the two literal
    patterns of the classifier. *)
Variable re_search : string -> string -> bool.
Variable re_match : string -> string -> option bool.

(** Attributes of the scanner. *)
Variable pattern_manager : PatternManager Compiled.
Variable allowlist : list string.
Variable high_only : bool.

(** [SecretsScanner._determine_severity_and_risk] *)
Definition _determine_severity_and_risk
    (path line_content matching_pattern : string) : Severity * RiskType :=
  let risk_type := _determine_risk_type line_content in
  let lc := Py.lower line_content in
  if existsb (fun cp => search (fst cp) line_content)
       (compiled_overrides pattern_manager)
  then (HIGH, risk_type)
  else if is_config_file Compiled fnmatch pattern_manager path &&
          existsb (fun term => Py.contains (Py.lower term) lc &&
                               Py.contains "=" line_content)
            sensitive_terms
  then (HIGH, risk_type)
  else if (Py.contains "console." lc || Py.contains "print" lc ||
           Py.contains "echo" lc || Py.contains "log." lc) &&
          Py.any_in ["pass"; "secret"; "token"; "api"; "cred"] lc
  then (HIGH, risk_type)
  else if re_search quoted_value_pattern line_content
  then (MEDIUM, risk_type)
  else if Py.any_in ["postgres"; "sql"; "mysql"; "mongo"] lc &&
          Py.any_in ["password"; "pass"; "pwd"] lc
  then (HIGH, risk_type)
  else if re_search password_assignment_pattern lc &&
          Py.any_in special_chars line_content
  then (HIGH, risk_type)
  else if Py.contains "client_id" lc || Py.contains "client_secret" lc
  then (HIGH, risk_type)
  else (LOW, risk_type).

(** The end of each pattern branch of [scan_file]: the allowlist gate,
    the high-only gate, [findings.append(finding)]. *)
Definition report (f : Finding) : Loop.M unit :=
  allowed <- Loop.call (is_allowlisted re_match allowlist f) ;;
  if allowed then Loop.ret tt
  else if high_only && negb (Severity_eqb (severity f) HIGH)
  then Loop.ret tt
  else Loop.append f.

(** The body of the loop over the lines of [scan_file]. *)
Definition scan_line (path : string) (i : Z) (line : string)
  : Loop.M unit :=
  if should_exclude_line Compiled search pattern_manager line
  then Loop.ret tt
  else
    Loop.for_each (compiled_overrides pattern_manager)
      (fun cp =>
         if search (fst cp) line then
           let sr := _determine_severity_and_risk path line (snd cp) in
           report (mkFinding path i (Py.strip line) (snd cp) (fst sr)
                     (snd sr) ("Override pattern: " ++ snd cp)
                     false false false)
         else Loop.ret tt) ;;;
    Loop.for_each (compiled_patterns pattern_manager)
      (fun cp =>
         if search (fst cp) line then
           let sr := _determine_severity_and_risk path line (snd cp) in
           report (mkFinding path i (Py.strip line) (snd cp) (fst sr)
                     (snd sr) "" false false false)
         else Loop.ret tt) ;;;
    if is_config_file Compiled fnmatch pattern_manager path then
      Loop.for_each (compiled_config_patterns pattern_manager)
        (fun cp =>
           if search (fst cp) line then
             report (mkFinding path i (Py.strip line) (snd cp) HIGH
                       SENSITIVE_CONFIG "Sensitive config pattern"
                       false false false)
           else Loop.ret tt)
    else Loop.ret tt.

(** [SecretsScanner.scan_file] on a file that was opened and yields
    [lines]: the [try] block with its [except Exception]. *)
Definition scan_lines (path : string) (lines : list string) : list Finding :=
  Loop.catching
    (Loop.for_each (Py.enumerate 1 lines)
       (fun il => scan_line path (fst il) (snd il)))
    [].

(** [SecretsScanner.scan_file]; [fs path] is [None] when [open] fails. *)
Definition scan_file (fs : string -> option (list string)) (path : string)
  : list Finding :=
  match fs path with
  | Some lines => scan_lines path lines
  | None => []
  end.

End SecretsScanner.

(** ** The detector, the git history and the final merge *)

(** What the collaborators outside the engine hand to one run of
    [SecretsScanner.scan]. *)
Record World : Type := mkWorld {
  (** the lines of a file, [None] when it cannot be opened *)
  fs : string -> option (list string);
  (** the result of [_collect_files_to_scan] *)
  files_to_scan : list string;
  (** the secrets reported by detect-secrets:
      file name, line number, secret type *)
  detected : list (string * Z * string);
  (** [GitUtils.is_git_repository(directory)] *)
  is_git_repo : bool;
  (** [GitUtils.is_file_gitignored(path, directory)] *)
  git_ignored : string -> bool;
  (** [GitUtils.get_historical_files]: path, still tracked *)
  historical_files : list (string * bool);
  (** the blobs sampled by [_scan_git_objects]: path, lines of the blob *)
  blob_samples : list (string * list string)
}.

Section Scan.
Variable Compiled : Type.
Variable search : Compiled -> string -> bool.
Variable fnmatch : string -> string -> bool.
Variable re_search : string -> string -> bool.
Variable re_match : string -> string -> option bool.
Variable pattern_manager : PatternManager Compiled.
Variable allowlist : list string.
Variable high_only : bool.
Variable use_detect_secrets : bool.
Variable check_git_history : bool.
Variable deep_scan : bool.
Variable w : World.

(** [SecretsScanner._get_line_content] *)
Definition _get_line_content (path : string) (n : Z) : string :=
  match fs w path with
  | None => "<could not read line>"
  | Some lines =>
      match find (fun il => Z.eqb (fst il) n) (Py.enumerate 1 lines) with
      | Some il => Py.strip (snd il)
      | None => ""
      end
  end.

(** The conversion of one detect-secrets result, inside its own
    [try]: an exception drops that result only. *)
Definition detect_one (secret : string * Z * string) : list Finding :=
  let '(filename, n, secret_type) := secret in
  let line_content := _get_line_content filename n in
  let sev :=
    if Py.any_in ["test"; "example"; "sample"; "mock"] (Py.lower line_content)
    then MEDIUM else HIGH in
  let ignored := if is_git_repo w then git_ignored w filename else false in
  let f := mkFinding filename n line_content
             ("detect-secrets:" ++ secret_type) sev
             (_determine_risk_type line_content)
             ("Secret detected by detect-secrets: " ++ secret_type)
             ignored false false in
  match is_allowlisted re_match allowlist f with
  | None => []
  | Some true => []
  | Some false =>
      if high_only && negb (Severity_eqb sev HIGH) then [] else [f]
  end.

(** [SecretsScanner._run_detect_secrets_scan] *)
Definition _run_detect_secrets_scan : list Finding :=
  if use_detect_secrets then flat_map detect_one (detected w) else [].

(** The tagging loop of [GitHistoryScanner.scan_historical_files]. *)
Definition tag_historical (is_tracked : bool) (f : Finding) : Finding :=
  let f := set_provenance true true is_tracked f in
  if is_tracked && negb (Severity_eqb (severity f) HIGH)
  then set_description
         (description f ++ " (Gitignored but still tracked in Git)")
         (set_severity HIGH f)
  else f.

(** One line of a sampled blob in [_scan_git_objects]. *)
Definition blob_line (path : string) (i : Z) (line : string)
  : Loop.M unit :=
  if should_exclude_line Compiled search pattern_manager line
  then Loop.ret tt
  else
    Loop.for_each (compiled_patterns pattern_manager)
      (fun cp =>
         if search (fst cp) line then
           let f := mkFinding ("[Git blob] " ++ path) i (Py.strip line)
                      (snd cp) HIGH (_determine_risk_type line)
                      "Found in Git history blob" false true false in
           allowed <- Loop.call (is_allowlisted re_match allowlist f) ;;
           if allowed then Loop.ret tt else Loop.append f
         else Loop.ret tt).

(** [GitHistoryScanner._scan_git_objects]: an exception anywhere
    discards the whole result. *)
Definition _scan_git_objects : list Finding :=
  if is_git_repo w then
    match Loop.for_each (blob_samples w)
            (fun pc =>
               Loop.for_each (Py.enumerate 1 (snd pc))
                 (fun il => blob_line (fst pc) (fst il) (snd il))) []
    with
    | (findings, Some _) => findings
    | (_, None) => []
    end
  else [].

(** [GitHistoryScanner.scan_historical_files] *)
Definition scan_historical_files : list Finding :=
  if is_git_repo w then
    flat_map
      (fun pt =>
         if should_scan_file Compiled fnmatch pattern_manager (fst pt) []
         then map (tag_historical (snd pt))
                (scan_file Compiled search fnmatch re_search re_match
                   pattern_manager allowlist high_only (fs w) (fst pt))
         else [])
      (historical_files w)
    ++ (if deep_scan then _scan_git_objects else [])
  else [].

(** The dict [unique_findings]: keys in insertion order. *)
Definition dict : Type := list (string * Finding).

Fixpoint dict_get (k : string) (d : dict) : option Finding :=
  match d with
  | [] => None
  | (k', v) :: t => if String.eqb k k' then Some v else dict_get k t
  end.

(** [d[k] = v]: an existing key keeps its place. *)
Fixpoint dict_set (k : string) (v : Finding) (d : dict) : dict :=
  match d with
  | [] => [(k, v)]
  | (k', v') :: t =>
      if String.eqb k k' then (k', v) :: t else (k', v') :: dict_set k v t
  end.

(** One turn of the de-duplication loop of [scan]. *)
Definition dedup_step (unique : dict) (finding : Finding) : dict :=
  match dict_get (fingerprint finding) unique with
  | None => dict_set (fingerprint finding) finding unique
  | Some existing =>
      if (Severity_eqb (severity finding) HIGH &&
          negb (Severity_eqb (severity existing) HIGH)) ||
         (Severity_eqb (severity finding) MEDIUM &&
          Severity_eqb (severity existing) LOW)
      then dict_set (fingerprint finding) finding unique
      else unique
  end.

Definition unique_findings (all_findings : list Finding) : dict :=
  fold_left dedup_step all_findings [].

(** [list(unique_findings.values())] *)
Definition dedup (all_findings : list Finding) : list Finding :=
  map snd (unique_findings all_findings).

(** [SecretsScanner.scan] *)
Definition scan : list Finding :=
  match files_to_scan w with
  | [] => []
  | _ :: _ =>
      let pattern_findings :=
        flat_map
          (scan_file Compiled search fnmatch re_search re_match
             pattern_manager allowlist high_only (fs w))
          (files_to_scan w) in
      let detect_secrets_findings := _run_detect_secrets_scan in
      let git_findings :=
        if check_git_history then scan_historical_files else [] in
      dedup (pattern_findings ++ detect_secrets_findings ++ git_findings)
  end.

End Scan.

(** ** Collecting the files, the report and the exit status *)

Section Driver.
Variable Compiled : Type.
Variable fnmatch : string -> string -> bool.
Variable pattern_manager : PatternManager Compiled.
Variable is_git_repo : bool.
Variable git_ignored : string -> bool.
Variable scan_gitignored : bool.

(** One turn of the loop of [_collect_files_to_scan]; the state is the
    pair of [files_to_scan] and [gitignored_files]. *)
Definition collect_step (st : list string * list string)
    (file_path : string) : list string * list string :=
  if negb (should_scan_file Compiled fnmatch pattern_manager file_path [])
  then st
  else
    let is_gitignored := if is_git_repo then git_ignored file_path else false in
    if is_gitignored then
      if scan_gitignored then (fst st, snd st ++ [file_path]) else st
    else (fst st ++ [file_path], snd st).

(** [SecretsScanner._collect_files_to_scan]; [walk] lists the paths
    that the two loops over [os.walk] go through, in their order. *)
Definition _collect_files_to_scan (walk : list string) : list string :=
  let st := fold_left collect_step walk ([], []) in
  match scan_gitignored, snd st with
  | true, _ :: _ => fst st ++ snd st
  | _, _ => fst st
  end.

End Driver.

(** ** The allowlist file in the plain text format *)

(** [self.allowlist]: the stored fingerprints in the order of the dict,
    each with the value of ['reason'] when its info has that key. *)
Definition Allowlist : Type := list (string * option string).

(** [allowlist[key] = info]: an existing key keeps its place. *)
Fixpoint allowlist_set (key : string) (info : option string)
    (allowlist : Allowlist) : Allowlist :=
  match allowlist with
  | [] => [(key, info)]
  | (k, i) :: t =>
      if String.eqb key k then (k, info) :: t
      else (k, i) :: allowlist_set key info t
  end.

(** The keys, which is all that [is_allowlisted] reads. *)
Definition allowlist_keys (allowlist : Allowlist) : list string :=
  map fst allowlist.

(** [AllowlistManager._load_allowlist] on a file that is neither YAML
    nor JSON; [file] is its text, [None] when there is no such file. *)
Definition _load_allowlist (file : option string) : Allowlist :=
  match file with
  | None => []
  | Some content =>
      fold_left
        (fun allowlist line =>
           let line := Py.strip line in
           if Py.is_empty line || Py.startswith "#" line then allowlist
           else allowlist_set line (Some "Preapproved") allowlist)
        (Py.readlines content) []
  end.

(** [AllowlistManager.add_finding_to_allowlist]: the dict afterwards. *)
Definition add_finding_to_allowlist (allowlist : Allowlist) (f : Finding)
    (reason : string) : Allowlist :=
  let reason :=
    if Py.is_empty reason then "Manually allowlisted" else reason in
  allowlist_set (full_fingerprint f) (Some reason) allowlist.

(** What [add_finding_to_allowlist] writes into a file in the text
    format. *)
Definition saved_allowlist (allowlist : Allowlist) : string :=
  Py.written
    (map (fun item =>
            let reason_str :=
              match snd item with
              | Some reason => " # " ++ reason
              | None => EmptyString
              end in
            fst item ++ reason_str ++ Py.nl)%string
         allowlist).

(** [AllowlistManager.generate_allowlist_from_findings]: the dict it
    builds and what it writes into a file in the text format. *)
Definition generated_allowlist (findings : list Finding) : Allowlist :=
  fold_left
    (fun allowlist f =>
       allowlist_set (full_fingerprint f) (Some "TO REVIEW") allowlist)
    findings [].

Definition generate_allowlist_from_findings (findings : list Finding)
  : string :=
  Py.written
    (map (fun item => (fst item ++ Py.nl)%string)
       (generated_allowlist findings)).

(** [GitUtils.get_gitignore_patterns]; [gitignore] is the text of the
    file, [None] when there is none. *)
Definition get_gitignore_patterns (gitignore : option string)
  : list string :=
  match gitignore with
  | None => []
  | Some content =>
      fold_left
        (fun patterns line =>
           let line := Py.strip line in
           if Py.is_empty line || Py.startswith "#" line then patterns
           else patterns ++ [line])
        (Py.readlines content) []
  end.

(** [SecretsScanner._get_context_lines]; [lines] is what [f.readlines()]
    gives, [None] when the file cannot be read, [e] the text of the
    exception then. *)
Definition _get_context_lines (lines : option (list string)) (e : string)
    (line_number context : Z) : list string :=
  match lines with
  | Some lines =>
      let start := Z.max 0 (line_number - context - 1) in
      let end_ := Z.min (Z.of_nat (length lines)) (line_number + context) in
      Py.slice lines start end_
  | None => [("[Could not read file: " ++ e ++ "]")%string]
  end.

(** The code context of one Finding in [print_report]: each context
    line with the number printed before it and whether it carries the
    mark "FINDING HERE". *)
Definition code_context (line_number : Z) (context_lines : list string)
  : list (Z * string * bool) :=
  let start_line := Z.max 1 (line_number - 2) in
  map (fun il =>
         let line_num := (start_line + fst il)%Z in
         (line_num, Py.rstrip (snd il), Z.eqb line_num line_number))
      (Py.enumerate 0 context_lines).

(** The lists [high_findings], [medium_findings] and [low_findings] of
    [print_report]. *)
Definition findings_of_severity (s : Severity) (findings : list Finding)
  : list Finding :=
  filter (fun f => Severity_eqb (severity f) s) findings.

(** The value returned by [SecretsScanner.print_report]; what the method
    prints and the files it writes are not part of the model. *)
Definition print_report (findings : list Finding) : bool :=
  match findings with
  | [] => false
  | _ :: _ => (0 <? length (findings_of_severity HIGH findings))%nat
  end.

(** The status with which [main] exits after [scan] has returned
    [findings]. *)
Definition exit_status (high_only : bool) (findings : list Finding) : Z :=
  let high_findings_exist := print_report findings in
  if high_only then
    if high_findings_exist then 1%Z else 0%Z
  else
    match findings with
    | _ :: _ => 1%Z
    | [] => 0%Z
    end.

End Scanner2.

(* ===================================================================== *)
(** * [secrets_scanner.py] *)
(* ===================================================================== *)

Module Scanner1.

(** [class Finding] *)
Record Finding : Type := mkFinding {
  file_path : string;
  line_number : Z;
  line_content : string;
  pattern : string;
  severity : Severity;
  risk_type : RiskType;
  is_gitignored : bool;
  in_git_history : bool
}.

(** [f"{file_path}:{line_number}"] *)
Definition fingerprint (f : Finding) : string :=
  (file_path f ++ ":" ++ Py.str_int (line_number f))%string.

(** [f"{file_path}:{line_number}:{pattern}"] *)
Definition full_fingerprint (f : Finding) : string :=
  (file_path f ++ ":" ++ Py.str_int (line_number f) ++ ":" ++ pattern f)%string.

Definition set_severity (s : Severity) (f : Finding) : Finding :=
  mkFinding (file_path f) (line_number f) (line_content f) (pattern f) s
    (risk_type f) (is_gitignored f) (in_git_history f).

(** [SecretsScanner._compile_patterns] has the text of
    [PatternManager._compile_patterns] of [secrets_scanner2.py], the
    attributes living on the scanner itself. *)
Definition _compile_patterns := Scanner2._compile_patterns.

Section SecretsScanner.
Variable Compiled : Type.
Variable search : Compiled -> string -> bool.
Variable re_search : string -> string -> bool.
Variable re_match : string -> string -> option bool.

(** Attributes of the scanner. *)
Variable compiled_patterns : list (Compiled * string).
Variable compiled_overrides : list (Compiled * string).
Variable compiled_config_patterns : list (Compiled * string).
Variable compiled_exclusions : list Compiled.
Variable acceptable_findings : list string.
Variable high_only : bool.
Variable is_git_repo : bool.
(** [GitUtils.is_file_gitignored(path, directory)] *)
Variable git_ignored : string -> bool.

(** [SecretsScanner._is_acceptable_finding]; [None] when it raises. *)
Fixpoint _is_acceptable_finding (entries : list string) (f : Finding)
  : option bool :=
  match entries with
  | [] => Some false
  | acceptable :: rest =>
      if String.eqb (full_fingerprint f) acceptable then Some true
      else if Py.contains "*" acceptable then
        let regex_pattern := Py.replace "*" ".*" acceptable in
        match re_match regex_pattern (full_fingerprint f) with
        | None => None
        | Some true => Some true
        | Some false => _is_acceptable_finding rest f
        end
      else _is_acceptable_finding rest f
  end.

(** The risk-type part of [_determine_severity_and_risk]. *)
Definition risk_of (line_content : string) : RiskType :=
  if Py.any_in ["console."; "print"; "echo"] (Py.lower line_content)
  then DATA_EXPOSURE_LOGS
  else if Py.any_in ["return"; "res."; "response"] (Py.lower line_content)
  then DATA_EXPOSURE_RESPONSE
  else if Py.contains "[" line_content && Py.contains "]" line_content
  then SENSITIVE_CONFIG
  else HARDCODED_SECRET.

(** The file-type test written inside [_determine_severity_and_risk]. *)
Definition is_config_file (path : string) : bool :=
  let file_ext := Py.lower (OsPath.splitext_ext path) in
  let file_name := OsPath.basename path in
  mem_str file_ext Scanner2.config_extensions ||
  String.eqb file_name ".env" || Py.startswith ".env." file_name.

(** [SecretsScanner._determine_severity_and_risk] *)
Definition _determine_severity_and_risk
    (path line_content matching_pattern : string) : Severity * RiskType :=
  let risk_type := risk_of line_content in
  let lc := Py.lower line_content in
  if existsb (fun cp => search (fst cp) line_content) compiled_overrides
  then (HIGH, risk_type)
  else if is_config_file path &&
          existsb (fun term => Py.contains (Py.lower term) lc &&
                               Py.contains "=" line_content)
            Scanner2.sensitive_terms
  then (HIGH, risk_type)
  else if (Py.contains "console." lc || Py.contains "print" lc ||
           Py.contains "echo" lc) &&
          Py.any_in ["pass"; "secret"; "token"; "api"; "cred"] lc
  then (HIGH, risk_type)
  else if re_search Scanner2.quoted_value_pattern line_content
  then (MEDIUM, risk_type)
  else if Py.any_in ["postgres"; "sql"; "mysql"; "mongo"] lc &&
          Py.any_in ["password"; "pass"; "pwd"] lc
  then (HIGH, risk_type)
  else if re_search Scanner2.password_assignment_pattern lc &&
          Py.any_in Scanner2.special_chars line_content
  then (HIGH, risk_type)
  else if Py.contains "client_id" lc || Py.contains "client_secret" lc
  then (HIGH, risk_type)
  else (LOW, risk_type).

(** [SecretsScanner._should_exclude] *)
Definition _should_exclude (line_content : string) : bool :=
  existsb (fun c => search c line_content) compiled_exclusions.

(** "Set higher severity for historical files still tracked" *)
Definition escalate (is_historical is_still_tracked : bool) (f : Finding)
  : Finding :=
  if is_historical && is_still_tracked &&
     negb (Severity_eqb (severity f) HIGH)
  then set_severity HIGH f else f.

(** The body of the loop over the lines of one file in [scan]. *)
Definition scan_line (path : string) (is_historical is_still_tracked : bool)
    (i : Z) (line : string) : Loop.M unit :=
  if _should_exclude line then Loop.ret tt
  else
    let all_patterns :=
      compiled_patterns ++ compiled_overrides ++ compiled_config_patterns in
    Loop.for_each all_patterns
      (fun cp =>
         if search (fst cp) line then
           let sr := _determine_severity_and_risk path line (snd cp) in
           let ignored :=
             is_historical || (is_git_repo && git_ignored path) in
           let finding :=
             escalate is_historical is_still_tracked
               (mkFinding path i (Py.strip line) (snd cp) (fst sr) (snd sr)
                  ignored is_historical) in
           ok <- Loop.call (_is_acceptable_finding acceptable_findings
                              finding) ;;
           if ok then Loop.ret tt
           else if high_only && negb (Severity_eqb (severity finding) HIGH)
           then Loop.ret tt
           else Loop.append finding
         else Loop.ret tt).

(** The [try] block of one file, continuing the list [findings]. *)
Definition scan_lines (path : string) (is_historical is_still_tracked : bool)
    (lines : list string) (findings : list Finding) : list Finding :=
  Loop.catching
    (Loop.for_each (Py.enumerate 1 lines)
       (fun il =>
          scan_line path is_historical is_still_tracked (fst il) (snd il)))
    findings.

(** PART 2 of [scan]: every file of [all_files_to_scan] in turn. *)
Definition scan_files (fs : string -> option (list string))
    (historical_files : list (string * bool))
    (all_files_to_scan : list string) : list Finding :=
  fold_left
    (fun findings path =>
       let is_historical :=
         existsb (fun ft => String.eqb (fst ft) path) historical_files in
       let is_still_tracked :=
         if is_historical then
           match find (fun ft => String.eqb (fst ft) path) historical_files
           with
           | Some ft => snd ft
           | None => false
           end
         else false in
       match fs path with
       | Some lines =>
           scan_lines path is_historical is_still_tracked lines findings
       | None => findings
       end)
    all_files_to_scan [].

Definition dict : Type := list (string * Finding).

Fixpoint dict_get (k : string) (d : dict) : option Finding :=
  match d with
  | [] => None
  | (k', v) :: t => if String.eqb k k' then Some v else dict_get k t
  end.

(** "Remove duplicates (same file:line findings)" *)
Definition dedup_step (unique : dict) (finding : Finding) : dict :=
  match dict_get (fingerprint finding) unique with
  | None => unique ++ [(fingerprint finding, finding)]
  | Some _ => unique
  end.

Definition unique_findings (findings : list Finding) : dict :=
  fold_left dedup_step findings [].

Definition dedup (findings : list Finding) : list Finding :=
  map snd (unique_findings findings).

(** [SecretsScanner.scan] from PART 2 on; [detect_secrets_findings] is
    what [_run_detect_secrets_scan] returned (empty when the detector
    is off or failed). *)
Definition scan (fs : string -> option (list string))
    (regular_files : list string) (historical_files : list (string * bool))
    (detect_secrets_findings : list Finding) : list Finding :=
  dedup (scan_files fs historical_files
           (regular_files ++ map fst historical_files)
         ++ detect_secrets_findings).

End SecretsScanner.

(** The list [high_findings] of [print_report]. *)
Definition high_findings (findings : list Finding) : list Finding :=
  filter (fun f => Severity_eqb (severity f) HIGH) findings.

(** ** The files read and written around a scan *)

(** [SecretsScanner._load_acceptable_findings]: what is appended to
    [self.acceptable_findings]; [file] is the text of the allow file,
    [None] when there is none. *)
Definition _load_acceptable_findings (file : option string) : list string :=
  match file with
  | None => []
  | Some content =>
      fold_left
        (fun acceptable_findings line =>
           let line := Py.strip line in
           if Py.is_empty line || Py.startswith "#" line
           then acceptable_findings
           else acceptable_findings ++ [line])
        (Py.readlines content) []
  end.

(** [SecretsScanner._add_gitignore_patterns]: [self.exclude_dirs]
    afterwards; [gitignore] is the text of [.gitignore]. *)
Definition _add_gitignore_patterns (gitignore : option string)
    (exclude_dirs : list string) : list string :=
  match gitignore with
  | None => exclude_dirs
  | Some content =>
      fold_left
        (fun exclude_dirs line =>
           let line := Py.strip line in
           if Py.is_empty line || Py.startswith "#" line then exclude_dirs
           else
             let pattern :=
               if Py.startswith "/" line then Py.drop 1 line
               else ("**/" ++ line)%string in
             if mem_str pattern exclude_dirs then exclude_dirs
             else exclude_dirs ++ [pattern])
        (Py.readlines content) exclude_dirs
  end.

(** One turn of the loop of [_generate_fingerprints_file]; the state is
    the list of the chunks written and the set [processed]. *)
Definition fingerprints_step (st : list string * list string) (f : Finding)
  : list string * list string :=
  if mem_str (fingerprint f) (snd st) then st
  else (fst st ++ [(full_fingerprint f ++ Py.nl)%string],
        snd st ++ [fingerprint f]).

(** [SecretsScanner._generate_fingerprints_file]: the text written to
    [secrets_scan_fingerprints.txt]; [now] is the formatted date. *)
Definition _generate_fingerprints_file (now allow_file : string)
    (findings : list Finding) : string :=
  Py.written
    ([("# Generated fingerprints from scan on " ++ now ++ Py.nl)%string;
      ("# Add lines from this file to " ++ allow_file
       ++ " to allowlist them" ++ Py.nl)%string;
      ("# Format: file:line:pattern" ++ Py.nl ++ Py.nl)%string]
     ++ fst (fold_left fingerprints_step findings ([], []))).

End Scanner1.


(* ===================================================================== *)
(** * The specification's wording, for comparison with the code *)
(* ===================================================================== *)

Module Spec.

(** [t] occurs in [s]. *)
Definition Occurs (t s : string) : Prop :=
  exists a b, s = (a ++ t ++ b)%string.

(** Some token of a lexicon occurs in [s]. *)
Definition AnyOccurs (lexicon : list string) (s : string) : Prop :=
  exists t, In t lexicon /\ Occurs t s.

Definition logging_lexicon : list string := ["console."; "print"; "echo"; "log."].
Definition response_lexicon : list string := ["return"; "res."; "response"].

(** "the line contains a bracketed section header ([...])": an opening
    bracket with a closing bracket after it. *)
Fixpoint has_bracketed_header (line : string) : bool :=
  match line with
  | EmptyString => false
  | String c t =>
      if Ascii.eqb c "[" then Py.contains "]" t || has_bracketed_header t
      else has_bracketed_header t
  end.

(** The first test that holds decides: logging, else response, else
    brackets, else the default. *)
Definition prepass_chain (logs resp brackets : Prop) (r : RiskType) : Prop :=
  (r = DATA_EXPOSURE_LOGS <-> logs) /\
  (r = DATA_EXPOSURE_RESPONSE <-> ~ logs /\ resp) /\
  (r = SENSITIVE_CONFIG <-> ~ logs /\ ~ resp /\ brackets) /\
  (r = HARDCODED_SECRET <-> ~ logs /\ ~ resp /\ ~ brackets).

(** 4.2, step 1: the risk-type pre-pass as the specification words it. *)
Definition risk_prepass (line : string) : RiskType :=
  if Py.any_in logging_lexicon (Py.lower line) then DATA_EXPOSURE_LOGS
  else if Py.any_in response_lexicon (Py.lower line) then DATA_EXPOSURE_RESPONSE
  else if has_bracketed_header line then SENSITIVE_CONFIG
  else HARDCODED_SECRET.

Section Survivor.
Context {F : Type}.
Variable fingerprint : F -> string.
Variable severity : F -> Severity.

Definition first_with (k : string) (s : Severity) (stream : list F) : option F :=
  find (fun f => String.eqb (fingerprint f) k && Severity_eqb (severity f) s)
    stream.

Definition first_of (k : string) (stream : list F) : option F :=
  find (fun f => String.eqb (fingerprint f) k) stream.

(** 4.5, step 3: of the Findings with fingerprint [k], the first HIGH
    one; if none is HIGH, the first MEDIUM one; otherwise the first. *)
Definition survivor (k : string) (stream : list F) : option F :=
  match first_with k HIGH stream with
  | Some f => Some f
  | None =>
      match first_with k MEDIUM stream with
      | Some f => Some f
      | None => first_of k stream
      end
  end.
End Survivor.

Section IsAllowed.
Variable re_match : string -> string -> option bool.

(** 4.3 (c): every stored entry with a wildcard, in turn, becomes a
    regular expression that is tried on both fingerprint forms. *)
Fixpoint glob_check (entries : list string) (fp full : string) : option bool :=
  match entries with
  | [] => Some false
  | e :: rest =>
      if Py.contains "*" e then
        match re_match (Py.replace "*" ".*" e) fp with
        | None => None
        | Some true => Some true
        | Some false =>
            match re_match (Py.replace "*" ".*" e) full with
            | None => None
            | Some true => Some true
            | Some false => glob_check rest fp full
            end
        end
      else glob_check rest fp full
  end.

(** 4.3: (a) exact fullFingerprint, (b) exact bare fingerprint, (c) glob;
    the first match short-circuits. *)
Definition isAllowed (entries : list string) (fp full : string) : option bool :=
  if mem_str full entries then Some true
  else if mem_str fp entries then Some true
  else glob_check entries fp full.
End IsAllowed.

End Spec.

(* ===================================================================== *)
(** * An engine instance and a small project, to run the scanners *)
(* ===================================================================== *)

(** An instance of the [re] and [fnmatch] interfaces for examples.  It
    accepts the patterns written without special characters, on which
    [re.compile(p, re.IGNORECASE).search(line)] tests whether the text
    occurs in the line, letter case ignored, and such a text followed
    by one repetition count [{n}], which repeats its last character:
    on a count of [MAXREPEAT] or more it raises [OverflowError], as
    CPython does.  It rejects every other pattern with [re.error].  Its
    [fnmatch] knows the wildcards [*] and [?]. *)
Module Literal.

Definition Compiled : Type := string.

Definition special (c : ascii) : bool :=
  PyRe.unmodelled c || existsb (Ascii.eqb c) ["."; "*"; "("; ")"]%char.

Fixpoint literal (p : string) : bool :=
  match p with
  | EmptyString => true
  | String c t => negb (special c) && literal t
  end.

(** [MAXREPEAT] of CPython's [re] where [Py_ssize_t] has 64 bits. *)
Definition MAXREPEAT : Z := 4294967295.

Definition digit_value (c : ascii) : option Z :=
  let n := nat_of_ascii c in
  if ((48 <=? n) && (n <=? 57))%nat then Some (Z.of_nat (n - 48)) else None.

(** The count of a repetition that ends the pattern: [s] is the text
    after the opening brace, [acc] the value of the digits read, [seen]
    tells whether there was one. *)
Fixpoint count (s : string) (seen : bool) (acc : Z) : option Z :=
  match s with
  | EmptyString => None
  | String c t =>
      match digit_value c with
      | Some d => count t true (10 * acc + d)%Z
      | None =>
          if Ascii.eqb c "}" && seen && Py.is_empty t then Some acc
          else None
      end
  end.

(** A pattern [t{n}] with a literal text [t] that is not empty: the
    text before the last character of [t], that character and [n]. *)
Fixpoint repetition (p : string) : option (string * ascii * Z) :=
  match p with
  | EmptyString => None
  | String c t =>
      if special c then None
      else
        match t with
        | String "{" u =>
            option_map (fun n => (EmptyString, c, n)) (count u false 0)
        | _ =>
            option_map (fun r => (String c (fst (fst r)), snd (fst r), snd r))
              (repetition t)
        end
  end.

Fixpoint times (n : nat) (c : ascii) : string :=
  match n with
  | O => EmptyString
  | S k => String c (times k c)
  end.

Definition re_compile (p : string) : PyRe.compiled Compiled :=
  if literal p then PyRe.Compiles p
  else
    match repetition p with
    | Some (t, c, n) =>
        if (MAXREPEAT <=? n)%Z then PyRe.OtherError "OverflowError"
        else PyRe.Compiles (String.append t (times (Z.to_nat n) c))
    | None => PyRe.ReError
    end.

Definition search (c : Compiled) (line : string) : bool :=
  Py.contains (Py.lower c) (Py.lower line).

Fixpoint glob (pat : string) : string -> bool :=
  match pat with
  | EmptyString => fun s => match s with EmptyString => true | _ => false end
  | String c pat' =>
      if Ascii.eqb c "*" then
        fix star (s : string) : bool :=
          glob pat' s ||
          match s with
          | EmptyString => false
          | String _ t => star t
          end
      else
        fun s =>
          match s with
          | EmptyString => false
          | String d t => (Ascii.eqb c "?" || Ascii.eqb c d) && glob pat' t
          end
  end.

Definition fnmatch (name pat : string) : bool := glob pat name.

(** [re.search] for the two classifier patterns: they need a quoted
    value or a password assignment, which the lines of the examples do
    not hold. *)
Definition re_search (p s : string) : bool := false.

Definition re_match : string -> string -> option bool :=
  PyRe.re_match_with (fun _ _ => Some false).

End Literal.

Module Demo.

Definition patterns : Scanner2.Patterns :=
  Scanner2.mkPatterns
    ["token"] [] ["token"; "secret"]
    ["client_secret ="]
    ["user ="]
    ["#"; "TODO"]
    ["*.py"; "*.yaml"] Scanner2.default_config_files ["**/node_modules/**"].

(** The PatternManager that [_compile_patterns] builds from [patterns]
    in loose mode. *)
Definition pm : Scanner2.PatternManager Literal.Compiled :=
  Scanner2.mkPatternManager patterns
    [("token", "token")] [("client_secret =", "client_secret =")]
    [("user =", "user =")] ["#"; "TODO"].

(** The patterns of a pattern file that adds one pattern, with a
    repetition count of 2**32, to those of [patterns]. *)
Definition huge_repeat : Scanner2.Patterns :=
  Scanner2.mkPatterns
    ["token"] ["key{4294967296}"] ["token"; "secret"]
    ["client_secret ="]
    ["user ="]
    ["#"; "TODO"]
    ["*.py"; "*.yaml"] Scanner2.default_config_files ["**/node_modules/**"].

(** A source file with a commented-out line and two live ones. *)
Definition app_py : list string :=
  ["# token = abc"; "user = bob"; "token = abc"].

Definition fs (path : string) : option (list string) :=
  if String.eqb path "app.py" then Some app_py
  else if String.eqb path "old_keys.py" then Some ["token = abc"]
  else None.

(** A checkout in which [old_keys.py] is gitignored, in the history and
    still tracked. *)
Definition world : Scanner2.World :=
  Scanner2.mkWorld fs ["app.py"] [] true
    (fun path => String.eqb path "old_keys.py")
    [("old_keys.py", true)] [].

(** The Finding of line 3 of [app.py]. *)
Definition finding : Scanner2.Finding :=
  Scanner2.mkFinding "app.py" 3 "token = abc" "token" LOW HARDCODED_SECRET
    EmptyString false false false.

(** The same Finding as the older scanner records it. *)
Definition finding1 : Scanner1.Finding :=
  Scanner1.mkFinding "app.py" 3 "token = abc" "token" LOW HARDCODED_SECRET
    false false.

End Demo.

(* ===================================================================== *)
(** * Predicates used in the statements and in the proofs *)
(* ===================================================================== *)

Module Shape.

Section Compile.
Variable Compiled : Type.
Variable re_compile : string -> PyRe.compiled Compiled.

(** The pattern compiles: [re.compile] returns. *)
Definition compiles (p : string) : bool :=
  match re_compile p with PyRe.Compiles _ => true | _ => false end.

(** The pattern, or its simplified form, compiles. *)
Definition compiles_relaxed (p : string) : bool :=
  compiles p || compiles (Scanner2.simplified p).

(** The matcher kept for a main pattern: its own, else that of its
    simplified form. *)
Definition kept_main (cp : Compiled * string) : Prop :=
  re_compile (snd cp) = PyRe.Compiles (fst cp) \/
  (re_compile (snd cp) = PyRe.ReError /\
   re_compile (Scanner2.simplified (snd cp)) = PyRe.Compiles (fst cp)).

(** The exception that [re.compile] raises on the pattern and that is
    not [re.error], if it raises one. *)
Definition escape (p : string) : option string :=
  match re_compile p with PyRe.OtherError exc => Some exc | _ => None end.

(** The same for a main pattern, whose simplified form is compiled
    when the pattern itself raises [re.error]. *)
Definition escape_main (p : string) : option string :=
  match re_compile p with
  | PyRe.Compiles _ => None
  | PyRe.ReError => escape (Scanner2.simplified p)
  | PyRe.OtherError exc => Some exc
  end.

(** The first such exception along a list of patterns. *)
Fixpoint first_escape (f : string -> option string) (ps : list string)
  : option string :=
  match ps with
  | [] => None
  | p :: rest =>
      match f p with
      | Some exc => Some exc
      | None => first_escape f rest
      end
  end.

(** The first such exception along the four groups, in the order in
    which [_compile_patterns] compiles them. *)
Definition escaping (mode : string) (p : Scanner2.Patterns)
  : option string :=
  let main :=
    if String.eqb mode "strict" then Scanner2.strict_patterns p
    else Scanner2.loose_patterns p ++ Scanner2.additional_patterns p in
  match first_escape escape_main main with
  | Some exc => Some exc
  | None =>
      match first_escape escape (Scanner2.override_patterns p) with
      | Some exc => Some exc
      | None =>
          match first_escape escape (Scanner2.config_patterns p) with
          | Some exc => Some exc
          | None => first_escape escape (Scanner2.exclusion_patterns p)
          end
      end
  end.

End Compile.

(** What the dict holds after the loop has read [stream]. *)
Record dedup_inv (stream : list Scanner2.Finding)
    (d : Scanner2.dict) : Prop := {
  inv_lookup : forall k,
      Scanner2.dict_get k d = Spec.survivor Scanner2.fingerprint Scanner2.severity k stream;
  inv_keys : NoDup (map fst d);
  inv_entries : forall k v, In (k, v) d -> k = Scanner2.fingerprint v
}.

(** What the dict of the older scanner holds after reading [stream]. *)
Record dedup_inv1 (stream : list Scanner1.Finding)
    (d : Scanner1.dict) : Prop := {
  inv_lookup1 : forall k, Scanner1.dict_get k d = Spec.first_of Scanner1.fingerprint k stream;
  inv_keys1 : NoDup (map fst d);
  inv_entries1 : forall k v, In (k, v) d -> k = Scanner1.fingerprint v
}.

(** [m] only appends to the list, and what it appends satisfies [Q]. *)
Definition adds {F} (Q : F -> Prop) {A} (m : Loop.M (F:=F) A) : Prop :=
  forall st, exists new, fst (m st) = st ++ new /\ Forall Q new.

Section Emitted2.
Import Scanner2.
Variable Compiled : Type.
Variable search : Compiled -> string -> bool.
Variable fnmatch : string -> string -> bool.
Variable pm : PatternManager Compiled.

(** What every Finding appended for line [i] of a file looks like. *)
Record emitted2 (path : string) (i : Z) (line : string) (f : Finding)
  : Prop := {
  em_path : file_path f = path;
  em_line : line_number f = i;
  em_not_excluded : should_exclude_line Compiled search pm line = false;
  em_group :
    In (pattern f) (map snd (compiled_overrides pm ++ compiled_patterns pm)) \/
    (is_config_file Compiled fnmatch pm path = true /\
     In (pattern f) (map snd (compiled_config_patterns pm)));
  em_history : in_git_history f = false;
  em_tracked : is_still_tracked f = false
}.

End Emitted2.

Section Emitted1.
Import Scanner1.
Variable Compiled : Type.
Variable search : Compiled -> string -> bool.
Variable compiled_exclusions : list Compiled.

(** What every Finding appended for line [i] of a file looks like. *)
Record emitted1 (is_historical is_still_tracked : bool) (i : Z)
    (line : string) (f : Finding) : Prop := {
  em1_line : line_number f = i;
  em1_not_excluded :
    _should_exclude Compiled search compiled_exclusions line = false;
  em1_history : in_git_history f = is_historical;
  em1_escalated :
    is_historical && is_still_tracked = true -> severity f = HIGH
}.

End Emitted1.


(** The literal text [w] followed by [r]. *)
Fixpoint lit_then (w : string) (r : PyRe.regex) : PyRe.regex :=
  match w with
  | EmptyString => r
  | String c w' => PyRe.Cat (PyRe.Chr c) (lit_then w' r)
  end.

(** A decimal digit. *)
Definition digit (c : ascii) : bool :=
  existsb (Ascii.eqb c) ["0"; "1"; "2"; "3"; "4"; "5"; "6"; "7"; "8"; "9"]%char.

Fixpoint all_digits (s : string) : bool :=
  match s with
  | EmptyString => true
  | String c t => digit c && all_digits t
  end.

(** The stored entry of Scenario F and the pattern built from it. *)
Definition entry42 : string := "src/config.py:42:*".

End Shape.

(** Predicates about what a run reports. *)
Module Report.

Section Reported2.
Import Scanner2.
Variable Compiled : Type.
Variable search : Compiled -> string -> bool.
Variable fnmatch : string -> string -> bool.
Variable re_search : string -> string -> bool.
Variable re_match : string -> string -> option bool.
Variable pm : PatternManager Compiled.
Variable allowlist : list string.
Variable high_only : bool.

(** The pattern groups that [scan_file] runs on the lines of [path]. *)
Definition groups_for (path : string) : list (Compiled * string) :=
  compiled_overrides pm ++ compiled_patterns pm ++
  (if is_config_file Compiled fnmatch pm path
   then compiled_config_patterns pm else []).

(** The Finding went through the two gates of the scanner. *)
Record passed (f : Finding) : Prop := {
  passed_allowlist : is_allowlisted re_match allowlist f = Some false;
  passed_high_only : high_only = true -> severity f = HIGH
}.

(** What [scan_file] reports for line [i] of [path], whose text is
    [line]. *)
Record reported2 (path : string) (i : Z) (line : string) (f : Finding)
  : Prop := {
  rp_path : file_path f = path;
  rp_line : line_number f = i;
  rp_content : line_content f = Py.strip line;
  rp_not_excluded : should_exclude_line Compiled search pm line = false;
  rp_fires : exists cp, In cp (groups_for path) /\
                        search (fst cp) line = true /\ pattern f = snd cp;
  rp_class :
    (severity f, risk_type f) =
      _determine_severity_and_risk Compiled search fnmatch re_search pm
        path line (pattern f) \/
    (severity f, risk_type f) = (HIGH, SENSITIVE_CONFIG);
  rp_flags : is_gitignored f = false /\ in_git_history f = false /\
             is_still_tracked f = false;
  rp_passed : passed f
}.

(** What [report] appends for a Finding when the allowlist matcher
    returns. *)
Definition gate (f : Finding) : list Finding :=
  match is_allowlisted re_match allowlist f with
  | Some false =>
      if high_only && negb (Severity_eqb (severity f) HIGH) then [] else [f]
  | _ => []
  end.

(** The Finding built for a firing of an override, a primary and a
    config-specific pattern. *)
Definition override_finding (path : string) (i : Z) (line : string)
    (cp : Compiled * string) : Finding :=
  let sr := _determine_severity_and_risk Compiled search fnmatch re_search pm
              path line (snd cp) in
  mkFinding path i (Py.strip line) (snd cp) (fst sr) (snd sr)
    ("Override pattern: " ++ snd cp) false false false.

Definition primary_finding (path : string) (i : Z) (line : string)
    (cp : Compiled * string) : Finding :=
  let sr := _determine_severity_and_risk Compiled search fnmatch re_search pm
              path line (snd cp) in
  mkFinding path i (Py.strip line) (snd cp) (fst sr) (snd sr) EmptyString
    false false false.

Definition config_finding (path : string) (i : Z) (line : string)
    (cp : Compiled * string) : Finding :=
  mkFinding path i (Py.strip line) (snd cp) HIGH SENSITIVE_CONFIG
    "Sensitive config pattern" false false false.

(** The Findings of one pattern group on a line. *)
Definition group_findings (make : Compiled * string -> Finding)
    (line : string) (group : list (Compiled * string)) : list Finding :=
  flat_map (fun cp => if search (fst cp) line then gate (make cp) else [])
    group.

(** What [scan_line] appends when the allowlist matcher returns. *)
Definition line_findings (path : string) (i : Z) (line : string)
  : list Finding :=
  if should_exclude_line Compiled search pm line then []
  else
    group_findings (override_finding path i line) line
      (compiled_overrides pm) ++
    group_findings (primary_finding path i line) line
      (compiled_patterns pm) ++
    (if is_config_file Compiled fnmatch pm path
     then group_findings (config_finding path i line) line
            (compiled_config_patterns pm)
     else []).

End Reported2.

(** The character [c] does not occur in [s]. *)
Fixpoint lacks (c : ascii) (s : string) : bool :=
  match s with
  | EmptyString => true
  | String d t => negb (Ascii.eqb d c) && lacks c t
  end.

(** A text that a text file gives back as one entry when it is written
    on a line of its own: it holds no line break, has no white space at
    either end, is not empty and does not start like a comment. *)
Definition line_safe (s : string) : bool :=
  lacks Py.LF s && lacks Py.CR s && String.eqb (Py.strip s) s &&
  negb (Py.is_empty s) && negb (Py.startswith "#" s).

Section Reported1.
Import Scanner1.
Variable Compiled : Type.
Variable search : Compiled -> string -> bool.
Variable re_match : string -> string -> option bool.
Variable compiled_patterns : list (Compiled * string).
Variable compiled_overrides : list (Compiled * string).
Variable compiled_config_patterns : list (Compiled * string).
Variable compiled_exclusions : list Compiled.
Variable acceptable_findings : list string.
Variable high_only : bool.

(** What the file loop of [secrets_scanner.py] appends for line [i] of
    [path], whose text is [line]. *)
Definition reported1 (path : string) (i : Z) (line : string) (f : Finding)
  : Prop :=
  file_path f = path /\ line_number f = i /\
  line_content f = Py.strip line /\
  _should_exclude Compiled search compiled_exclusions line = false /\
  (exists cp,
      In cp (compiled_patterns ++ compiled_overrides ++
             compiled_config_patterns) /\
      search (fst cp) line = true /\ pattern f = snd cp) /\
  _is_acceptable_finding re_match acceptable_findings f = Some false /\
  (high_only = true -> severity f = HIGH).

End Reported1.

(** [m1] does to the HIGH part of the list what [m2] does to the list,
    and raises when [m2] does. *)
Definition sim {A} (m1 m2 : Loop.M (F:=Scanner2.Finding) A) : Prop :=
  forall st,
    fst (m1 (Scanner2.findings_of_severity HIGH st)) =
      Scanner2.findings_of_severity HIGH (fst (m2 st)) /\
    snd (m1 (Scanner2.findings_of_severity HIGH st)) = snd (m2 st).

(** The same for the older scanner. *)
Definition sim1 {A} (m1 m2 : Loop.M (F:=Scanner1.Finding) A) : Prop :=
  forall st,
    fst (m1 (Scanner1.high_findings st)) =
      Scanner1.high_findings (fst (m2 st)) /\
    snd (m1 (Scanner1.high_findings st)) = snd (m2 st).

(** One turn of a loop that appends the value found for an item unless
    it is already in the list. *)
Definition add_new (g : string -> option string) (acc : list string)
    (x : string) : list string :=
  match g x with
  | None => acc
  | Some p => if mem_str p acc then acc else acc ++ [p]
  end.

(** The exclusion that [_add_gitignore_patterns] derives from a line of
    [.gitignore], if any. *)
Definition gitignore_exclusion (line : string) : option string :=
  let line := Py.strip line in
  if Py.is_empty line || Py.startswith "#" line then None
  else Some (if Py.startswith "/" line then Py.drop 1 line
             else ("**/" ++ line)%string).

(** The provenance flags of a Finding fit together: a Finding marked
    as still tracked comes from the history of a gitignored file, and
    a Finding from the history is either in a gitignored file or in a
    blob, which is HIGH. *)
Definition provenance_ok (f : Scanner2.Finding) : Prop :=
  (Scanner2.is_still_tracked f = true ->
   Scanner2.in_git_history f = true /\ Scanner2.is_gitignored f = true) /\
  (Scanner2.in_git_history f = true ->
   Scanner2.is_gitignored f = true \/
   (Py.startswith "[Git blob] " (Scanner2.file_path f) = true /\
    Scanner2.severity f = HIGH)).

(** The characters of an allowlist entry that the regular expression
    built from the entry reads as a literal, as [.] or as the wildcard:
    all but the parentheses and the characters left to the [re]
    engine. *)
Definition glob_char (c : ascii) : bool :=
  negb (PyRe.unmodelled c) && negb (Ascii.eqb c "(") &&
  negb (Ascii.eqb c ")").

Fixpoint simple_entry (e : string) : bool :=
  match e with
  | EmptyString => true
  | String c t => glob_char c && simple_entry t
  end.

(** The text [p] matches the entry [e] read as a glob: a [*] stands for
    any run of characters without newline, a [.] for any character but
    a newline, any other character for itself. *)
Fixpoint glob_lang (e p : string) : Prop :=
  match e with
  | EmptyString => p = EmptyString
  | String c e' =>
      if Ascii.eqb c "*" then
        exists u v, p = (u ++ v)%string /\ lacks PyRe.newline u = true /\
                    glob_lang e' v
      else
        exists d v, p = String d v /\
                    (if Ascii.eqb c "." then d <> PyRe.newline else d = c) /\
                    glob_lang e' v
  end.

(** Some prefix of [s] matches the entry [e]. *)
Definition glob_prefix (e s : string) : Prop :=
  exists p t, s = (p ++ t)%string /\ glob_lang e p.

(** The regular expression that an entry stands for. *)
Definition glob_atom (c : ascii) : PyRe.item :=
  if Ascii.eqb c "*" then (PyRe.Star PyRe.Any, true)
  else if Ascii.eqb c "." then (PyRe.Any, false)
  else (PyRe.Chr c, false).

Fixpoint glob_regex (e : string) : PyRe.regex :=
  match e with
  | EmptyString => PyRe.Eps
  | String c t => PyRe.Cat (fst (glob_atom c)) (glob_regex t)
  end.

(** A text without line break and without wildcard. *)
Definition plain_line (s : string) : bool :=
  lacks Py.LF s && lacks Py.CR s && lacks "*" s.

End Report.

(* ===================================================================== *)
(** * Properties *)
(* ===================================================================== *)

Import Shape.

(** ** Facts about the string built-ins *)

Module PyFacts.

Lemma startswith_app (p t : string) : Py.startswith p (p ++ t) = true.
Proof.
  induction p as [|c p IH]; simpl.
  - reflexivity.
  - rewrite Ascii.eqb_refl. exact IH.
Qed.

Lemma startswith_inv (p s : string) :
  Py.startswith p s = true -> exists t, s = (p ++ t)%string.
Proof.
  revert s. induction p as [|c p IH]; intros s H.
  - exists s. reflexivity.
  - destruct s as [|d s]; simpl in H; [discriminate|].
    apply andb_true_iff in H. destruct H as [Hc Hp].
    apply Ascii.eqb_eq in Hc. subst d.
    destruct (IH s Hp) as [t ->]. exists t. reflexivity.
Qed.

Lemma startswith_iff (p s : string) :
  Py.startswith p s = true <-> exists t, s = (p ++ t)%string.
Proof.
  split.
  - apply startswith_inv.
  - intros [t ->]. apply startswith_app.
Qed.

Lemma contains_unfold (n h : string) :
  Py.contains n h =
  Py.startswith n h ||
  match h with EmptyString => false | String _ t => Py.contains n t end.
Proof. destruct h; reflexivity. Qed.

(** [needle in hay] holds exactly when [needle] occurs in [hay]. *)
Lemma contains_iff (n h : string) :
  Py.contains n h = true <-> Spec.Occurs n h.
Proof.
  unfold Spec.Occurs. split.
  - induction h as [|c h IH]; rewrite contains_unfold; intros H.
    + rewrite orb_false_r in H. apply startswith_inv in H.
      destruct H as [t ->]. exists EmptyString, t. reflexivity.
    + apply orb_true_iff in H. destruct H as [H|H].
      * apply startswith_inv in H. destruct H as [t ->].
        exists EmptyString, t. reflexivity.
      * destruct (IH H) as (a & b & ->).
        exists (String c a), b. reflexivity.
  - intros (a & b & ->). induction a as [|c a IH].
    + rewrite contains_unfold. simpl (EmptyString ++ _)%string.
      rewrite startswith_app. reflexivity.
    + rewrite contains_unfold. simpl. rewrite IH. apply orb_true_r.
Qed.

Lemma any_in_iff (lexicon : list string) (s : string) :
  Py.any_in lexicon s = true <-> Spec.AnyOccurs lexicon s.
Proof.
  unfold Py.any_in, Spec.AnyOccurs. rewrite existsb_exists. split.
  - intros (t & Hin & Hc). exists t. split; [exact Hin|].
    apply contains_iff. exact Hc.
  - intros (t & Hin & Hc). exists t. split; [exact Hin|].
    apply contains_iff. exact Hc.
Qed.

Lemma any_in_false_iff (lexicon : list string) (s : string) :
  Py.any_in lexicon s = false <-> ~ Spec.AnyOccurs lexicon s.
Proof.
  rewrite <- any_in_iff. destruct (Py.any_in lexicon s); split; intros H.
  - discriminate.
  - exfalso. apply H. reflexivity.
  - intros H'. discriminate.
  - reflexivity.
Qed.

Lemma mem_str_iff (x : string) (xs : list string) :
  mem_str x xs = true <-> In x xs.
Proof.
  unfold mem_str. rewrite existsb_exists. split.
  - intros (y & Hin & Heq). apply String.eqb_eq in Heq. subst y. exact Hin.
  - intros Hin. exists x. split; [exact Hin|apply String.eqb_refl].
Qed.

Lemma mem_str_app (x : string) (l1 l2 : list string) :
  mem_str x (l1 ++ l2) = mem_str x l1 || mem_str x l2.
Proof. unfold mem_str. apply existsb_app. Qed.

End PyFacts.

(** ** Classification *)

(** C10: the classifier's result does not depend on the matched pattern.
    In both scanners, [_determine_severity_and_risk] returns the same
    (severity, risk type) pair for any two pattern strings, whatever the
    file path, the line, the compiled override patterns and the [re] and
    [fnmatch] engines. *)
Theorem C10_classifier_ignores_matched_pattern :
  forall (Compiled : Type) (search : Compiled -> string -> bool)
         (fnmatch re_search : string -> string -> bool)
         (pm : Scanner2.PatternManager Compiled)
         (overrides1 : list (Compiled * string))
         (path line p1 p2 : string),
    Scanner2._determine_severity_and_risk Compiled search fnmatch re_search
      pm path line p1 =
    Scanner2._determine_severity_and_risk Compiled search fnmatch re_search
      pm path line p2
    /\
    Scanner1._determine_severity_and_risk Compiled search re_search
      overrides1 path line p1 =
    Scanner1._determine_severity_and_risk Compiled search re_search
      overrides1 path line p2.
Proof.
  intros. split; reflexivity.
Qed.

Lemma risk_type_logs (line : string) :
  Scanner2._determine_risk_type line = DATA_EXPOSURE_LOGS <->
  Spec.AnyOccurs Spec.logging_lexicon (Py.lower line).
Proof.
  unfold Scanner2._determine_risk_type.
  rewrite <- PyFacts.any_in_iff. unfold Spec.logging_lexicon.
  destruct (Py.any_in _ (Py.lower line)).
  - split; reflexivity.
  - split; [|discriminate].
    destruct (Py.any_in _ _); [discriminate|].
    destruct (_ && _); discriminate.
Qed.

Lemma brackets_iff (line : string) :
  Py.contains "[" line && Py.contains "]" line = true <->
  Spec.Occurs "[" line /\ Spec.Occurs "]" line.
Proof.
  rewrite andb_true_iff, !PyFacts.contains_iff. reflexivity.
Qed.

(** C4 (as amended): the risk-type pre-pass of [secrets_scanner2.py]
    assigns DATA_EXPOSURE_LOGS exactly when the lower-cased line contains
    one of "console.", "print", "echo", "log."; otherwise
    DATA_EXPOSURE_RESPONSE exactly when it contains one of "return",
    "res.", "response"; otherwise SENSITIVE_CONFIG exactly when the line
    contains both a "[" and a "]" character, in either order; otherwise
    HARDCODED_SECRET.  A line with "log." is thus DATA_EXPOSURE_LOGS.  The
    pre-pass written inside [secrets_scanner.py]'s classifier is the same
    chain with the lexicon "console.", "print", "echo". *)
Theorem C4_risk_type_prepass :
  forall line : string,
    Spec.prepass_chain
      (Spec.AnyOccurs ["console."; "print"; "echo"; "log."] (Py.lower line))
      (Spec.AnyOccurs ["return"; "res."; "response"] (Py.lower line))
      (Spec.Occurs "[" line /\ Spec.Occurs "]" line)
      (Scanner2._determine_risk_type line)
    /\
    Spec.prepass_chain
      (Spec.AnyOccurs ["console."; "print"; "echo"] (Py.lower line))
      (Spec.AnyOccurs ["return"; "res."; "response"] (Py.lower line))
      (Spec.Occurs "[" line /\ Spec.Occurs "]" line)
      (Scanner1.risk_of line)
    /\
    (forall a b : string,
        Scanner2._determine_risk_type (a ++ "log." ++ b) = DATA_EXPOSURE_LOGS).
Proof.
  intros line.
  assert (Hgen : forall lexicon r,
             r = (if Py.any_in lexicon (Py.lower line) then DATA_EXPOSURE_LOGS
                  else if Py.any_in ["return"; "res."; "response"]
                            (Py.lower line)
                       then DATA_EXPOSURE_RESPONSE
                       else if Py.contains "[" line && Py.contains "]" line
                            then SENSITIVE_CONFIG else HARDCODED_SECRET) ->
             Spec.prepass_chain
               (Spec.AnyOccurs lexicon (Py.lower line))
               (Spec.AnyOccurs ["return"; "res."; "response"] (Py.lower line))
               (Spec.Occurs "[" line /\ Spec.Occurs "]" line) r).
  { intros lexicon r ->. unfold Spec.prepass_chain.
    rewrite <- !PyFacts.any_in_iff, <- brackets_iff.
    destruct (Py.any_in lexicon (Py.lower line));
      destruct (Py.any_in _ (Py.lower line));
      destruct (_ && _);
      repeat split; intros; try discriminate; try reflexivity;
      try tauto;
      try (match goal with
           | H : _ /\ _ |- _ => decompose [and] H; clear H
           end; try discriminate; try congruence;
           try (exfalso; auto; fail)). }
  split; [|split].
  - apply Hgen. reflexivity.
  - apply Hgen. reflexivity.
  - intros a b. apply risk_type_logs.
    exists "log.". split.
    + simpl. auto.
    + assert (Happ : forall x y,
                 Py.lower (x ++ y) = (Py.lower x ++ Py.lower y)%string).
      { induction x as [|c x IH]; intros y; simpl;
          [reflexivity|rewrite IH; reflexivity]. }
      rewrite !Happ. exists (Py.lower a), (Py.lower b). reflexivity.
Qed.

(** C4, counterexample to the claim as worded: the line "][" contains no
    bracketed header, so the claimed chain gives HARDCODED_SECRET, while
    the code gives SENSITIVE_CONFIG; and on "catalog.x" the older
    scanner, whose lexicon lacks "log.", gives HARDCODED_SECRET where the
    claimed chain gives DATA_EXPOSURE_LOGS. *)
Lemma C4_counterexample :
  Spec.risk_prepass "][" = HARDCODED_SECRET /\
  Scanner2._determine_risk_type "][" = SENSITIVE_CONFIG /\
  Scanner1.risk_of "][" = SENSITIVE_CONFIG /\
  Spec.risk_prepass "catalog.x" = DATA_EXPOSURE_LOGS /\
  Scanner1.risk_of "catalog.x" = HARDCODED_SECRET.
Proof. repeat split; vm_compute; reflexivity. Qed.

(** ** Pattern compilation *)

Section Compile.
Variable Compiled : Type.
Variable re_compile : string -> PyRe.compiled Compiled.

Local Abbreviation compiles := (Shape.compiles Compiled re_compile).
Local Abbreviation compiles_relaxed := (Shape.compiles_relaxed Compiled re_compile).
Local Abbreviation kept_main := (Shape.kept_main Compiled re_compile).
Local Abbreviation escape := (Shape.escape Compiled re_compile).
Local Abbreviation escape_main := (Shape.escape_main Compiled re_compile).
Local Abbreviation escaping := (Shape.escaping Compiled re_compile).

Lemma compile_main_returns (ps : list string) :
  Shape.first_escape escape_main ps = None ->
  forall acc, exists cps,
    Scanner2.compile_main Compiled re_compile ps acc = Py.Returns (acc ++ cps) /\
    map snd cps = filter compiles_relaxed ps /\
    Forall kept_main cps.
Proof.
  induction ps as [|p ps IH]; cbn [Shape.first_escape]; intros H acc.
  - exists []. rewrite app_nil_r. repeat split. constructor.
  - cbn [Scanner2.compile_main filter].
    unfold Shape.compiles_relaxed, Shape.compiles, Shape.escape_main,
      Shape.escape in *.
    destruct (re_compile p) eqn:E1; [| |discriminate H].
    + destruct (IH H (acc ++ [(c, p)])) as (cps & R & M & K).
      exists ((c, p) :: cps). rewrite R, <- app_assoc. cbn [orb map snd].
      repeat split; [rewrite M; reflexivity|].
      constructor; [left; exact E1|exact K].
    + destruct (re_compile (Scanner2.simplified p)) eqn:E2;
        [| |discriminate H].
      * destruct (IH H (acc ++ [(c, p)])) as (cps & R & M & K).
        exists ((c, p) :: cps). rewrite R, <- app_assoc. cbn [orb map snd].
        repeat split; [rewrite M; reflexivity|].
        constructor; [right; split; assumption|exact K].
      * apply IH. exact H.
Qed.

Lemma compile_main_raises (ps : list string) (exc : string) :
  Shape.first_escape escape_main ps = Some exc ->
  forall acc,
    Scanner2.compile_main Compiled re_compile ps acc = Py.Raises exc.
Proof.
  induction ps as [|p ps IH]; cbn [Shape.first_escape]; intros H acc;
    [discriminate H|].
  cbn [Scanner2.compile_main].
  unfold Shape.escape_main, Shape.escape in H.
  destruct (re_compile p).
  - apply IH. exact H.
  - destruct (re_compile (Scanner2.simplified p)).
    + apply IH. exact H.
    + apply IH. exact H.
    + congruence.
  - congruence.
Qed.

Lemma compile_pairs_returns (ps : list string) :
  Shape.first_escape escape ps = None ->
  forall acc, exists cps,
    Scanner2.compile_pairs Compiled re_compile ps acc = Py.Returns (acc ++ cps) /\
    map snd cps = filter compiles ps /\
    Forall (fun cp => re_compile (snd cp) = PyRe.Compiles (fst cp)) cps.
Proof.
  induction ps as [|p ps IH]; cbn [Shape.first_escape]; intros H acc.
  - exists []. rewrite app_nil_r. repeat split. constructor.
  - cbn [Scanner2.compile_pairs filter].
    unfold Shape.compiles, Shape.escape in *.
    destruct (re_compile p) eqn:E1; [| |discriminate H].
    + destruct (IH H (acc ++ [(c, p)])) as (cps & R & M & K).
      exists ((c, p) :: cps). rewrite R, <- app_assoc. cbn [map snd].
      repeat split; [rewrite M; reflexivity|].
      constructor; [exact E1|exact K].
    + apply IH. exact H.
Qed.

Lemma compile_pairs_raises (ps : list string) (exc : string) :
  Shape.first_escape escape ps = Some exc ->
  forall acc,
    Scanner2.compile_pairs Compiled re_compile ps acc = Py.Raises exc.
Proof.
  induction ps as [|p ps IH]; cbn [Shape.first_escape]; intros H acc;
    [discriminate H|].
  cbn [Scanner2.compile_pairs]. unfold Shape.escape in H.
  destruct (re_compile p); [apply IH; exact H|apply IH; exact H|congruence].
Qed.

Lemma compile_plain_returns (ps : list string) :
  Shape.first_escape escape ps = None ->
  forall acc, exists cs,
    Scanner2.compile_plain Compiled re_compile ps acc = Py.Returns (acc ++ cs) /\
    map PyRe.Compiles cs = map re_compile (filter compiles ps).
Proof.
  induction ps as [|p ps IH]; cbn [Shape.first_escape]; intros H acc.
  - exists []. rewrite app_nil_r. split; reflexivity.
  - cbn [Scanner2.compile_plain filter].
    unfold Shape.compiles, Shape.escape in *.
    destruct (re_compile p) eqn:E1; [| |discriminate H].
    + destruct (IH H (acc ++ [c])) as (cs & R & M).
      exists (c :: cs). rewrite R, <- app_assoc. cbn [map].
      rewrite E1, M. split; reflexivity.
    + apply IH. exact H.
Qed.

Lemma compile_plain_raises (ps : list string) (exc : string) :
  Shape.first_escape escape ps = Some exc ->
  forall acc,
    Scanner2.compile_plain Compiled re_compile ps acc = Py.Raises exc.
Proof.
  induction ps as [|p ps IH]; cbn [Shape.first_escape]; intros H acc;
    [discriminate H|].
  cbn [Scanner2.compile_plain]. unfold Shape.escape in H.
  destruct (re_compile p); [apply IH; exact H|apply IH; exact H|congruence].
Qed.

Lemma first_escape_none (f : string -> option string) (ps : list string) :
  Shape.first_escape f ps = None -> forall q, In q ps -> f q = None.
Proof.
  induction ps as [|p ps IH]; cbn [Shape.first_escape In]; intros H q I;
    [contradiction|].
  destruct (f p) eqn:E; [discriminate H|].
  destruct I as [<-|I]; [exact E|apply IH; assumption].
Qed.

(** What [_compile_patterns] does, group by group. *)
Lemma compile_patterns_cases (mode : string) (p : Scanner2.Patterns) :
  match escaping mode p with
  | Some exc =>
      Scanner2._compile_patterns Compiled re_compile mode p = Py.Raises exc
  | None =>
      exists pm,
        Scanner2._compile_patterns Compiled re_compile mode p =
          Py.Returns pm /\
        Scanner2.raw pm = p /\
        map snd (Scanner2.compiled_patterns pm) =
          filter compiles_relaxed
            (if String.eqb mode "strict" then Scanner2.strict_patterns p
             else Scanner2.loose_patterns p ++
                  Scanner2.additional_patterns p) /\
        Forall kept_main (Scanner2.compiled_patterns pm) /\
        map snd (Scanner2.compiled_overrides pm) =
          filter compiles (Scanner2.override_patterns p) /\
        Forall (fun cp => re_compile (snd cp) = PyRe.Compiles (fst cp))
          (Scanner2.compiled_overrides pm) /\
        map snd (Scanner2.compiled_config_patterns pm) =
          filter compiles (Scanner2.config_patterns p) /\
        Forall (fun cp => re_compile (snd cp) = PyRe.Compiles (fst cp))
          (Scanner2.compiled_config_patterns pm) /\
        map PyRe.Compiles (Scanner2.compiled_exclusions pm) =
          map re_compile (filter compiles (Scanner2.exclusion_patterns p))
  end.
Proof.
  unfold Shape.escaping, Scanner2._compile_patterns, Scanner2.patterns_to_use.
  destruct (Shape.first_escape escape_main _) as [exc|] eqn:E1.
  { rewrite (compile_main_raises _ _ E1). reflexivity. }
  destruct (compile_main_returns _ E1 []) as (cps & R1 & M1 & K1).
  rewrite R1. cbn [Py.and_then app].
  destruct (Shape.first_escape escape (Scanner2.override_patterns p))
    as [exc|] eqn:E2.
  { rewrite (compile_pairs_raises _ _ E2). reflexivity. }
  destruct (compile_pairs_returns _ E2 []) as (ovs & R2 & M2 & K2).
  rewrite R2. cbn [Py.and_then app].
  destruct (Shape.first_escape escape (Scanner2.config_patterns p))
    as [exc|] eqn:E3.
  { rewrite (compile_pairs_raises _ _ E3). reflexivity. }
  destruct (compile_pairs_returns _ E3 []) as (cfs & R3 & M3 & K3).
  rewrite R3. cbn [Py.and_then app].
  destruct (Shape.first_escape escape (Scanner2.exclusion_patterns p))
    as [exc|] eqn:E4.
  { rewrite (compile_plain_raises _ _ E4). reflexivity. }
  destruct (compile_plain_returns _ E4 []) as (exs & R4 & M4).
  rewrite R4. cbn [Py.and_then app].
  eexists. split; [reflexivity|]. cbn.
  repeat split; assumption.
Qed.

(** An exception of another class on any pattern of a group that is
    compiled shows in [escaping]. *)
Lemma escaping_of_pattern (mode : string) (p : Scanner2.Patterns)
    (q exc : string) :
  In q ((if String.eqb mode "strict" then Scanner2.strict_patterns p
         else Scanner2.loose_patterns p ++ Scanner2.additional_patterns p) ++
        Scanner2.override_patterns p ++ Scanner2.config_patterns p ++
        Scanner2.exclusion_patterns p) ->
  re_compile q = PyRe.OtherError exc ->
  exists exc', escaping mode p = Some exc'.
Proof.
  intros I E. unfold Shape.escaping.
  assert (Em : escape_main q = Some exc)
    by (unfold Shape.escape_main; rewrite E; reflexivity).
  assert (Ep : escape q = Some exc)
    by (unfold Shape.escape; rewrite E; reflexivity).
  destruct (Shape.first_escape escape_main _) as [e|] eqn:E1;
    [exists e; reflexivity|].
  destruct (Shape.first_escape escape (Scanner2.override_patterns p))
    as [e|] eqn:E2; [exists e; reflexivity|].
  destruct (Shape.first_escape escape (Scanner2.config_patterns p))
    as [e|] eqn:E3; [exists e; reflexivity|].
  destruct (Shape.first_escape escape (Scanner2.exclusion_patterns p))
    as [e|] eqn:E4; [exists e; reflexivity|].
  exfalso. rewrite !in_app_iff in I.
  destruct I as [I|[I|[I|I]]].
  - rewrite (first_escape_none _ _ E1 q) in Em by exact I. discriminate Em.
  - rewrite (first_escape_none _ _ E2 q I) in Ep. discriminate Ep.
  - rewrite (first_escape_none _ _ E3 q I) in Ep. discriminate Ep.
  - rewrite (first_escape_none _ _ E4 q I) in Ep. discriminate Ep.
Qed.

(** C9: pattern compilation can fail.  [_compile_patterns] (the same
    method in both scanners) guards every call of [re.compile] with
    [except re.error] only.  When [re.compile] raises an exception of
    another class on a pattern of a group that is compiled (the main
    group of the mode, the override, config-specific or exclusion
    patterns), as CPython does with [OverflowError] on a repetition
    count of 2**32, the method does not drop the pattern: it raises,
    and returns no compiled groups at all; the exception is the first
    one in the order of compilation.  Only when no call raises such an
    exception does it return, and then the main group keeps, in
    declaration order, exactly the patterns that compile either as
    written or in their simplified form, each with the matcher so
    obtained and its original text; the override and config-specific
    groups keep exactly the patterns that compile; and the exclusion
    group holds the matchers of the exclusion patterns that compile. *)
Theorem C9_compile_lets_other_exceptions_through :
  forall (mode : string) (p : Scanner2.Patterns),
    Scanner1._compile_patterns Compiled re_compile mode p =
      Scanner2._compile_patterns Compiled re_compile mode p /\
    (forall q exc,
        In q ((if String.eqb mode "strict" then Scanner2.strict_patterns p
               else Scanner2.loose_patterns p ++
                    Scanner2.additional_patterns p) ++
              Scanner2.override_patterns p ++ Scanner2.config_patterns p ++
              Scanner2.exclusion_patterns p) ->
        re_compile q = PyRe.OtherError exc ->
        exists exc',
          Scanner2._compile_patterns Compiled re_compile mode p =
            Py.Raises exc') /\
    (forall exc,
        escaping mode p = Some exc ->
        Scanner2._compile_patterns Compiled re_compile mode p =
          Py.Raises exc) /\
    (escaping mode p = None ->
     exists pm,
       Scanner2._compile_patterns Compiled re_compile mode p =
         Py.Returns pm /\
       Scanner2.raw pm = p /\
       map snd (Scanner2.compiled_patterns pm) =
         filter compiles_relaxed
           (if String.eqb mode "strict" then Scanner2.strict_patterns p
            else Scanner2.loose_patterns p ++
                 Scanner2.additional_patterns p) /\
       Forall kept_main (Scanner2.compiled_patterns pm) /\
       map snd (Scanner2.compiled_overrides pm) =
         filter compiles (Scanner2.override_patterns p) /\
       Forall (fun cp => re_compile (snd cp) = PyRe.Compiles (fst cp))
         (Scanner2.compiled_overrides pm) /\
       map snd (Scanner2.compiled_config_patterns pm) =
         filter compiles (Scanner2.config_patterns p) /\
       Forall (fun cp => re_compile (snd cp) = PyRe.Compiles (fst cp))
         (Scanner2.compiled_config_patterns pm) /\
       map PyRe.Compiles (Scanner2.compiled_exclusions pm) =
         map re_compile (filter compiles (Scanner2.exclusion_patterns p))).
Proof.
  intros mode p. pose proof (compile_patterns_cases mode p) as C.
  split; [reflexivity|]. split; [|split].
  - intros q exc I E.
    destruct (escaping_of_pattern mode p q exc I E) as (exc' & Es).
    exists exc'. rewrite Es in C. exact C.
  - intros exc Es. rewrite Es in C. exact C.
  - intros Es. rewrite Es in C. exact C.
Qed.

End Compile.

(** The pattern file of [Demo.huge_repeat]: the pattern [token] is the
    first of its group and compiles, then [key{4294967296}] makes
    [re.compile] raise [OverflowError], and both scanners' method raises
    it instead of returning compiled groups.  Without that pattern the
    method returns the groups of [Demo.pm]. *)
Lemma C9_witness :
  Scanner2._compile_patterns Literal.Compiled Literal.re_compile "loose"
    Demo.huge_repeat = Py.Raises "OverflowError" /\
  Scanner1._compile_patterns Literal.Compiled Literal.re_compile "loose"
    Demo.huge_repeat = Py.Raises "OverflowError" /\
  Scanner2._compile_patterns Literal.Compiled Literal.re_compile "loose"
    Demo.patterns = Py.Returns Demo.pm.
Proof.
  pose proof (C9_compile_lets_other_exceptions_through Literal.Compiled
                Literal.re_compile "loose" Demo.huge_repeat)
    as (Same & _ & Raises & _).
  assert (R : Scanner2._compile_patterns Literal.Compiled Literal.re_compile
                "loose" Demo.huge_repeat = Py.Raises "OverflowError")
    by (apply Raises; vm_compute; reflexivity).
  split; [exact R|]. split; [rewrite Same; exact R|].
  vm_compute. reflexivity.
Defined.

(** ** De-duplication *)

Module DedupFacts.

Lemma find_snoc {A} (p : A -> bool) (l : list A) (x : A) :
  find p (l ++ [x]) =
  match find p l with
  | Some y => Some y
  | None => if p x then Some x else None
  end.
Proof.
  induction l as [|a l IH]; simpl.
  - reflexivity.
  - destruct (p a); [reflexivity|exact IH].
Qed.

Lemma find_weaken {A} (p q : A -> bool) (l : list A) :
  find p l = None -> find (fun x => p x && q x) l = None.
Proof.
  induction l as [|a l IH]; simpl; intros H; [reflexivity|].
  destruct (p a); [discriminate|]. simpl. apply IH. exact H.
Qed.

Lemma Severity_eqb_eq (a b : Severity) : Severity_eqb a b = true <-> a = b.
Proof. destruct a, b; simpl; split; intros H; congruence. Qed.

Section V2.
Import Scanner2.

Lemma dict_get_set (k k' : string) (v : Finding) (d : dict) :
  dict_get k (dict_set k' v d) =
  if String.eqb k k' then Some v else dict_get k d.
Proof.
  induction d as [|[k0 v0] d IH]; simpl.
  - reflexivity.
  - destruct (String.eqb k' k0) eqn:E0; simpl.
    + apply String.eqb_eq in E0. subst k0.
      destruct (String.eqb k k'); reflexivity.
    + destruct (String.eqb k k0) eqn:E1.
      * apply String.eqb_eq in E1. subst k0.
        rewrite String.eqb_sym, E0. reflexivity.
      * exact IH.
Qed.

Lemma dict_get_In (k : string) (v : Finding) (d : dict) :
  dict_get k d = Some v -> In (k, v) d.
Proof.
  induction d as [|[k0 v0] d IH]; simpl; [discriminate|].
  destruct (String.eqb k k0) eqn:E.
  - apply String.eqb_eq in E. subst k0. intros [= ->]. left. reflexivity.
  - intros H. right. apply IH. exact H.
Qed.

Lemma In_dict_get (k : string) (v : Finding) (d : dict) :
  NoDup (map fst d) -> In (k, v) d -> dict_get k d = Some v.
Proof.
  induction d as [|[k0 v0] d IH]; simpl; intros Hnd Hin; [contradiction|].
  inversion Hnd as [|? ? Hnotin Hnd']; subst.
  destruct Hin as [[= -> ->]|Hin].
  - rewrite String.eqb_refl. reflexivity.
  - destruct (String.eqb k k0) eqn:E.
    + apply String.eqb_eq in E. subst k0. exfalso. apply Hnotin.
      apply (in_map fst) in Hin. exact Hin.
    + apply IH; assumption.
Qed.

Lemma dict_set_keys (k : string) (v : Finding) (d : dict) :
  map fst (dict_set k v d) =
  match dict_get k d with
  | Some _ => map fst d
  | None => map fst d ++ [k]
  end.
Proof.
  induction d as [|[k0 v0] d IH]; simpl; [reflexivity|].
  destruct (String.eqb k k0) eqn:E; simpl.
  - reflexivity.
  - rewrite IH. destruct (dict_get k d); reflexivity.
Qed.

Lemma dict_get_None_keys (k : string) (d : dict) :
  dict_get k d = None -> ~ In k (map fst d).
Proof.
  induction d as [|[k0 v0] d IH]; simpl; intros H Hin; [exact Hin|].
  destruct (String.eqb k k0) eqn:E; [discriminate|].
  destruct Hin as [->|Hin].
  - rewrite String.eqb_refl in E. discriminate.
  - exact (IH H Hin).
Qed.

Lemma dict_set_In (k k0 : string) (v v0 : Finding) (d : dict) :
  In (k0, v0) (dict_set k v d) -> (k0 = k /\ v0 = v) \/ In (k0, v0) d.
Proof.
  induction d as [|[k1 v1] d IH]; simpl.
  - intros [[= -> ->]|[]]. left. split; reflexivity.
  - destruct (String.eqb k k1) eqn:E; simpl.
    + apply String.eqb_eq in E. subst k1.
      intros [[= -> ->]|H]; [left; split; reflexivity|right; right; exact H].
    + intros [H|H]; [right; left; exact H|].
      destruct (IH H) as [H'|H']; [left; exact H'|right; right; exact H'].
Qed.


Lemma unique_findings_snoc (stream : list Finding) (f : Finding) :
  unique_findings (stream ++ [f]) = dedup_step (unique_findings stream) f.
Proof. unfold unique_findings. apply fold_left_app. Qed.

Lemma survivor_snoc_other (stream : list Finding) (f : Finding) (k : string) :
  String.eqb (fingerprint f) k = false ->
  Spec.survivor fingerprint severity k (stream ++ [f]) =
  Spec.survivor fingerprint severity k stream.
Proof.
  intros E. unfold Spec.survivor, Spec.first_with, Spec.first_of.
  rewrite !find_snoc, E. simpl.
  repeat match goal with |- context [find ?p stream] => destruct (find p stream) end;
    reflexivity.
Qed.

(** The three shapes of the survivor of a fingerprint. *)
Lemma survivor_cases (stream : list Finding) (k : string) :
  let H := Spec.first_with fingerprint severity k HIGH stream in
  let M := Spec.first_with fingerprint severity k MEDIUM stream in
  let A := Spec.first_of fingerprint k stream in
  (exists e, H = Some e /\ severity e = HIGH) \/
  (H = None /\ exists e, M = Some e /\ severity e = MEDIUM) \/
  (H = None /\ M = None /\ exists e, A = Some e /\ severity e = LOW) \/
  (H = None /\ M = None /\ A = None).
Proof.
  intros H M A. unfold H, M, A, Spec.first_with, Spec.first_of.
  destruct (find (fun f => String.eqb (fingerprint f) k &&
                           Severity_eqb (severity f) HIGH) stream) as [e|] eqn:EH.
  { left. exists e. split; [reflexivity|].
    apply find_some in EH. destruct EH as [_ EH].
    apply andb_true_iff in EH. apply Severity_eqb_eq. tauto. }
  right.
  destruct (find (fun f => String.eqb (fingerprint f) k &&
                           Severity_eqb (severity f) MEDIUM) stream) as [e|] eqn:EM.
  { left. split; [reflexivity|]. exists e. split; [reflexivity|].
    apply find_some in EM. destruct EM as [_ EM].
    apply andb_true_iff in EM. apply Severity_eqb_eq. tauto. }
  right.
  destruct (find (fun f => String.eqb (fingerprint f) k) stream) as [e|] eqn:EA.
  - left. repeat split. exists e. split; [reflexivity|].
    apply find_some in EA. destruct EA as [Hin Hk].
    pose proof (find_none _ _ EH e Hin) as N1.
    pose proof (find_none _ _ EM e Hin) as N2.
    simpl in N1, N2. rewrite Hk in N1, N2. simpl in N1, N2.
    destruct (severity e); simpl in *; congruence.
  - right. repeat split.
Qed.

Lemma dedup_step_lookup (stream : list Finding) (d : dict) (f : Finding) :
  (forall k, dict_get k d = Spec.survivor fingerprint severity k stream) ->
  forall k,
    dict_get k (dedup_step d f) =
    Spec.survivor fingerprint severity k (stream ++ [f]).
Proof.
  intros IH k. destruct (String.eqb (fingerprint f) k) eqn:E.
  - apply String.eqb_eq in E. subst k.
    pose proof (survivor_cases stream (fingerprint f)) as C. cbv zeta in C.
    unfold dedup_step. rewrite (IH (fingerprint f)).
    unfold Spec.survivor, Spec.first_with, Spec.first_of in *.
    rewrite !find_snoc, !String.eqb_refl.
    destruct C as [(e & EH & Se)|[(EH & e & EM & Se)|
                   [(EH & EM & e & EA & Se)|(EH & EM & EA)]]];
      rewrite ?EH, ?EM, ?EA, ?Se; destruct (severity f) eqn:Sf; simpl;
      rewrite ?dict_get_set, ?String.eqb_refl, ?IH, ?EH, ?EM, ?EA;
      reflexivity.
  - rewrite survivor_snoc_other by exact E. rewrite <- IH.
    unfold dedup_step.
    assert (Hne : String.eqb k (fingerprint f) = false)
      by (rewrite String.eqb_sym; exact E).
    destruct (dict_get (fingerprint f) d);
      [destruct (_ || _)|]; rewrite ?dict_get_set, ?Hne; reflexivity.
Qed.

Lemma dedup_step_keys (d : dict) (f : Finding) :
  NoDup (map fst d) -> NoDup (map fst (dedup_step d f)).
Proof.
  intros Hnd. unfold dedup_step.
  destruct (dict_get (fingerprint f) d) eqn:E.
  - destruct (_ || _); [|exact Hnd].
    rewrite dict_set_keys, E. exact Hnd.
  - rewrite dict_set_keys, E. apply NoDup_app.
    + exact Hnd.
    + constructor; [intros []|constructor].
    + intros a Ha [<-|[]]. exact (dict_get_None_keys _ _ E Ha).
Qed.

Lemma dedup_step_entries (d : dict) (f : Finding) :
  (forall k v, In (k, v) d -> k = fingerprint v) ->
  forall k v, In (k, v) (dedup_step d f) -> k = fingerprint v.
Proof.
  intros IH k v. unfold dedup_step.
  destruct (dict_get (fingerprint f) d);
    [destruct (_ || _)|]; intros Hin; try (apply IH; exact Hin);
    apply dict_set_In in Hin; destruct Hin as [[-> ->]|Hin];
    try reflexivity; apply IH; exact Hin.
Qed.

Lemma unique_findings_inv (stream : list Finding) :
  dedup_inv stream (unique_findings stream).
Proof.
  induction stream as [|f stream IH] using rev_ind.
  - constructor.
    + intros k. reflexivity.
    + constructor.
    + intros k v [].
  - rewrite unique_findings_snoc. destruct IH as [I1 I2 I3]. constructor.
    + apply dedup_step_lookup. exact I1.
    + apply dedup_step_keys. exact I2.
    + apply dedup_step_entries. exact I3.
Qed.

Lemma dedup_fingerprints (stream : list Finding) :
  map fingerprint (dedup stream) = map fst (unique_findings stream).
Proof.
  unfold dedup. rewrite map_map. apply map_ext_in.
  intros [k v] Hin. simpl. symmetry.
  apply (inv_entries _ _ (unique_findings_inv stream)). exact Hin.
Qed.

Lemma dedup_In (stream : list Finding) (g : Finding) :
  In g (dedup stream) <->
  Spec.survivor fingerprint severity (fingerprint g) stream = Some g.
Proof.
  destruct (unique_findings_inv stream) as [I1 I2 I3].
  rewrite <- I1. unfold dedup. split.
  - intros Hin. apply in_map_iff in Hin. destruct Hin as ([k v] & <- & Hin).
    simpl. rewrite <- (I3 k v Hin). apply In_dict_get; assumption.
  - intros Hget. apply dict_get_In in Hget.
    apply in_map_iff. exists (fingerprint g, g). split; [reflexivity|exact Hget].
Qed.

Lemma survivor_exists (stream : list Finding) (f : Finding) :
  In f stream ->
  exists g, Spec.survivor fingerprint severity (fingerprint f) stream = Some g /\
            fingerprint g = fingerprint f.
Proof.
  intros Hin.
  pose proof (survivor_cases stream (fingerprint f)) as C. cbv zeta in C.
  unfold Spec.survivor.
  assert (Hfp : forall s e, Spec.first_with fingerprint severity (fingerprint f)
                              s stream = Some e -> fingerprint e = fingerprint f).
  { intros s e H. apply find_some in H. destruct H as [_ H].
    apply andb_true_iff in H. destruct H as [H _].
    apply String.eqb_eq. exact H. }
  destruct C as [(e & EH & Se)|[(EH & e & EM & Se)|
                 [(EH & EM & e & EA & Se)|(EH & EM & EA)]]].
  - rewrite EH. exists e. split; [reflexivity|]. exact (Hfp _ _ EH).
  - rewrite EH, EM. exists e. split; [reflexivity|]. exact (Hfp _ _ EM).
  - rewrite EH, EM, EA. exists e. split; [reflexivity|].
    apply find_some in EA. destruct EA as [_ EA].
    apply String.eqb_eq. exact EA.
  - exfalso. pose proof (find_none _ _ EA f Hin) as N. simpl in N.
    rewrite String.eqb_refl in N. discriminate.
Qed.

End V2.

Section V1.
Import Scanner1.

Lemma dict_get_snoc1 (k k' : string) (v : Finding) (d : dict) :
  dict_get k (d ++ [(k', v)]) =
  match dict_get k d with
  | Some x => Some x
  | None => if String.eqb k k' then Some v else None
  end.
Proof.
  induction d as [|[k0 v0] d IH]; simpl.
  - reflexivity.
  - destruct (String.eqb k k0); [reflexivity|exact IH].
Qed.

Lemma dict_get_In1 (k : string) (v : Finding) (d : dict) :
  dict_get k d = Some v -> In (k, v) d.
Proof.
  induction d as [|[k0 v0] d IH]; simpl; [discriminate|].
  destruct (String.eqb k k0) eqn:E.
  - apply String.eqb_eq in E. subst k0. intros [= ->]. left. reflexivity.
  - intros H. right. apply IH. exact H.
Qed.

Lemma In_dict_get1 (k : string) (v : Finding) (d : dict) :
  NoDup (map fst d) -> In (k, v) d -> dict_get k d = Some v.
Proof.
  induction d as [|[k0 v0] d IH]; simpl; intros Hnd Hin; [contradiction|].
  inversion Hnd as [|? ? Hnotin Hnd']; subst.
  destruct Hin as [[= -> ->]|Hin].
  - rewrite String.eqb_refl. reflexivity.
  - destruct (String.eqb k k0) eqn:E.
    + apply String.eqb_eq in E. subst k0. exfalso. apply Hnotin.
      apply (in_map fst) in Hin. exact Hin.
    + apply IH; assumption.
Qed.

Lemma dict_get_None_keys1 (k : string) (d : dict) :
  dict_get k d = None -> ~ In k (map fst d).
Proof.
  induction d as [|[k0 v0] d IH]; simpl; intros H Hin; [exact Hin|].
  destruct (String.eqb k k0) eqn:E; [discriminate|].
  destruct Hin as [->|Hin].
  - rewrite String.eqb_refl in E. discriminate.
  - exact (IH H Hin).
Qed.


Lemma unique_findings_inv1 (stream : list Finding) :
  dedup_inv1 stream (unique_findings stream).
Proof.
  induction stream as [|f stream IH] using rev_ind.
  - constructor.
    + intros k. reflexivity.
    + constructor.
    + intros k v [].
  - unfold unique_findings. rewrite fold_left_app. simpl.
    fold (unique_findings stream). destruct IH as [I1 I2 I3].
    unfold dedup_step.
    destruct (dict_get (fingerprint f) (unique_findings stream)) eqn:E.
    + constructor; [|exact I2|exact I3].
      intros k. unfold Spec.first_of. rewrite find_snoc.
      fold (Spec.first_of fingerprint k stream). rewrite <- I1.
      destruct (dict_get k (unique_findings stream)) eqn:Ek; [reflexivity|].
      destruct (String.eqb (fingerprint f) k) eqn:Ef; [|reflexivity].
      apply String.eqb_eq in Ef. subst k. congruence.
    + constructor.
      * intros k. rewrite dict_get_snoc1. unfold Spec.first_of.
        rewrite find_snoc. fold (Spec.first_of fingerprint k stream).
        rewrite <- I1, (String.eqb_sym k). reflexivity.
      * rewrite map_app. apply NoDup_app.
        -- exact I2.
        -- constructor; [intros []|constructor].
        -- intros a Ha [<-|[]]. exact (dict_get_None_keys1 _ _ E Ha).
      * intros k v Hin. apply in_app_or in Hin.
        destruct Hin as [Hin|[[= <- <-]|[]]]; [apply I3; exact Hin|reflexivity].
Qed.

Lemma dedup_fingerprints1 (stream : list Finding) :
  map fingerprint (dedup stream) = map fst (unique_findings stream).
Proof.
  unfold dedup. rewrite map_map. apply map_ext_in.
  intros [k v] Hin. simpl. symmetry.
  apply (inv_entries1 _ _ (unique_findings_inv1 stream)). exact Hin.
Qed.

Lemma dedup_In1 (stream : list Finding) (g : Finding) :
  In g (dedup stream) <->
  Spec.first_of fingerprint (fingerprint g) stream = Some g.
Proof.
  destruct (unique_findings_inv1 stream) as [I1 I2 I3].
  rewrite <- I1. unfold dedup. split.
  - intros Hin. apply in_map_iff in Hin. destruct Hin as ([k v] & <- & Hin).
    simpl. rewrite <- (I3 k v Hin). apply In_dict_get1; assumption.
  - intros Hget. apply dict_get_In1 in Hget.
    apply in_map_iff. exists (fingerprint g, g). split; [reflexivity|exact Hget].
Qed.

End V1.
End DedupFacts.

(** C1 (as amended): in [secrets_scanner2.py] the fingerprint-keyed
    de-duplication of any finite list of Findings keeps exactly one
    survivor per fingerprint: no fingerprint occurs twice in the output,
    every fingerprint of the input is represented, and the Findings kept
    are exactly, for each fingerprint, the first HIGH one, else the first
    MEDIUM one, else the first one in stream order.  In particular an
    override-pattern Finding classified HIGH and a primary-pattern Finding
    classified LOW on one file and line leave the single HIGH Finding, in
    either order.  In [secrets_scanner.py] the de-duplication also keeps
    one Finding per fingerprint, namely the first one in stream order,
    whatever the severities. *)
Theorem C1_dedup_survivor_per_fingerprint :
  (forall stream : list Scanner2.Finding,
      NoDup (map Scanner2.fingerprint (Scanner2.dedup stream)) /\
      (forall f, In f stream ->
                 exists g, In g (Scanner2.dedup stream) /\
                           Scanner2.fingerprint g = Scanner2.fingerprint f) /\
      (forall g, In g (Scanner2.dedup stream) <->
                 Spec.survivor Scanner2.fingerprint Scanner2.severity
                   (Scanner2.fingerprint g) stream = Some g)) /\
  (forall (path : string) (n : Z) (c1 c2 p1 p2 d1 d2 : string)
          (r1 r2 : RiskType) (i1 i2 h1 h2 t1 t2 : bool),
      let override := Scanner2.mkFinding path n c1 p1 HIGH r1 d1 i1 h1 t1 in
      let primary := Scanner2.mkFinding path n c2 p2 LOW r2 d2 i2 h2 t2 in
      Scanner2.dedup [override; primary] = [override] /\
      Scanner2.dedup [primary; override] = [override]) /\
  (forall stream : list Scanner1.Finding,
      NoDup (map Scanner1.fingerprint (Scanner1.dedup stream)) /\
      (forall g, In g (Scanner1.dedup stream) <->
                 Spec.first_of Scanner1.fingerprint
                   (Scanner1.fingerprint g) stream = Some g)).
Proof.
  split; [|split].
  - intros stream. split; [|split].
    + rewrite DedupFacts.dedup_fingerprints.
      apply (Shape.inv_keys _ _ (DedupFacts.unique_findings_inv stream)).
    + intros f Hin.
      destruct (DedupFacts.survivor_exists stream f Hin) as (g & Hs & Hfp).
      exists g. split; [|exact Hfp].
      apply DedupFacts.dedup_In. rewrite Hfp. exact Hs.
    + apply DedupFacts.dedup_In.
  - intros.
    assert (E : Scanner2.fingerprint primary = Scanner2.fingerprint override)
      by reflexivity.
    assert (So : Scanner2.severity override = HIGH) by reflexivity.
    assert (Sp : Scanner2.severity primary = LOW) by reflexivity.
    unfold Scanner2.dedup, Scanner2.unique_findings.
    cbn [fold_left]. unfold Scanner2.dedup_step.
    cbn [Scanner2.dict_get Scanner2.dict_set].
    rewrite !E. cbn [Scanner2.dict_get Scanner2.dict_set].
    rewrite !String.eqb_refl, So, Sp.
    cbn [Severity_eqb negb andb orb Scanner2.dict_get Scanner2.dict_set].
    rewrite ?String.eqb_refl. cbn [map snd]. split; reflexivity.
  - intros stream. split.
    + rewrite DedupFacts.dedup_fingerprints1.
      apply (Shape.inv_keys1 _ _ (DedupFacts.unique_findings_inv1 stream)).
    + apply DedupFacts.dedup_In1.
Qed.

(** C1, counterexample to the claim as worded: a LOW Finding followed by a
    HIGH Finding with the same fingerprint.  The claimed survivor is the
    HIGH one; [secrets_scanner.py] keeps the LOW one. *)
Lemma C1_counterexample :
  let low := Scanner1.mkFinding "app.py" 7 "token" "token" LOW
               HARDCODED_SECRET false false in
  let high := Scanner1.mkFinding "app.py" 7 "token" "detect-secrets:Keyword"
                HIGH HARDCODED_SECRET false false in
  Scanner1.fingerprint low = Scanner1.fingerprint high /\
  Spec.survivor Scanner1.fingerprint Scanner1.severity
    (Scanner1.fingerprint low) [low; high] = Some high /\
  Scanner1.dedup [low; high] = [low] /\
  map Scanner1.severity (Scanner1.dedup [low; high]) = [LOW].
Proof. repeat split; vm_compute; reflexivity. Qed.

(** ** Loops that append findings *)

Module LoopFacts.
Section Adds.
Context {F : Type}.


Lemma adds_ret (Q : F -> Prop) {A} (a : A) : adds Q (Loop.ret a).
Proof. intros st. exists []. simpl. rewrite app_nil_r. auto. Qed.

Lemma adds_raise (Q : F -> Prop) {A} : adds Q (@Loop.raise F A).
Proof. intros st. exists []. simpl. rewrite app_nil_r. auto. Qed.

Lemma adds_call (Q : F -> Prop) {A} (o : option A) : adds Q (Loop.call o).
Proof. destruct o; [apply adds_ret|apply adds_raise]. Qed.

Lemma adds_append (Q : F -> Prop) (f : F) : Q f -> adds Q (Loop.append f).
Proof. intros H st. exists [f]. simpl. auto. Qed.

Lemma adds_bind (Q : F -> Prop) {A B} (m : Loop.M A) (k : A -> Loop.M B) :
  adds Q m -> (forall a, adds Q (k a)) -> adds Q (Loop.bind m k).
Proof.
  intros Hm Hk st. unfold Loop.bind.
  destruct (Hm st) as (new1 & E1 & F1).
  destruct (m st) as [st' [a|]]; simpl in E1; subst st'.
  - destruct (Hk a (st ++ new1)) as (new2 & E2 & F2).
    exists (new1 ++ new2). rewrite E2, app_assoc. split; [reflexivity|].
    apply Forall_app. auto.
  - exists new1. auto.
Qed.

Lemma adds_for_each (Q : F -> Prop) {X} (xs : list X) (body : X -> Loop.M unit) :
  (forall x, In x xs -> adds Q (body x)) -> adds Q (Loop.for_each xs body).
Proof.
  induction xs as [|x xs IH]; intros H; simpl.
  - apply adds_ret.
  - apply adds_bind.
    + apply H. left. reflexivity.
    + intros _. apply IH. intros y Hy. apply H. right. exact Hy.
Qed.

Lemma adds_weaken (Q1 Q2 : F -> Prop) {A} (m : Loop.M A) :
  (forall f, Q1 f -> Q2 f) -> adds Q1 m -> adds Q2 m.
Proof.
  intros H Hm st. destruct (Hm st) as (new & E & Fa).
  exists new. split; [exact E|]. eapply Forall_impl; eauto.
Qed.

Lemma catching_adds (Q : F -> Prop) (m : Loop.M unit) (st : list F) :
  adds Q m -> exists new, Loop.catching m st = st ++ new /\ Forall Q new.
Proof. intros H. exact (H st). Qed.

End Adds.

Lemma enumerate_In {A} (xs : list A) (start i : Z) (x : A) :
  In (i, x) (Py.enumerate start xs) <->
  exists k, i = (start + Z.of_nat k)%Z /\ nth_error xs k = Some x.
Proof.
  revert start. induction xs as [|y xs IH]; intros start; simpl.
  - split; [intros []|]. intros (k & _ & H). destruct k; discriminate.
  - split.
    + intros [[= <- <-]|H].
      * exists 0%nat. split; [lia|reflexivity].
      * apply IH in H. destruct H as (k & -> & H).
        exists (S k). split; [lia|exact H].
    + intros ([|k] & -> & H).
      * simpl in H. injection H as ->. left. f_equal. lia.
      * right. apply IH. exists k. split; [lia|exact H].
Qed.

End LoopFacts.

(** ** Scanning one file *)

Section ScanFacts2.
Import Scanner2 LoopFacts.
Variable Compiled : Type.
Variable search : Compiled -> string -> bool.
Variable fnmatch : string -> string -> bool.
Variable re_search : string -> string -> bool.
Variable re_match : string -> string -> option bool.
Variable pm : PatternManager Compiled.
Variable allowlist : list string.
Variable high_only : bool.


Local Abbreviation emitted2 := (Shape.emitted2 Compiled search fnmatch pm).

Lemma report_adds (Q : Finding -> Prop) (f : Finding) :
  Q f -> adds Q (report re_match allowlist high_only f).
Proof.
  intros H. unfold report. apply adds_bind.
  - apply adds_call.
  - intros [|]; [apply adds_ret|].
    destruct (_ && _); [apply adds_ret|apply adds_append; exact H].
Qed.

Lemma scan_line_adds (path : string) (i : Z) (line : string) :
  adds (emitted2 path i line)
    (scan_line Compiled search fnmatch re_search re_match pm allowlist
       high_only path i line).
Proof.
  unfold scan_line.
  destruct (should_exclude_line Compiled search pm line) eqn:Ex;
    [apply adds_ret|].
  apply adds_bind; [|intros _; apply adds_bind; [|intros _]].
  - apply adds_for_each. intros cp Hin.
    destruct (search (fst cp) line); [|apply adds_ret].
    apply report_adds. constructor; simpl; auto.
    left. rewrite map_app. apply in_or_app. left. apply in_map. exact Hin.
  - apply adds_for_each. intros cp Hin.
    destruct (search (fst cp) line); [|apply adds_ret].
    apply report_adds. constructor; simpl; auto.
    left. rewrite map_app. apply in_or_app. right. apply in_map. exact Hin.
  - destruct (is_config_file Compiled fnmatch pm path) eqn:Cf;
      [|apply adds_ret].
    apply adds_for_each. intros cp Hin.
    destruct (search (fst cp) line); [|apply adds_ret].
    apply report_adds. constructor; simpl; auto.
    right. split; [exact Cf|]. apply in_map. exact Hin.
Qed.

(** Every Finding of a file sits on one of its lines, numbered from 1,
    and has the shape [emitted2] for that line. *)
Lemma scan_lines_emitted (path : string) (lines : list string) :
  Forall (fun f => exists k line,
              nth_error lines k = Some line /\
              emitted2 path (1 + Z.of_nat k) line f)
    (scan_lines Compiled search fnmatch re_search re_match pm allowlist
       high_only path lines).
Proof.
  unfold scan_lines.
  match goal with |- Forall ?Q (Loop.catching ?m []) =>
    destruct (catching_adds Q m []) as (new & -> & H) end; [|exact H].
  apply adds_for_each. intros [i line] Hin. simpl.
  apply enumerate_In in Hin. destruct Hin as (k & -> & Hk).
  eapply adds_weaken; [|apply scan_line_adds].
  intros f Hf. exists k, line. split; assumption.
Qed.


End ScanFacts2.

Section ScanFacts1.
Import Scanner1 LoopFacts.
Variable Compiled : Type.
Variable search : Compiled -> string -> bool.
Variable re_search : string -> string -> bool.
Variable re_match : string -> string -> option bool.
Variable compiled_patterns : list (Compiled * string).
Variable compiled_overrides : list (Compiled * string).
Variable compiled_config_patterns : list (Compiled * string).
Variable compiled_exclusions : list Compiled.
Variable acceptable_findings : list string.
Variable high_only : bool.
Variable is_git_repo : bool.
Variable git_ignored : string -> bool.

Local Abbreviation emitted1 :=
  (Shape.emitted1 Compiled search compiled_exclusions).

Let scan_line1 :=
  scan_line Compiled search re_search re_match compiled_patterns
    compiled_overrides compiled_config_patterns compiled_exclusions
    acceptable_findings high_only is_git_repo git_ignored.

Let scan_lines1 :=
  scan_lines Compiled search re_search re_match compiled_patterns
    compiled_overrides compiled_config_patterns compiled_exclusions
    acceptable_findings high_only is_git_repo git_ignored.


Lemma escalate_fields (h t : bool) (f : Finding) :
  line_number (escalate h t f) = line_number f /\
  in_git_history (escalate h t f) = in_git_history f /\
  file_path (escalate h t f) = file_path f /\
  pattern (escalate h t f) = pattern f.
Proof. unfold escalate. destruct (_ && _); simpl; auto. Qed.

Lemma escalate_high (f : Finding) : severity (escalate true true f) = HIGH.
Proof. unfold escalate. destruct (severity f) eqn:E; simpl; auto. Qed.


Lemma scan_line1_adds (path : string) (h t : bool) (i : Z) (line : string) :
  adds (emitted1 h t i line) (scan_line1 path h t i line).
Proof.
  unfold scan_line1, scan_line.
  destruct (_should_exclude Compiled search compiled_exclusions line) eqn:Ex;
    [apply adds_ret|].
  apply adds_for_each. intros cp Hin.
  destruct (search (fst cp) line); [|apply adds_ret].
  apply adds_bind; [apply adds_call|].
  intros [|]; [apply adds_ret|].
  destruct (_ && _); [apply adds_ret|]. apply adds_append.
  match goal with |- emitted1 _ _ _ _ (escalate _ _ ?f) =>
    destruct (escalate_fields h t f) as (E1 & E2 & _) end.
  constructor; auto.
  intros Hb. apply andb_true_iff in Hb. destruct Hb as [-> ->].
  apply escalate_high.
Qed.

Lemma scan_lines1_emitted (path : string) (h t : bool) (lines : list string)
    (findings : list Finding) :
  exists new,
    scan_lines1 path h t lines findings = findings ++ new /\
    Forall (fun f => exists k line,
                nth_error lines k = Some line /\
                emitted1 h t (1 + Z.of_nat k) line f) new.
Proof.
  unfold scan_lines1, scan_lines. apply catching_adds.
  apply adds_for_each. intros [i line] Hin. simpl.
  apply enumerate_In in Hin. destruct Hin as (k & -> & Hk).
  eapply adds_weaken; [|apply scan_line1_adds].
  intros f Hf. exists k, line. split; assumption.
Qed.

End ScanFacts1.

(** ** Exclusion, pattern groups, escalation *)

Lemma filter_none {A} (p : A -> bool) (l : list A) :
  (forall x, In x l -> p x = false) -> filter p l = [].
Proof.
  induction l as [|a l IH]; intros H; simpl; [reflexivity|].
  rewrite (H a) by (left; reflexivity).
  apply IH. intros x Hx. apply H. right. exact Hx.
Qed.

Section ScanTheorems.
Variable Compiled : Type.
Variable search : Compiled -> string -> bool.
Variable fnmatch : string -> string -> bool.
Variable re_search : string -> string -> bool.
Variable re_match : string -> string -> option bool.
Variable pm : Scanner2.PatternManager Compiled.
Variable allowlist : list string.
Variable high_only : bool.
Variable is_git_repo : bool.
Variable git_ignored : string -> bool.

(** The scan of one opened file by [secrets_scanner2.py]. *)
Let scan2 : string -> list string -> list Scanner2.Finding :=
  Scanner2.scan_lines Compiled search fnmatch re_search re_match pm allowlist
    high_only.

(** The scan of one opened file by [secrets_scanner.py], run with the
    same compiled groups and allowlist. *)
Let scan1 : string -> bool -> bool -> list string -> list Scanner1.Finding ->
            list Scanner1.Finding :=
  Scanner1.scan_lines Compiled search re_search re_match
    (Scanner2.compiled_patterns pm) (Scanner2.compiled_overrides pm)
    (Scanner2.compiled_config_patterns pm) (Scanner2.compiled_exclusions pm)
    allowlist high_only is_git_repo git_ignored.

(** C7: a line on which an exclusion matcher fires yields no Finding.
    For the line at index [k] (line number [k + 1]) of any file: if
    [should_exclude_line] holds of it, the Findings of [scan_file] on
    that line number are none, whatever the primary, override and
    config-specific patterns; and likewise for the file loop of
    [secrets_scanner.py] with [_should_exclude], whatever list of
    findings it continues. *)
Theorem C7_excluded_line_yields_no_finding :
  forall (path : string) (lines : list string) (k : nat) (line : string),
    nth_error lines k = Some line ->
    (Scanner2.should_exclude_line Compiled search pm line = true ->
     filter (fun f => Z.eqb (Scanner2.line_number f) (Z.of_nat k + 1))
       (scan2 path lines) = [])
    /\
    (Scanner1._should_exclude Compiled search
       (Scanner2.compiled_exclusions pm) line = true ->
     forall (h t : bool) (findings : list Scanner1.Finding),
     exists new,
       scan1 path h t lines findings = findings ++ new /\
       filter (fun f => Z.eqb (Scanner1.line_number f) (Z.of_nat k + 1))
         new = []).
Proof.
  intros path lines k line Hk. split.
  - intros Hex.
    apply filter_none. intros f Hin.
    pose proof (scan_lines_emitted Compiled search fnmatch re_search re_match
                  pm allowlist high_only path lines) as Hall.
    rewrite Forall_forall in Hall.
    destruct (Hall f Hin) as (k' & line' & Hk' & E).
    destruct E as [_ El Ene _ _ _].
    destruct (Z.eqb_spec (Scanner2.line_number f) (Z.of_nat k + 1)) as [Heq|];
      [|reflexivity].
    assert (k' = k) by lia. subst k'.
    rewrite Hk in Hk'. injection Hk' as <-. congruence.
  - intros Hex h t findings.
    destruct (scan_lines1_emitted Compiled search re_search re_match
                (Scanner2.compiled_patterns pm) (Scanner2.compiled_overrides pm)
                (Scanner2.compiled_config_patterns pm)
                (Scanner2.compiled_exclusions pm) allowlist high_only
                is_git_repo git_ignored path h t lines findings)
      as (new & E & Hall).
    exists new. split; [exact E|].
    apply filter_none. intros f Hin. rewrite Forall_forall in Hall.
    destruct (Hall f Hin) as (k' & line' & Hk' & Em).
    destruct Em as [El Ene _ _].
    destruct (Z.eqb_spec (Scanner1.line_number f) (Z.of_nat k + 1)) as [Heq|];
      [|reflexivity].
    assert (k' = k) by lia. subst k'.
    rewrite Hk in Hk'. injection Hk' as <-. congruence.
Qed.

(** X1: the pattern scan of [secrets_scanner2.py] keeps the
    config-specific patterns to configuration files: on a path that [is_config_file]
    rejects, every Finding of [scan_file] carries the text of a compiled
    override or primary pattern. *)
Theorem scan_file_config_patterns_need_config_file :
  forall (path : string) (lines : list string),
    Scanner2.is_config_file Compiled fnmatch pm path = false ->
    Forall (fun f =>
              In (Scanner2.pattern f)
                (map snd (Scanner2.compiled_overrides pm ++
                          Scanner2.compiled_patterns pm)))
      (scan2 path lines).
Proof.
  intros path lines Hcf.
  eapply Forall_impl;
    [|apply (scan_lines_emitted Compiled search fnmatch re_search re_match
               pm allowlist high_only path lines)].
  intros f (k & line & _ & E). destruct E as [_ _ _ [Hg|[Hc _]] _ _].
  - exact Hg.
  - congruence.
Qed.

End ScanTheorems.

(** C7 on the demo project: line 1 of [app.py] is a comment, which the
    exclusion pattern "#" vetoes. *)
Lemma C7_witness :
  filter (fun f => Z.eqb (Scanner2.line_number f) 1)
    (Scanner2.scan_lines Literal.Compiled Literal.search Literal.fnmatch
       Literal.re_search Literal.re_match Demo.pm [] false "app.py"
       Demo.app_py) = [] /\
  exists new,
    Scanner1.scan_lines Literal.Compiled Literal.search Literal.re_search
      Literal.re_match (Scanner2.compiled_patterns Demo.pm)
      (Scanner2.compiled_overrides Demo.pm)
      (Scanner2.compiled_config_patterns Demo.pm)
      (Scanner2.compiled_exclusions Demo.pm) [] false false (fun _ => false)
      "app.py" false false Demo.app_py [] = [] ++ new /\
    filter (fun f => Z.eqb (Scanner1.line_number f) 1) new = [].
Proof.
  destruct (C7_excluded_line_yields_no_finding Literal.Compiled Literal.search
              Literal.fnmatch Literal.re_search Literal.re_match Demo.pm []
              false false (fun _ => false) "app.py" Demo.app_py 0
              "# token = abc" eq_refl) as [H2 H1].
  split.
  - apply H2. reflexivity.
  - apply H1. reflexivity.
Defined.

(** X1 on the demo project: [app.py] is not a configuration file. *)
Lemma scan_file_config_patterns_witness :
  Forall (fun f => In (Scanner2.pattern f) ["client_secret ="; "token"])
    (Scanner2.scan_lines Literal.Compiled Literal.search Literal.fnmatch
       Literal.re_search Literal.re_match Demo.pm [] false "app.py"
       Demo.app_py).
Proof.
  exact (scan_file_config_patterns_need_config_file Literal.Compiled
           Literal.search Literal.fnmatch Literal.re_search Literal.re_match
           Demo.pm [] false "app.py" Demo.app_py eq_refl).
Defined.

Lemma for_each_appends {F X} (xs : list X) (body : X -> Loop.M (F:=F) unit)
    (g : X -> list F) :
  (forall x st, body x st = (st ++ g x, Some tt)) ->
  forall st, Loop.for_each xs body st = (st ++ flat_map g xs, Some tt).
Proof.
  intros H. induction xs as [|x xs IH]; intros st; simpl.
  - unfold Loop.ret. rewrite app_nil_r. reflexivity.
  - unfold Loop.bind. rewrite H, IH, app_assoc. reflexivity.
Qed.

Section Scanner1Groups.
Variable Compiled : Type.
Variable search : Compiled -> string -> bool.
Variable re_search : string -> string -> bool.
Variable re_match : string -> string -> option bool.
Variable compiled_patterns : list (Compiled * string).
Variable compiled_overrides : list (Compiled * string).
Variable compiled_config_patterns : list (Compiled * string).
Variable compiled_exclusions : list Compiled.
Variable is_git_repo : bool.
Variable git_ignored : string -> bool.

(** C3, the scan of [secrets_scanner.py] at the failing input: with an
    empty allowlist and without the high-only gate, a compiled
    config-specific pattern that fires on a line that is not excluded
    yields a Finding carrying that pattern, for every file path: the
    path is not looked at, so a file that is not a configuration file
    gets it too. *)
Theorem C3_scanner1_applies_config_patterns_to_every_file :
  forall (path line : string) (c : Compiled) (p : string),
    In (c, p) compiled_config_patterns ->
    search c line = true ->
    Scanner1._should_exclude Compiled search compiled_exclusions line = false ->
    let sr := Scanner1._determine_severity_and_risk Compiled search re_search
                compiled_overrides path line p in
    In (Scanner1.mkFinding path 1 (Py.strip line) p (fst sr) (snd sr)
          (is_git_repo && git_ignored path) false)
      (Scanner1.scan_lines Compiled search re_search re_match
         compiled_patterns compiled_overrides compiled_config_patterns
         compiled_exclusions [] false is_git_repo git_ignored
         path false false [line] []).
Proof.
  intros path line c p Hin Hs Hex sr.
  unfold Scanner1.scan_lines, Loop.catching. simpl.
  unfold Loop.bind, Scanner1.scan_line. rewrite Hex.
  rewrite (for_each_appends _ _
             (fun cp =>
                if search (fst cp) line then
                  [Scanner1.mkFinding path 1 (Py.strip line) (snd cp)
                     (fst (Scanner1._determine_severity_and_risk Compiled
                             search re_search compiled_overrides path line
                             (snd cp)))
                     (snd (Scanner1._determine_severity_and_risk Compiled
                             search re_search compiled_overrides path line
                             (snd cp)))
                     (is_git_repo && git_ignored path) false]
                else [])).
  - simpl. apply in_flat_map. exists (c, p). split.
    + apply in_or_app. right. apply in_or_app. right. exact Hin.
    + simpl. rewrite Hs. left. reflexivity.
  - intros cp st. destruct (search (fst cp) line); simpl.
    + reflexivity.
    + unfold Loop.ret. rewrite app_nil_r. reflexivity.
Qed.

End Scanner1Groups.

(** C3 on the demo project: [app.py] is not a configuration file, the
    pattern "user =" is config-specific only, and the older scanner
    reports it on [app.py]. *)
Lemma C3_witness :
  Scanner1.is_config_file "app.py" = false /\
  mem_str "user ="
    (map snd (Scanner2.compiled_patterns Demo.pm ++
              Scanner2.compiled_overrides Demo.pm)) = false /\
  In (Scanner1.mkFinding "app.py" 1 "user = bob" "user =" LOW
        HARDCODED_SECRET false false)
    (Scanner1.scan_lines Literal.Compiled Literal.search Literal.re_search
       Literal.re_match (Scanner2.compiled_patterns Demo.pm)
       (Scanner2.compiled_overrides Demo.pm)
       (Scanner2.compiled_config_patterns Demo.pm)
       (Scanner2.compiled_exclusions Demo.pm) [] false false
       (fun _ => false) "app.py" false false ["user = bob"] []).
Proof.
  split; [reflexivity|]. split; [reflexivity|].
  exact (C3_scanner1_applies_config_patterns_to_every_file Literal.Compiled
           Literal.search Literal.re_search Literal.re_match
           (Scanner2.compiled_patterns Demo.pm)
           (Scanner2.compiled_overrides Demo.pm)
           (Scanner2.compiled_config_patterns Demo.pm)
           (Scanner2.compiled_exclusions Demo.pm) false (fun _ => false)
           "app.py" "user = bob" "user =" "user ="
           (or_introl eq_refl) eq_refl eq_refl).
Defined.

(** ** Escalation through the whole run *)

Lemma survivor_In (stream : list Scanner2.Finding) (k : string)
    (g : Scanner2.Finding) :
  Spec.survivor Scanner2.fingerprint Scanner2.severity k stream = Some g ->
  In g stream.
Proof.
  unfold Spec.survivor, Spec.first_with, Spec.first_of.
  repeat match goal with
         | |- context [find ?p stream] => destruct (find p stream) eqn:?
         end;
    intros [= <-];
    match goal with H : find _ _ = Some _ |- _ => apply find_some in H end;
    tauto.
Qed.

Lemma dedup_Forall (P : Scanner2.Finding -> Prop)
    (stream : list Scanner2.Finding) :
  Forall P stream -> Forall P (Scanner2.dedup stream).
Proof.
  rewrite !Forall_forall. intros H g Hg. apply H.
  apply DedupFacts.dedup_In in Hg. eapply survivor_In. exact Hg.
Qed.


Lemma tag_historical_fields (t : bool) (f : Scanner2.Finding) :
  Scanner2.in_git_history (Scanner2.tag_historical t f) = true /\
  Scanner2.is_still_tracked (Scanner2.tag_historical t f) = t /\
  Scanner2.is_gitignored (Scanner2.tag_historical t f) = true.
Proof.
  unfold Scanner2.tag_historical. destruct (_ && _); simpl; auto.
Qed.

Lemma tag_historical_monotone (t : bool) (f : Scanner2.Finding) :
  rank (Scanner2.severity f) <=
  rank (Scanner2.severity (Scanner2.tag_historical t f)).
Proof.
  unfold Scanner2.tag_historical. simpl.
  destruct t; destruct (Scanner2.severity f) eqn:E; simpl; rewrite ?E;
    simpl; lia.
Qed.


Lemma tag_historical_untracked (f : Scanner2.Finding) :
  Scanner2.severity (Scanner2.tag_historical false f) = Scanner2.severity f.
Proof. reflexivity. Qed.

Section Escalation.
Variable Compiled : Type.
Variable search : Compiled -> string -> bool.
Variable fnmatch : string -> string -> bool.
Variable re_search : string -> string -> bool.
Variable re_match : string -> string -> option bool.
Variable pm : Scanner2.PatternManager Compiled.
Variable allowlist : list string.
Variable high_only : bool.






End Escalation.

(** ** The model of [re.match] *)

Module PyReFacts.
Import PyRe.

Lemma match_prefix_unfold (r : regex) (s : string) :
  match_prefix r s =
  nullable r ||
  match s with
  | EmptyString => false
  | String c t => match_prefix (deriv c r) t
  end.
Proof. destruct s; reflexivity. Qed.

Lemma match_nullable (r : regex) (s : string) :
  nullable r = true -> match_prefix r s = true.
Proof. intros H. rewrite match_prefix_unfold, H. reflexivity. Qed.

Lemma match_Empty_cat (r : regex) (s : string) :
  match_prefix (Cat Empty r) s = false.
Proof. induction s as [|c s IH]; simpl; [reflexivity|exact IH]. Qed.

Lemma match_Alt (a b : regex) (s : string) :
  match_prefix (Alt a b) s = match_prefix a s || match_prefix b s.
Proof.
  revert a b. induction s as [|c s IH]; intros a b; simpl.
  - rewrite !orb_false_r. reflexivity.
  - rewrite IH.
    destruct (nullable a), (nullable b), (match_prefix (deriv c a) s);
      reflexivity.
Qed.

Lemma match_Eps_cat (r : regex) (s : string) :
  match_prefix (Cat Eps r) s = match_prefix r s.
Proof.
  destruct s as [|c s]; simpl.
  - rewrite orb_false_r. reflexivity.
  - rewrite match_Alt, match_Empty_cat. reflexivity.
Qed.

Lemma match_Chr_cat (c : ascii) (r : regex) (s : string) :
  match_prefix (Cat (Chr c) r) s =
  match s with
  | EmptyString => false
  | String d t => Ascii.eqb d c && match_prefix r t
  end.
Proof.
  destruct s as [|d s]; simpl; [reflexivity|].
  destruct (Ascii.eqb d c); simpl.
  - apply match_Eps_cat.
  - apply match_Empty_cat.
Qed.

Lemma match_Any_cat (r : regex) (s : string) :
  match_prefix (Cat Any r) s =
  match s with
  | EmptyString => false
  | String d t => negb (Ascii.eqb d newline) && match_prefix r t
  end.
Proof.
  destruct s as [|d s]; simpl; [reflexivity|].
  destruct (Ascii.eqb d newline); simpl.
  - apply match_Empty_cat.
  - apply match_Eps_cat.
Qed.


Lemma match_lit_then (w : string) (r : regex) (x : string) :
  match_prefix (lit_then w r) (w ++ x) = match_prefix r x.
Proof.
  induction w as [|c w IH]; simpl lit_then; simpl append; [reflexivity|].
  rewrite match_Chr_cat, Ascii.eqb_refl. exact IH.
Qed.

Lemma match_lit_then_end (w : string) (r : regex) (x : string) :
  nullable r = true ->
  match_prefix (lit_then w r) x = Py.startswith w x.
Proof.
  intros Hn. revert x. induction w as [|c w IH]; intros x; simpl lit_then.
  - apply match_nullable. exact Hn.
  - rewrite match_Chr_cat. destruct x as [|d x]; simpl; [reflexivity|].
    rewrite IH, Ascii.eqb_sym. reflexivity.
Qed.

End PyReFacts.

(** ** Decimal line numbers *)

Module StrIntFacts.


Lemma uint_digits (u : Decimal.uint) :
  all_digits (NilEmpty.string_of_uint u) = true.
Proof. induction u; simpl; auto. Qed.

(** [str(n)] is an optional minus sign followed by digits. *)
Lemma str_int_shape (n : Z) :
  exists s, all_digits s = true /\
            (Py.str_int n = s \/ Py.str_int n = String "-" s).
Proof.
  unfold Py.str_int. destruct (Z.to_int n) as [u|u]; simpl.
  - exists (NilZero.string_of_uint u). split; [|left; reflexivity].
    destruct u; try apply (uint_digits (_ u)); reflexivity.
  - exists (NilZero.string_of_uint u). split; [|right; reflexivity].
    destruct u; try apply (uint_digits (_ u)); reflexivity.
Qed.

Lemma str_int_42 (n : Z) : Py.str_int n = "42" -> n = 42%Z.
Proof.
  intros H. rewrite <- (DecimalZ.of_to n). unfold Py.str_int in H.
  destruct (Z.to_int n) as [u|u]; simpl in H; [|destruct u; discriminate].
  assert (u = Decimal.D4 (Decimal.D2 Decimal.Nil)) as ->; [|reflexivity].
  destruct u as [|u|u|u|u|u|u|u|u|u|u]; simpl in H; try discriminate.
  injection H as H.
  destruct u as [|u|u|u|u|u|u|u|u|u|u]; simpl in H; try discriminate.
  injection H as H.
  destruct u; simpl in H; try discriminate. reflexivity.
Qed.

Lemma digit_colon (c : ascii) : Ascii.eqb ":" c = true -> digit c = false.
Proof. intros E. apply Ascii.eqb_eq in E. subst c. reflexivity. Qed.

(** A line number followed by a colon starts with "42:" exactly when it
    is 42. *)
Lemma startswith_42 (n : Z) (rest : string) :
  Py.startswith "42:" (Py.str_int n ++ ":" ++ rest) = Z.eqb n 42.
Proof.
  destruct (Z.eqb_spec n 42) as [->|Hne]; [reflexivity|].
  destruct (Py.startswith "42:" (Py.str_int n ++ ":" ++ rest)) eqn:E;
    [|reflexivity].
  exfalso. apply Hne. apply str_int_42.
  destruct (str_int_shape n) as (s & Hd & [Hs|Hs]); rewrite Hs in *.
  - destruct s as [|c1 [|c2 [|c3 s]]];
      cbn [Py.startswith append all_digits] in E, Hd.
    + apply andb_true_iff in E. destruct E as [E _]. discriminate.
    + apply andb_true_iff in E. destruct E as [_ E].
      apply andb_true_iff in E. destruct E as [E _]. discriminate.
    + apply andb_true_iff in E. destruct E as [E1 E].
      apply andb_true_iff in E. destruct E as [E2 _].
      apply Ascii.eqb_eq in E1, E2. subst. reflexivity.
    + apply andb_true_iff in E. destruct E as [_ E].
      apply andb_true_iff in E. destruct E as [_ E].
      apply andb_true_iff in E. destruct E as [E _].
      apply digit_colon in E.
      apply andb_true_iff in Hd. destruct Hd as [_ Hd].
      apply andb_true_iff in Hd. destruct Hd as [_ Hd].
      apply andb_true_iff in Hd. destruct Hd as [Hd _]. congruence.
  - cbn [Py.startswith append] in E.
    apply andb_true_iff in E. destruct E as [E _]. discriminate.
Qed.

Lemma startswith_42_bare (n : Z) : Py.startswith "42:" (Py.str_int n) = false.
Proof.
  destruct (Py.startswith "42:" (Py.str_int n)) eqn:E; [|reflexivity].
  exfalso.
  destruct (str_int_shape n) as (s & Hd & [Hs|Hs]); rewrite Hs in *.
  - destruct s as [|c1 [|c2 [|c3 s]]];
      cbn [Py.startswith append all_digits] in E, Hd; try discriminate.
    + apply andb_true_iff in E. destruct E as [_ E]. discriminate.
    + apply andb_true_iff in E. destruct E as [_ E].
      apply andb_true_iff in E. destruct E as [_ E]. discriminate.
    + apply andb_true_iff in E. destruct E as [_ E].
      apply andb_true_iff in E. destruct E as [_ E].
      apply andb_true_iff in E. destruct E as [E _].
      apply digit_colon in E.
      apply andb_true_iff in Hd. destruct Hd as [_ Hd].
      apply andb_true_iff in Hd. destruct Hd as [_ Hd].
      apply andb_true_iff in Hd. destruct Hd as [Hd _]. congruence.
  - cbn [Py.startswith] in E.
    apply andb_true_iff in E. destruct E as [E _]. discriminate.
Qed.

End StrIntFacts.

(** ** Allowlist matching *)

Module AllowFacts.


Lemma entry42_regex :
  Py.contains "*" entry42 = true /\
  Py.replace "*" ".*" entry42 = "src/config.py:42:.*" /\
  PyRe.in_fragment "src/config.py:42:.*" = true /\
  PyRe.parse "src/config.py:42:.*" =
    Some (Shape.lit_then "src/config"
            (PyRe.Cat PyRe.Any
               (Shape.lit_then "py:42:"
                  (PyRe.Cat (PyRe.Star PyRe.Any) PyRe.Eps)))).
Proof. repeat split; vm_compute; reflexivity. Qed.

Lemma match42 (ext : string -> string -> option bool) (y : string) :
  PyRe.re_match_with ext (Py.replace "*" ".*" entry42)
    ("src/config.py" ++ ":" ++ y) = Some (Py.startswith "42:" y).
Proof.
  destruct entry42_regex as (_ & -> & Hf & Hp).
  unfold PyRe.re_match_with. rewrite Hf, Hp. f_equal.
  change ("src/config.py" ++ ":" ++ y)%string
    with ("src/config" ++ String "." ("py:" ++ y))%string.
  rewrite PyReFacts.match_lit_then, PyReFacts.match_Any_cat.
  change (Ascii.eqb "." PyRe.newline) with false. cbn [negb andb].
  rewrite PyReFacts.match_lit_then_end by reflexivity.
  cbn [Py.startswith append]. rewrite !Ascii.eqb_refl. reflexivity.
Qed.

Lemma eqb_entry42 (y : string) :
  String.eqb ("src/config.py" ++ ":" ++ y) entry42 = true ->
  Py.startswith "42:" y = true.
Proof.
  intros H. apply String.eqb_eq in H. unfold entry42 in H.
  change ("src/config.py" ++ ":" ++ y)%string
    with ("src/config.py:" ++ y)%string in H.
  change "src/config.py:42:*" with ("src/config.py:" ++ "42:*")%string in H.
  assert (Hy : y = "42:*").
  { revert H. generalize "src/config.py:". intros w.
    induction w as [|c w IH]; simpl; intros H; [exact H|].
    injection H as H. exact (IH H). }
  subst y. reflexivity.
Qed.

Lemma mem_entry42 (y : string) :
  mem_str ("src/config.py" ++ ":" ++ y) [entry42] = true ->
  Py.startswith "42:" y = true.
Proof.
  unfold mem_str. cbn [existsb]. rewrite orb_false_r. apply eqb_entry42.
Qed.

End AllowFacts.

(** C2: with the single entry "src/config.py:42:*" in the allowlist, a
    Finding in "src/config.py" is allowed exactly when its line number
    is 42: allowed at line 42 whatever the matched pattern (and the other
    fields), not allowed at any other line number.  This holds for
    [is_allowlisted] of [secrets_scanner2.py] and for
    [_is_acceptable_finding] of [secrets_scanner.py], and [re.match]
    does not raise on the pattern built from that entry. *)
Theorem C2_line_glob_allows_exactly_line_42 :
  forall (ext : string -> string -> option bool) (n : Z)
         (content matched_pattern descr : string) (sev : Severity)
         (risk : RiskType) (ignored history tracked : bool),
    Scanner2.is_allowlisted (PyRe.re_match_with ext) ["src/config.py:42:*"]
      (Scanner2.mkFinding "src/config.py" n content matched_pattern sev risk
         descr ignored history tracked) = Some (Z.eqb n 42)
    /\
    Scanner1._is_acceptable_finding (PyRe.re_match_with ext)
      ["src/config.py:42:*"]
      (Scanner1.mkFinding "src/config.py" n content matched_pattern sev risk
         ignored history) = Some (Z.eqb n 42).
Proof.
  intros. fold Shape.entry42.
  pose proof (AllowFacts.match42 ext (Py.str_int n)) as Hbare.
  pose proof (AllowFacts.match42 ext
                (Py.str_int n ++ ":" ++ matched_pattern)) as Hfull.
  rewrite StrIntFacts.startswith_42_bare in Hbare.
  rewrite StrIntFacts.startswith_42 in Hfull.
  destruct AllowFacts.entry42_regex as (Hstar & _).
  split.
  - unfold Scanner2.is_allowlisted.
    change (Scanner2.fingerprint _)
      with ("src/config.py" ++ ":" ++ Py.str_int n)%string.
    change (Scanner2.full_fingerprint _)
      with ("src/config.py" ++ ":" ++ Py.str_int n ++ ":" ++
            matched_pattern)%string.
    destruct (mem_str ("src/config.py" ++ ":" ++ Py.str_int n)
                [Shape.entry42]) eqn:E1.
    { apply AllowFacts.mem_entry42 in E1.
      rewrite StrIntFacts.startswith_42_bare in E1. discriminate. }
    destruct (mem_str ("src/config.py" ++ ":" ++ Py.str_int n ++ ":" ++
                       matched_pattern) [Shape.entry42]) eqn:E2.
    { apply AllowFacts.mem_entry42 in E2.
      rewrite StrIntFacts.startswith_42 in E2. rewrite E2. reflexivity. }
    cbn [Scanner2.allowlist_globs]. rewrite Hstar.
    change (Scanner2.fingerprint _)
      with ("src/config.py" ++ ":" ++ Py.str_int n)%string.
    change (Scanner2.full_fingerprint _)
      with ("src/config.py" ++ ":" ++ Py.str_int n ++ ":" ++
            matched_pattern)%string.
    rewrite Hbare, Hfull. destruct (Z.eqb n 42); reflexivity.
  - cbn [Scanner1._is_acceptable_finding].
    change (Scanner1.full_fingerprint _)
      with ("src/config.py" ++ ":" ++ Py.str_int n ++ ":" ++
            matched_pattern)%string.
    destruct (String.eqb ("src/config.py" ++ ":" ++ Py.str_int n ++ ":" ++
                          matched_pattern) Shape.entry42) eqn:E2.
    { apply AllowFacts.eqb_entry42 in E2.
      rewrite StrIntFacts.startswith_42 in E2. rewrite E2. reflexivity. }
    rewrite Hstar, Hfull. destruct (Z.eqb n 42); reflexivity.
Qed.

Lemma allowlist_globs_spec (re_match : string -> string -> option bool)
    (entries : list string) (f : Scanner2.Finding) :
  Scanner2.allowlist_globs re_match entries f =
  Spec.glob_check re_match entries (Scanner2.fingerprint f)
    (Scanner2.full_fingerprint f).
Proof.
  induction entries as [|e rest IH]; simpl; [reflexivity|].
  rewrite IH. reflexivity.
Qed.

Lemma acceptable_without_globs (re_match : string -> string -> option bool)
    (entries : list string) (f : Scanner1.Finding) :
  forallb (fun e => negb (Py.contains "*" e)) entries = true ->
  Scanner1._is_acceptable_finding re_match entries f =
  Some (mem_str (Scanner1.full_fingerprint f) entries).
Proof.
  induction entries as [|e rest IH]; simpl; intros H; [reflexivity|].
  apply andb_true_iff in H. destruct H as [He Hrest].
  destruct (String.eqb (Scanner1.full_fingerprint f) e); [reflexivity|].
  apply negb_true_iff in He. rewrite He. simpl. apply IH. exact Hrest.
Qed.

(** C5 (as amended): in [secrets_scanner2.py], for every Finding, every
    allowlist and every [re] engine, [is_allowlisted] returns true
    whenever the bare fingerprint is one of the stored entries, whatever
    the matched pattern, and its result is that of checking the exact
    fullFingerprint, then the exact bare fingerprint, then the wildcard
    entries against both fingerprint forms (the code tests the bare
    fingerprint before the full one, which gives the same result).  In
    [secrets_scanner.py] there is no bare-fingerprint check: on entries
    without wildcard, [_is_acceptable_finding] allows a Finding exactly
    when its fullFingerprint is a stored entry. *)
Theorem C5_bare_fingerprint_entry_allows :
  forall re_match : string -> string -> option bool,
    (forall (before after : list string) (f : Scanner2.Finding),
        Scanner2.is_allowlisted re_match
          (before ++ Scanner2.fingerprint f :: after) f = Some true) /\
    (forall (entries : list string) (f : Scanner2.Finding),
        Scanner2.is_allowlisted re_match entries f =
        Spec.isAllowed re_match entries (Scanner2.fingerprint f)
          (Scanner2.full_fingerprint f)) /\
    (forall (entries : list string) (f : Scanner1.Finding),
        let plain := filter (fun e => negb (Py.contains "*" e)) entries in
        Scanner1._is_acceptable_finding re_match plain f =
        Some (mem_str (Scanner1.full_fingerprint f) plain)).
Proof.
  intros re_match. split; [|split].
  - intros before after f. unfold Scanner2.is_allowlisted.
    rewrite PyFacts.mem_str_app. simpl. rewrite String.eqb_refl.
    rewrite orb_true_r. reflexivity.
  - intros entries f. unfold Scanner2.is_allowlisted, Spec.isAllowed.
    rewrite allowlist_globs_spec.
    destruct (mem_str (Scanner2.fingerprint f) entries),
             (mem_str (Scanner2.full_fingerprint f) entries); reflexivity.
  - intros entries f plain. apply acceptable_without_globs.
    unfold plain. apply forallb_forall. intros e He.
    apply filter_In in He. tauto.
Qed.

(** C5, counterexample to the claim as worded: the allowlist holds the
    bare fingerprint "app.py:3" of a Finding; the claimed matcher allows
    the Finding, [secrets_scanner.py] does not. *)
Lemma C5_counterexample :
  let f := Scanner1.mkFinding "app.py" 3 "token = abc" "token" LOW
             HARDCODED_SECRET false false in
  Scanner1.fingerprint f = "app.py:3" /\
  Spec.isAllowed Literal.re_match ["app.py:3"] (Scanner1.fingerprint f)
    (Scanner1.full_fingerprint f) = Some true /\
  Scanner1._is_acceptable_finding Literal.re_match ["app.py:3"] f =
    Some false.
Proof. repeat split; vm_compute; reflexivity. Qed.

Lemma fingerprint_has_colon (path rest : string) (entry : string) :
  Py.contains ":" entry = false ->
  mem_str (path ++ ":" ++ rest) [entry] = false.
Proof.
  intros H. unfold mem_str. cbn [existsb]. rewrite orb_false_r.
  destruct (String.eqb (path ++ ":" ++ rest) entry) eqn:E; [|reflexivity].
  apply String.eqb_eq in E. subst entry.
  assert (Hc : Py.contains ":" (path ++ ":" ++ rest) = true).
  { apply PyFacts.contains_iff. exists path, rest. reflexivity. }
  congruence.
Qed.

(** C8, the matchers at the failing input: an allowlist whose only entry
    is "src/(old*".  The entry becomes the pattern "src/(old.*", whose
    parenthesis is never closed, and [re.match] raises [re.error]: for
    every Finding, [is_allowlisted] of [secrets_scanner2.py] and
    [_is_acceptable_finding] of [secrets_scanner.py] raise instead of
    returning.  Nor is the text outside the wildcard taken literally:
    the entry "src/config.py:42:*" allows a Finding in the file
    "src/configXpy", its dot standing for any character. *)
Theorem C8_unbalanced_glob_entry_raises :
  forall (ext : string -> string -> option bool),
    (forall f : Scanner2.Finding,
        Scanner2.is_allowlisted (PyRe.re_match_with ext) ["src/(old*"] f =
        None) /\
    (forall f : Scanner1.Finding,
        Scanner1._is_acceptable_finding (PyRe.re_match_with ext)
          ["src/(old*"] f = None) /\
    Scanner2.is_allowlisted (PyRe.re_match_with ext) ["src/config.py:42:*"]
      (Scanner2.mkFinding "src/configXpy" 42 "token = abc" "token" LOW
         HARDCODED_SECRET "" false false false) = Some true /\
    Scanner1._is_acceptable_finding (PyRe.re_match_with ext)
      ["src/config.py:42:*"]
      (Scanner1.mkFinding "src/configXpy" 42 "token = abc" "token" LOW
         HARDCODED_SECRET false false) = Some true.
Proof.
  intros ext.
  assert (Hre : forall s, PyRe.re_match_with ext
                            (Py.replace "*" ".*" "src/(old*") s = None).
  { intros s. reflexivity. }
  split; [|split; [|split]].
  - intros f. unfold Scanner2.is_allowlisted.
    unfold Scanner2.fingerprint at 1.
    rewrite fingerprint_has_colon by reflexivity.
    unfold Scanner2.full_fingerprint at 1.
    rewrite fingerprint_has_colon by reflexivity.
    cbn [Scanner2.allowlist_globs].
    change (Py.contains "*" "src/(old*") with true. cbn iota.
    rewrite Hre. reflexivity.
  - intros f. cbn [Scanner1._is_acceptable_finding].
    unfold Scanner1.full_fingerprint at 1.
    pose proof (fingerprint_has_colon (Scanner1.file_path f)
                  (Py.str_int (Scanner1.line_number f) ++ ":" ++
                   Scanner1.pattern f) "src/(old*" eq_refl) as H.
    unfold mem_str in H. cbn [existsb] in H. rewrite orb_false_r in H.
    rewrite H.
    change (Py.contains "*" "src/(old*") with true. cbn iota.
    rewrite Hre. reflexivity.
  - vm_compute. reflexivity.
  - vm_compute. reflexivity.
Qed.

(** ** The matcher of [PyRe] against the language of the pattern *)

Module PyReLang.
Import PyRe.

Lemma nullable_lang (r : regex) : nullable r = true <-> lang r EmptyString.
Proof.
  induction r as [| |c| |a IHa b IHb|a IHa b IHb|a IHa]; simpl.
  - split; [discriminate|intros []].
  - split; reflexivity.
  - split; discriminate.
  - split; [discriminate|]. intros (c & _ & H). discriminate.
  - rewrite andb_true_iff, IHa, IHb. split.
    + intros [Ha Hb]. exists EmptyString, EmptyString. auto.
    + intros (u & v & E & Ha & Hb).
      destruct u; [|discriminate]. destruct v; [|discriminate]. auto.
  - rewrite orb_true_iff, IHa, IHb. reflexivity.
  - split; [intros _; constructor|reflexivity].
Qed.

Lemma star_cons_inv (L : string -> Prop) (x : string) :
  star L x ->
  forall c s, x = String c s ->
  exists u v, s = (u ++ v)%string /\ L (String c u) /\ star L v.
Proof.
  induction 1 as [|u v Hu Hv IH]; intros c s E; [discriminate|].
  destruct u as [|d u]; simpl in E.
  - apply IH. exact E.
  - injection E as -> <-. exists u, v. auto.
Qed.

Lemma deriv_lang (c : ascii) (r : regex) :
  forall s, lang (deriv c r) s <-> lang r (String c s).
Proof.
  induction r as [| |d| |a IHa b IHb|a IHa b IHb|a IHa]; intros s; simpl.
  - reflexivity.
  - split; [intros []|discriminate].
  - destruct (Ascii.eqb_spec c d) as [->|Hne]; simpl.
    + split; [intros ->; reflexivity|intros [= ->]; reflexivity].
    + split; [intros []|intros [= H _]; contradiction].
  - destruct (Ascii.eqb_spec c newline) as [->|Hne]; simpl.
    + split; [intros []|]. intros (d & Hd & [= <- _]). contradiction.
    + split.
      * intros ->. exists c. auto.
      * intros (d & _ & [= _ ->]). reflexivity.
  - assert (Hcat : (exists u v, s = (u ++ v)%string /\
                                lang (deriv c a) u /\ lang b v) <->
                   (exists u v, String c s = (String c u ++ v)%string /\
                                lang a (String c u) /\ lang b v)).
    { split; intros (u & v & E & Ha & Hb); exists u, v.
      - subst s. repeat split; [apply IHa; exact Ha|exact Hb].
      - simpl in E. injection E as ->.
        repeat split; [apply IHa; exact Ha|exact Hb]. }
    destruct (nullable a) eqn:Na; simpl.
    + split.
      * intros [H|H].
        -- apply Hcat in H. destruct H as (u & v & E & Ha & Hb).
           exists (String c u), v. auto.
        -- exists EmptyString, (String c s). repeat split.
           ++ apply nullable_lang. exact Na.
           ++ apply IHb. exact H.
      * intros (u & v & E & Ha & Hb). destruct u as [|d u]; simpl in E.
        -- right. apply IHb. rewrite E. exact Hb.
        -- left. injection E as <- ->. exists u, v.
           repeat split; [apply IHa; exact Ha|exact Hb].
    + split.
      * intros H. apply Hcat in H. destruct H as (u & v & E & Ha & Hb).
        exists (String c u), v. auto.
      * intros (u & v & E & Ha & Hb). destruct u as [|d u]; simpl in E.
        -- apply nullable_lang in Ha. congruence.
        -- injection E as <- ->. exists u, v.
           repeat split; [apply IHa; exact Ha|exact Hb].
  - rewrite IHa, IHb. reflexivity.
  - split.
    + intros (u & v & -> & Ha & Hs).
      apply (star_app (lang a) (String c u) v); [apply IHa; exact Ha|exact Hs].
    + intros H. destruct (star_cons_inv _ _ H c s eq_refl) as (u & v & E & Ha & Hs).
      exists u, v. repeat split; [exact E|apply IHa; exact Ha|exact Hs].
Qed.

(** [match_prefix] finds a match exactly when some prefix of the subject
    belongs to the language of the expression. *)
Theorem match_prefix_lang (r : regex) (s : string) :
  match_prefix r s = true <->
  exists p t, s = (p ++ t)%string /\ lang r p.
Proof.
  revert r. induction s as [|c s IH]; intros r; simpl.
  - rewrite orb_false_r, nullable_lang. split.
    + intros H. exists EmptyString, EmptyString. auto.
    + intros (p & t & E & H). destruct p; [exact H|discriminate].
  - rewrite orb_true_iff, nullable_lang, IH. split.
    + intros [H|(p & t & -> & H)].
      * exists EmptyString, (String c s). auto.
      * exists (String c p), t. split; [reflexivity|].
        apply deriv_lang. exact H.
    + intros (p & t & E & H). destruct p as [|d p]; simpl in E.
      * left. exact H.
      * right. injection E as <- ->. exists p, t.
        split; [reflexivity|]. apply deriv_lang. exact H.
Qed.

End PyReLang.

(** ** The definitions at work on the demo project *)

(** [re.match] on glob-derived patterns, as CPython answers. *)
Example re_match_examples :
  Literal.re_match "src/config.py:42:.*" "src/config.py:42:token" = Some true /\
  Literal.re_match "src/config.py:42:.*" "src/config.py:42" = Some false /\
  Literal.re_match "src/config.py:42:.*" "src/config.py:421:token" = Some false /\
  Literal.re_match "(.*)b" "zzb" = Some true /\
  Literal.re_match "(a*)*b" "aaac" = Some false /\
  Literal.re_match "src/(old.*" "src/(old" = None /\
  Literal.re_match "a)" "a)" = None /\
  Literal.re_match "(*)" "x" = None /\
  Literal.re_match "a**" "aa" = None.
Proof. repeat split; vm_compute; reflexivity. Qed.

(** The example engine on repetition counts: a count repeats the last
    character, and a count of [MAXREPEAT] or more raises
    [OverflowError]. *)
Example re_compile_examples :
  Literal.re_compile "token" = PyRe.Compiles "token" /\
  Literal.re_compile "ab{3}" = PyRe.Compiles "abbb" /\
  Literal.re_compile "ab{0}" = PyRe.Compiles "a" /\
  Literal.re_compile "a{007}" = PyRe.Compiles "aaaaaaa" /\
  Literal.re_compile "a{4294967295}" = PyRe.OtherError "OverflowError" /\
  Literal.re_compile "key{4294967296}" = PyRe.OtherError "OverflowError" /\
  Literal.re_compile "{3}" = PyRe.ReError /\
  Literal.re_compile "a{3}{2}" = PyRe.ReError /\
  Literal.re_compile "(" = PyRe.ReError.
Proof. repeat split; vm_compute; reflexivity. Qed.

(** Scenario B: a logged token is DATA_EXPOSURE_LOGS and HIGH. *)
Example scenario_logged_token :
  Scanner2._determine_severity_and_risk Literal.Compiled Literal.search
    Literal.fnmatch Literal.re_search Demo.pm "app.js" "console.log(token)"
    "token" = (HIGH, DATA_EXPOSURE_LOGS).
Proof. vm_compute. reflexivity. Qed.

(** The demo run with the history check: the Finding of the tracked,
    gitignored [old_keys.py] was classified LOW and leaves the run HIGH,
    with both provenance flags set. *)
Example scenario_tracked_history :
  map (fun f => (Scanner2.file_path f, Scanner2.line_number f,
                 Scanner2.severity f, Scanner2.in_git_history f,
                 Scanner2.is_still_tracked f))
    (Scanner2.scan Literal.Compiled Literal.search Literal.fnmatch
       Literal.re_search Literal.re_match Demo.pm [] false false true false
       Demo.world)
  = [("app.py", 3%Z, LOW, false, false);
     ("old_keys.py", 1%Z, HIGH, true, true)] /\
  map Scanner2.severity
    (Scanner2.scan_file Literal.Compiled Literal.search Literal.fnmatch
       Literal.re_search Literal.re_match Demo.pm [] false Demo.fs
       "old_keys.py") = [LOW].
Proof. split; vm_compute; reflexivity. Qed.

(** An allowlist entry with an unclosed parenthesis: the matcher raises
    on the first candidate, the [except Exception] of [scan_file] ends
    the scan of the file, and the Finding of line 3 is lost. *)
Example scenario_unclosed_entry :
  Scanner2.scan_lines Literal.Compiled Literal.search Literal.fnmatch
    Literal.re_search Literal.re_match Demo.pm ["src/(old*"] false "app.py"
    Demo.app_py = [] /\
  map Scanner2.line_number
    (Scanner2.scan_lines Literal.Compiled Literal.search Literal.fnmatch
       Literal.re_search Literal.re_match Demo.pm [] false "app.py"
       Demo.app_py) = [3%Z].
Proof. split; vm_compute; reflexivity. Qed.

(* ===================================================================== *)
(** * Further properties of the code *)
(* ===================================================================== *)

(** ** What [scan_file] reports *)

Section Reports2.
Import Scanner2 LoopFacts Report.
Variable Compiled : Type.
Variable search : Compiled -> string -> bool.
Variable fnmatch : string -> string -> bool.
Variable re_search : string -> string -> bool.
Variable re_match : string -> string -> option bool.
Variable pm : PatternManager Compiled.
Variable allowlist : list string.
Variable high_only : bool.

Local Abbreviation passed := (Report.passed re_match allowlist high_only).
Local Abbreviation reported2 :=
  (Report.reported2 Compiled search fnmatch re_search re_match pm allowlist
     high_only).

(** [report] appends a Finding only past both gates. *)
Lemma report_gated (Q : Finding -> Prop) (f : Finding) :
  (passed f -> Q f) -> adds Q (report re_match allowlist high_only f).
Proof.
  intros H st. unfold report, Loop.bind, Loop.call.
  destruct (is_allowlisted re_match allowlist f) as [[|]|] eqn:E; simpl;
    try (exists []; rewrite app_nil_r; split; [reflexivity|constructor]).
  destruct high_only eqn:Eh; simpl.
  - destruct (Severity_eqb (severity f) HIGH) eqn:Es; simpl.
    + exists [f]. split; [reflexivity|]. constructor; [|constructor].
      apply H. split; [exact E|]. intros _.
      apply DedupFacts.Severity_eqb_eq. exact Es.
    + exists []. rewrite app_nil_r. split; [reflexivity|constructor].
  - exists [f]. split; [reflexivity|]. constructor; [|constructor].
    apply H. split; [exact E|]. discriminate.
Qed.

Lemma scan_line_reports (path : string) (i : Z) (line : string) :
  adds (reported2 path i line)
    (scan_line Compiled search fnmatch re_search re_match pm allowlist
       high_only path i line).
Proof.
  unfold scan_line.
  destruct (should_exclude_line Compiled search pm line) eqn:Ex;
    [apply adds_ret|].
  apply adds_bind; [|intros _; apply adds_bind; [|intros _]].
  - apply adds_for_each. intros cp Hin.
    destruct (search (fst cp) line) eqn:Es; [|apply adds_ret].
    apply report_gated. intros Hp. constructor; simpl; auto.
    + exists cp. split; [|auto]. unfold groups_for.
      apply in_or_app. left. exact Hin.
    + left. symmetry. apply surjective_pairing.
  - apply adds_for_each. intros cp Hin.
    destruct (search (fst cp) line) eqn:Es; [|apply adds_ret].
    apply report_gated. intros Hp. constructor; simpl; auto.
    + exists cp. split; [|auto]. unfold groups_for.
      apply in_or_app. right. apply in_or_app. left. exact Hin.
    + left. symmetry. apply surjective_pairing.
  - destruct (is_config_file Compiled fnmatch pm path) eqn:Cf;
      [|apply adds_ret].
    apply adds_for_each. intros cp Hin.
    destruct (search (fst cp) line) eqn:Es; [|apply adds_ret].
    apply report_gated. intros Hp. constructor; simpl; auto.
    exists cp. split; [|auto]. unfold groups_for. rewrite Cf.
    apply in_or_app. right. apply in_or_app. right. exact Hin.
Qed.

Lemma scan_lines_reported (path : string) (lines : list string) :
  Forall (fun f => exists k line,
              nth_error lines k = Some line /\
              reported2 path (1 + Z.of_nat k) line f)
    (scan_lines Compiled search fnmatch re_search re_match pm allowlist
       high_only path lines).
Proof.
  unfold scan_lines.
  match goal with |- Forall ?Q (Loop.catching ?m []) =>
    destruct (catching_adds Q m []) as (new & -> & H) end; [|exact H].
  apply adds_for_each. intros [i line] Hin. simpl.
  apply enumerate_In in Hin. destruct Hin as (k & -> & Hk).
  eapply adds_weaken; [|apply scan_line_reports].
  intros f Hf. exists k, line. split; assumption.
Qed.

Lemma scan_file_reported (fs : string -> option (list string))
    (path : string) :
  Forall (fun f => exists k line lines,
              fs path = Some lines /\ nth_error lines k = Some line /\
              reported2 path (1 + Z.of_nat k) line f)
    (scan_file Compiled search fnmatch re_search re_match pm allowlist
       high_only fs path).
Proof.
  unfold scan_file. destruct (fs path) as [lines|]; [|constructor].
  eapply Forall_impl; [|apply scan_lines_reported].
  intros f (k & line & H1 & H2). exists k, line, lines. auto.
Qed.

End Reports2.

Section Soundness2.
Import Scanner2 Report.
Variable Compiled : Type.
Variable search : Compiled -> string -> bool.
Variable fnmatch : string -> string -> bool.
Variable re_search : string -> string -> bool.
Variable re_match : string -> string -> option bool.
Variable pm : PatternManager Compiled.
Variable allowlist : list string.
Variable high_only : bool.

(** X2: every Finding of [scan_file] points at a line of the file.  Its
    [line_number] is the 1-based number of a line of the file that no
    exclusion pattern matches and on which fires a compiled pattern of
    the groups run on that file (override, primary and, for a
    configuration file, config-specific) whose text is the Finding's
    [pattern]; its [line_content] is that line stripped and its
    [file_path] the path scanned. *)
Theorem scan_file_findings_point_at_matching_lines :
  forall (fs : string -> option (list string)) (path : string),
    Forall (fun f => exists lines line,
                fs path = Some lines /\
                (1 <= line_number f <= Z.of_nat (length lines))%Z /\
                nth_error lines (Z.to_nat (line_number f - 1)) = Some line /\
                file_path f = path /\
                line_content f = Py.strip line /\
                should_exclude_line Compiled search pm line = false /\
                exists cp, In cp (groups_for Compiled fnmatch pm path) /\
                           search (fst cp) line = true /\
                           pattern f = snd cp)
      (scan_file Compiled search fnmatch re_search re_match pm allowlist
         high_only fs path).
Proof.
  intros fs path.
  eapply Forall_impl; [|apply scan_file_reported].
  intros f (k & line & lines & Efs & Hk & R).
  destruct R as [Rp Rl Rc Rx Rf _ _ _].
  exists lines, line. rewrite Rl.
  assert (Hlen : (k < length lines)%nat)
    by (apply nth_error_Some; congruence).
  replace (Z.to_nat (1 + Z.of_nat k - 1)) with k by lia.
  repeat split; auto; lia.
Qed.

End Soundness2.

(** ** The two gates through the whole run *)

Lemma is_allowlisted_fingerprints (re_match : string -> string -> option bool)
    (allowlist : list string) (f g : Scanner2.Finding) :
  Scanner2.fingerprint f = Scanner2.fingerprint g ->
  Scanner2.full_fingerprint f = Scanner2.full_fingerprint g ->
  Scanner2.is_allowlisted re_match allowlist f =
  Scanner2.is_allowlisted re_match allowlist g.
Proof.
  intros E1 E2. unfold Scanner2.is_allowlisted. rewrite E1, E2.
  rewrite !allowlist_globs_spec, E1, E2. reflexivity.
Qed.

Lemma tag_historical_fingerprints (t : bool) (f : Scanner2.Finding) :
  Scanner2.fingerprint (Scanner2.tag_historical t f) = Scanner2.fingerprint f /\
  Scanner2.full_fingerprint (Scanner2.tag_historical t f) =
    Scanner2.full_fingerprint f.
Proof.
  unfold Scanner2.tag_historical. destruct (_ && _); split; reflexivity.
Qed.

Section Gates2.
Import Scanner2 Report.
Variable Compiled : Type.
Variable search : Compiled -> string -> bool.
Variable fnmatch : string -> string -> bool.
Variable re_search : string -> string -> bool.
Variable re_match : string -> string -> option bool.
Variable pm : PatternManager Compiled.
Variable allowlist : list string.
Variable high_only : bool.

Local Abbreviation passed := (Report.passed re_match allowlist high_only).

Lemma scan_file_passed (fs : string -> option (list string)) (path : string) :
  Forall passed
    (scan_file Compiled search fnmatch re_search re_match pm allowlist
       high_only fs path).
Proof.
  eapply Forall_impl; [|apply scan_file_reported].
  intros f (k & line & lines & _ & _ & R). apply R.
Qed.

Lemma tag_historical_passed (t : bool) (f : Finding) :
  passed f -> passed (tag_historical t f).
Proof.
  intros [Ha Hh]. destruct (tag_historical_fingerprints t f) as [E1 E2].
  split.
  - rewrite <- Ha. apply is_allowlisted_fingerprints; assumption.
  - intros H. specialize (Hh H).
    pose proof (tag_historical_monotone t f) as M. rewrite Hh in M.
    destruct (severity (tag_historical t f)); simpl in M; [reflexivity|lia|lia].
Qed.

Lemma detect_passed (w : World) (use_detect_secrets : bool) :
  Forall passed
    (_run_detect_secrets_scan re_match allowlist high_only
       use_detect_secrets w).
Proof.
  unfold _run_detect_secrets_scan.
  destruct use_detect_secrets; [|constructor].
  apply Forall_flat_map. apply Forall_forall. intros [[filename n] ty] _.
  unfold detect_one.
  destruct (is_allowlisted _ _ _) as [[|]|] eqn:E; try constructor.
  destruct (_ && _) eqn:G; constructor; [|constructor].
  split; [exact E|]. intros ->. simpl in *.
  apply negb_false_iff in G. apply DedupFacts.Severity_eqb_eq. exact G.
Qed.

Lemma blobs_passed (w : World) :
  Forall passed (_scan_git_objects Compiled search re_match pm allowlist w).
Proof.
  unfold _scan_git_objects.
  destruct (is_git_repo w); [|constructor].
  match goal with |- context [Loop.for_each ?xs ?body []] =>
    destruct (LoopFacts.adds_for_each passed xs body)
      with (st := @nil Finding) as (new & E & H)
  end.
  - intros [path content] _. simpl.
    apply LoopFacts.adds_for_each. intros [i line] _. simpl.
    unfold blob_line.
    destruct (should_exclude_line _ _ _ _); [apply LoopFacts.adds_ret|].
    apply LoopFacts.adds_for_each. intros cp _.
    destruct (search (fst cp) line); [|apply LoopFacts.adds_ret].
    intros st. unfold Loop.bind, Loop.call.
    destruct (is_allowlisted _ _ _) as [[|]|] eqn:Ea; simpl;
      try (exists []; rewrite app_nil_r; split; [reflexivity|constructor]).
    eexists [_]. split; [reflexivity|]. constructor; [|constructor].
    split; [exact Ea|reflexivity].
  - simpl in E.
    destruct (Loop.for_each _ _ []) as [findings [u|]]; [|constructor].
    simpl in E. subst findings. exact H.
Qed.

Lemma historical_passed (w : World) (deep_scan : bool) :
  Forall passed
    (scan_historical_files Compiled search fnmatch re_search re_match pm
       allowlist high_only deep_scan w).
Proof.
  unfold scan_historical_files.
  destruct (is_git_repo w); [|constructor].
  apply Forall_app. split.
  - apply Forall_flat_map. apply Forall_forall. intros [path t] _. simpl.
    destruct (should_scan_file _ _ _ _ _); [|constructor].
    apply Forall_map. eapply Forall_impl; [|apply scan_file_passed].
    intros f. apply tag_historical_passed.
  - destruct deep_scan; [apply blobs_passed|constructor].
Qed.

Lemma scan_passed (use_detect_secrets check_git_history deep_scan : bool)
    (w : World) :
  Forall passed
    (scan Compiled search fnmatch re_search re_match pm allowlist high_only
       use_detect_secrets check_git_history deep_scan w).
Proof.
  unfold scan.
  destruct (files_to_scan w) as [|f0 fl]; [constructor|].
  apply dedup_Forall.
  apply Forall_app. split; [|apply Forall_app; split].
  - apply Forall_flat_map. apply Forall_forall. intros path _.
    apply scan_file_passed.
  - apply detect_passed.
  - destruct check_git_history; [apply historical_passed|constructor].
Qed.

End Gates2.

Lemma print_report_true (findings : list Scanner2.Finding) :
  Scanner2.print_report findings = true <->
  exists f, In f findings /\ Scanner2.severity f = HIGH.
Proof.
  unfold Scanner2.print_report, Scanner2.findings_of_severity.
  destruct findings as [|f0 l]; [split; [discriminate|intros (f & [] & _)]|].
  remember (f0 :: l) as fs. clear Heqfs. rewrite Nat.ltb_lt. split.
  - intros H.
    destruct (filter _ fs) as [|f r] eqn:E; [simpl in H; lia|].
    assert (Hin : In f (filter (fun f => Severity_eqb (Scanner2.severity f) HIGH)
                          fs)) by (rewrite E; left; reflexivity).
    apply filter_In in Hin. destruct Hin as [Hin Hs].
    exists f. split; [exact Hin|]. apply DedupFacts.Severity_eqb_eq. exact Hs.
  - intros (f & Hin & Hs).
    assert (Hf : In f (filter (fun f => Severity_eqb (Scanner2.severity f) HIGH)
                         fs)).
    { apply filter_In. split; [exact Hin|].
      apply DedupFacts.Severity_eqb_eq. exact Hs. }
    destruct (filter _ fs); [destruct Hf|simpl; lia].
Qed.

Section RunGates2.
Import Scanner2.
Variable Compiled : Type.
Variable search : Compiled -> string -> bool.
Variable fnmatch : string -> string -> bool.
Variable re_search : string -> string -> bool.
Variable re_match : string -> string -> option bool.
Variable pm : PatternManager Compiled.
Variable allowlist : list string.

(** X3: with [--high-only], every Finding that [scan] of
    [secrets_scanner2.py] returns has severity HIGH, whichever of its
    sources produced it (pattern scan, detect-secrets, history scan of
    files and of blobs) and whatever the de-duplication kept. *)
Theorem scan_high_only_returns_high_findings :
  forall (use_detect_secrets check_git_history deep_scan : bool) (w : World),
    Forall (fun f => severity f = HIGH)
      (scan Compiled search fnmatch re_search re_match pm allowlist true
         use_detect_secrets check_git_history deep_scan w).
Proof.
  intros u c d w.
  eapply Forall_impl; [|apply scan_passed].
  intros f [_ H]. apply H. reflexivity.
Qed.

(** X4: no Finding that [scan] of [secrets_scanner2.py] returns is
    allowlisted: on each of them [is_allowlisted] answers false (and
    does not raise), for every allowlist and every [re] engine, the
    Findings of the history scan included, which are tagged after the
    allowlist was consulted. *)
Theorem scan_returns_no_allowlisted_finding :
  forall (high_only use_detect_secrets check_git_history deep_scan : bool)
         (w : World),
    Forall (fun f => is_allowlisted re_match allowlist f = Some false)
      (scan Compiled search fnmatch re_search re_match pm allowlist high_only
         use_detect_secrets check_git_history deep_scan w).
Proof.
  intros h u c d w.
  eapply Forall_impl; [|apply scan_passed].
  intros f [H _]. exact H.
Qed.

(** X5: the exit status of [main] of [secrets_scanner2.py] is 1 exactly
    when [scan] returned at least one Finding, and 0 otherwise, with and
    without [--high-only]: under [--high-only] the status is read off
    the presence of a HIGH Finding, and every Finding returned is then
    HIGH. *)
Theorem exit_status_tells_whether_scan_found_something :
  forall (high_only use_detect_secrets check_git_history deep_scan : bool)
         (w : World),
    exit_status high_only
      (scan Compiled search fnmatch re_search re_match pm allowlist high_only
         use_detect_secrets check_git_history deep_scan w) =
    match scan Compiled search fnmatch re_search re_match pm allowlist
            high_only use_detect_secrets check_git_history deep_scan w with
    | [] => 0%Z
    | _ :: _ => 1%Z
    end.
Proof.
  intros h u c d w. unfold exit_status.
  destruct h; [|reflexivity].
  pose proof (scan_passed Compiled search fnmatch re_search re_match pm
                allowlist true u c d w) as H.
  destruct (scan _ _ _ _ _ _ _ _ _ _ _ _) as [|f l]; [reflexivity|].
  replace (print_report (f :: l)) with true; [reflexivity|].
  symmetry. apply print_report_true. exists f. split; [left; reflexivity|].
  inversion H as [|? ? [_ Hf] _]. apply Hf. reflexivity.
Qed.

End RunGates2.

(** ** More on the de-duplication *)

Module DedupMore.
Import DedupFacts.

Section V2.
Import Scanner2.

Lemma dict_set_absent (k : string) (v : Finding) (d : dict) :
  dict_get k d = None -> dict_set k v d = d ++ [(k, v)].
Proof.
  induction d as [|[k0 v0] d IH]; simpl; [reflexivity|].
  destruct (String.eqb k k0); [discriminate|].
  intros H. rewrite (IH H). reflexivity.
Qed.

(** On Findings with pairwise distinct fingerprints, none of which is
    in the dict yet, the loop appends them all. *)
Lemma fold_dedup_distinct (l : list Finding) (d : dict) :
  NoDup (map fingerprint l) ->
  (forall f, In f l -> dict_get (fingerprint f) d = None) ->
  map snd (fold_left dedup_step l d) = map snd d ++ l.
Proof.
  revert d. induction l as [|f l IH]; intros d Hnd Hd; simpl.
  - rewrite app_nil_r. reflexivity.
  - inversion Hnd as [|? ? Hnotin Hnd']; subst.
    assert (E : dedup_step d f = dict_set (fingerprint f) f d).
    { unfold dedup_step. rewrite (Hd f (or_introl eq_refl)). reflexivity. }
    rewrite E, IH; [|exact Hnd'|].
    + rewrite (dict_set_absent _ _ _ (Hd f (or_introl eq_refl))).
      rewrite map_app, <- app_assoc. reflexivity.
    + intros g Hg. rewrite dict_get_set.
      destruct (String.eqb (fingerprint g) (fingerprint f)) eqn:Eq.
      * apply String.eqb_eq in Eq. exfalso. apply Hnotin. rewrite <- Eq.
        apply in_map. exact Hg.
      * apply Hd. right. exact Hg.
Qed.

Lemma dedup_distinct (l : list Finding) :
  NoDup (map fingerprint l) -> dedup l = l.
Proof.
  intros H. unfold dedup, unique_findings.
  rewrite fold_dedup_distinct; auto.
Qed.

Lemma dedup_NoDup (stream : list Finding) :
  NoDup (map fingerprint (dedup stream)).
Proof.
  rewrite dedup_fingerprints. apply (inv_keys _ _ (unique_findings_inv stream)).
Qed.

(** The survivor of a fingerprint has the highest severity found for
    it. *)
Lemma dedup_top_severity (stream : list Finding) (f : Finding) :
  In f stream ->
  exists g, In g (dedup stream) /\ fingerprint g = fingerprint f /\
            rank (severity f) <= rank (severity g).
Proof.
  intros Hin.
  destruct (survivor_exists stream f Hin) as (g & Eg & Efp).
  exists g. split; [apply dedup_In; rewrite Efp; exact Eg|].
  split; [exact Efp|].
  pose proof (survivor_cases stream (fingerprint f)) as C. cbv zeta in C.
  unfold Spec.survivor in Eg.
  assert (Hnone : forall s,
             Spec.first_with fingerprint severity (fingerprint f) s stream
             = None -> severity f <> s).
  { intros s H Es. pose proof (find_none _ _ H f Hin) as N. simpl in N.
    rewrite String.eqb_refl in N. simpl in N.
    apply (proj2 (Severity_eqb_eq _ _)) in Es. congruence. }
  destruct C as [(e & EH & Se)|[(EH & e & EM & Se)|
                 [(EH & EM & e & EA & Se)|(EH & EM & EA)]]].
  - rewrite EH in Eg. injection Eg as <-. rewrite Se.
    destruct (severity f); simpl; lia.
  - rewrite EH, EM in Eg. injection Eg as <-. rewrite Se.
    pose proof (Hnone _ EH). destruct (severity f); simpl; try lia.
    congruence.
  - pose proof (Hnone _ EH). pose proof (Hnone _ EM).
    destruct (severity f); simpl; try lia; congruence.
  - rewrite EH, EM, EA in Eg. discriminate.
Qed.

End V2.

Section V1.
Import Scanner1.

Lemma fold_dedup_distinct1 (l : list Finding) (d : dict) :
  NoDup (map fingerprint l) ->
  (forall f, In f l -> dict_get (fingerprint f) d = None) ->
  map snd (fold_left dedup_step l d) = map snd d ++ l.
Proof.
  revert d. induction l as [|f l IH]; intros d Hnd Hd; simpl.
  - rewrite app_nil_r. reflexivity.
  - inversion Hnd as [|? ? Hnotin Hnd']; subst.
    assert (E : dedup_step d f = d ++ [(fingerprint f, f)]).
    { unfold dedup_step. rewrite (Hd f (or_introl eq_refl)). reflexivity. }
    rewrite E, IH; [|exact Hnd'|].
    + rewrite map_app, <- app_assoc. reflexivity.
    + intros g Hg. rewrite dict_get_snoc1, (Hd g (or_intror Hg)).
      destruct (String.eqb (fingerprint g) (fingerprint f)) eqn:Eq;
        [|reflexivity].
      apply String.eqb_eq in Eq. exfalso. apply Hnotin. rewrite <- Eq.
      apply in_map. exact Hg.
Qed.

Lemma dedup_distinct1 (l : list Finding) :
  NoDup (map fingerprint l) -> dedup l = l.
Proof.
  intros H. unfold dedup, unique_findings.
  rewrite fold_dedup_distinct1; auto.
Qed.

Lemma dedup_NoDup1 (stream : list Finding) :
  NoDup (map fingerprint (dedup stream)).
Proof.
  rewrite dedup_fingerprints1.
  apply (inv_keys1 _ _ (unique_findings_inv1 stream)).
Qed.

End V1.
End DedupMore.

(** X6: the de-duplication of both scanners is idempotent, and it is
    the identity on a list whose Findings have pairwise distinct
    fingerprints: such a list comes out unchanged, in the same order. *)
Theorem dedup_is_idempotent :
  (forall stream : list Scanner2.Finding,
      Scanner2.dedup (Scanner2.dedup stream) = Scanner2.dedup stream) /\
  (forall stream : list Scanner2.Finding,
      NoDup (map Scanner2.fingerprint stream) ->
      Scanner2.dedup stream = stream) /\
  (forall stream : list Scanner1.Finding,
      Scanner1.dedup (Scanner1.dedup stream) = Scanner1.dedup stream) /\
  (forall stream : list Scanner1.Finding,
      NoDup (map Scanner1.fingerprint stream) ->
      Scanner1.dedup stream = stream).
Proof.
  split; [|split; [|split]].
  - intros stream. apply DedupMore.dedup_distinct, DedupMore.dedup_NoDup.
  - apply DedupMore.dedup_distinct.
  - intros stream. apply DedupMore.dedup_distinct1, DedupMore.dedup_NoDup1.
  - apply DedupMore.dedup_distinct1.
Qed.

Lemma dedup_nil_iff (stream : list Scanner2.Finding) :
  Scanner2.dedup stream = [] <-> stream = [].
Proof.
  split; [|intros ->; reflexivity].
  destruct stream as [|f l]; [reflexivity|]. intros E.
  destruct (DedupMore.dedup_top_severity (f :: l) f (or_introl eq_refl))
    as (g & Hg & _).
  rewrite E in Hg. destruct Hg.
Qed.

Lemma print_report_dedup (stream : list Scanner2.Finding) :
  Scanner2.print_report (Scanner2.dedup stream) = Scanner2.print_report stream.
Proof.
  apply eq_true_iff_eq. split; intros H; apply print_report_true in H;
    apply print_report_true.
  - destruct H as (g & Hg & Hs). exists g. split; [|exact Hs].
    apply DedupFacts.dedup_In in Hg. eapply survivor_In. exact Hg.
  - destruct H as (f & Hf & Hs).
    destruct (DedupMore.dedup_top_severity stream f Hf) as (g & Hg & _ & Hr).
    exists g. split; [exact Hg|]. rewrite Hs in Hr.
    destruct (Scanner2.severity g); simpl in Hr; [reflexivity|lia|lia].
Qed.

(** X7: the de-duplication of [secrets_scanner2.py] never lowers what is
    reported for a line: every Finding of the input has a survivor with
    the same fingerprint and a severity at least as high.  So the value
    of [print_report] (is some Finding HIGH) and the exit status of
    [main] are the same before and after the de-duplication. *)
Theorem dedup_keeps_the_highest_severity :
  forall stream : list Scanner2.Finding,
    Forall (fun f => exists g,
                In g (Scanner2.dedup stream) /\
                Scanner2.fingerprint g = Scanner2.fingerprint f /\
                rank (Scanner2.severity f) <= rank (Scanner2.severity g))
      stream /\
    Scanner2.print_report (Scanner2.dedup stream) =
      Scanner2.print_report stream /\
    (forall high_only,
        Scanner2.exit_status high_only (Scanner2.dedup stream) =
        Scanner2.exit_status high_only stream).
Proof.
  intros stream. split; [|split].
  - apply Forall_forall. intros f Hf.
    apply DedupMore.dedup_top_severity. exact Hf.
  - apply print_report_dedup.
  - intros h. unfold Scanner2.exit_status. rewrite print_report_dedup.
    destruct h; [reflexivity|].
    destruct stream as [|f l]; [reflexivity|].
    destruct (Scanner2.dedup (f :: l)) eqn:E; [|reflexivity].
    apply (proj1 (dedup_nil_iff _)) in E. discriminate.
Qed.

(** ** Fingerprints *)

Module FingerprintFacts.
Import PyFacts StrIntFacts.

Lemma contains_middle (n a b : string) :
  Py.contains n (a ++ n ++ b) = true.
Proof. apply contains_iff. exists a, b. reflexivity. Qed.

Lemma digits_no_colon (s : string) :
  all_digits s = true -> Py.contains ":" s = false.
Proof.
  induction s as [|c s IH]; intros H; [reflexivity|].
  cbn [all_digits] in H. apply andb_true_iff in H. destruct H as [Hc Hs].
  rewrite contains_unfold, (IH Hs), orb_false_r.
  cbn [Py.startswith]. rewrite andb_true_r.
  destruct (Ascii.eqb ":" c) eqn:E; [|reflexivity].
  apply digit_colon in E. congruence.
Qed.

(** The decimal text of a number holds no colon. *)
Lemma str_int_no_colon (n : Z) : Py.contains ":" (Py.str_int n) = false.
Proof.
  destruct (str_int_shape n) as (s & Hd & [->| ->]).
  - apply digits_no_colon. exact Hd.
  - rewrite contains_unfold, (digits_no_colon s Hd). reflexivity.
Qed.

(** [str] is injective on the integers. *)
Lemma str_int_inj (n m : Z) : Py.str_int n = Py.str_int m -> n = m.
Proof.
  intros H. apply DecimalZ.to_int_inj.
  assert (R : forall z, NilZero.int_of_string (Py.str_int z)
                        = Some (Z.to_int z)).
  { intros z. unfold Py.str_int. apply NilZero.isi;
      destruct z; simpl; intros E; try discriminate;
      injection E as E; exact (DecimalPos.Unsigned.to_uint_nonnil _ E). }
  pose proof (R n) as Rn. rewrite H, R in Rn. congruence.
Qed.

(** A text is cut in one way only at a colon that no colon follows. *)
Lemma split_at_last_colon (a a' s s' : string) :
  Py.contains ":" s = false -> Py.contains ":" s' = false ->
  (a ++ ":" ++ s = a' ++ ":" ++ s')%string -> a = a' /\ s = s'.
Proof.
  intros Hs Hs'. revert a'.
  induction a as [|c a IH]; intros [|c' a'] E; simpl in E.
  - injection E as E. auto.
  - injection E as _ E. subst s.
    assert (C := contains_middle ":" a' s').
    change (Py.contains ":" (a' ++ String ":" s') = true) in C. congruence.
  - injection E as _ E. subst s'.
    assert (C := contains_middle ":" a s).
    change (Py.contains ":" (a ++ String ":" s) = true) in C. congruence.
  - injection E as -> E. destruct (IH a' E) as [-> ->]. auto.
Qed.

End FingerprintFacts.

(** X8: two Findings have the same bare fingerprint exactly when they
    have the same file path and the same line number, in both scanners
    and whatever characters the path holds (colons included): the
    deduplication by fingerprint is a deduplication by file and
    line. *)
Theorem fingerprint_identifies_file_and_line :
  (forall f g : Scanner2.Finding,
      Scanner2.fingerprint f = Scanner2.fingerprint g <->
      Scanner2.file_path f = Scanner2.file_path g /\
      Scanner2.line_number f = Scanner2.line_number g) /\
  (forall f g : Scanner1.Finding,
      Scanner1.fingerprint f = Scanner1.fingerprint g <->
      Scanner1.file_path f = Scanner1.file_path g /\
      Scanner1.line_number f = Scanner1.line_number g).
Proof.
  split; intros f g; split.
  - unfold Scanner2.fingerprint. intros E.
    apply FingerprintFacts.split_at_last_colon in E;
      try apply FingerprintFacts.str_int_no_colon.
    destruct E as [E1 E2]. split; [exact E1|].
    apply FingerprintFacts.str_int_inj. exact E2.
  - unfold Scanner2.fingerprint. intros [-> ->]. reflexivity.
  - unfold Scanner1.fingerprint. intros E.
    apply FingerprintFacts.split_at_last_colon in E;
      try apply FingerprintFacts.str_int_no_colon.
    destruct E as [E1 E2]. split; [exact E1|].
    apply FingerprintFacts.str_int_inj. exact E2.
  - unfold Scanner1.fingerprint. intros [-> ->]. reflexivity.
Qed.

(** ** Growing the allowlist *)

Module AllowGrowth.
Import PyFacts.

Section V2.
Import Scanner2.
Variable re_match : string -> string -> option bool.

(** The regular expression built from a wildcard entry. *)
Local Abbreviation rx := (Py.replace "*" ".*").

Lemma globs_true (entries : list string) (f : Finding) :
  allowlist_globs re_match entries f = Some true ->
  exists e, In e entries /\ Py.contains "*" e = true /\
            (re_match (rx e) (fingerprint f) = Some true \/
             re_match (rx e) (full_fingerprint f) = Some true).
Proof.
  induction entries as [|e rest IH]; cbn [allowlist_globs app];
    [discriminate|].
  destruct (Py.contains "*" e) eqn:Es.
  - destruct (re_match (rx e) (fingerprint f)) as [[|]|] eqn:E1;
      [intros _; exists e;
       split; [left; reflexivity|split; [exact Es|auto]]|  |discriminate].
    destruct (re_match (rx e) (full_fingerprint f)) as [[|]|] eqn:E2;
      [intros _; exists e;
       split; [left; reflexivity|split; [exact Es|auto]]|  |discriminate].
    intros H. destruct (IH H) as (e' & Hin & H'). exists e'.
    split; [right; exact Hin|exact H'].
  - intros H. destruct (IH H) as (e' & Hin & H'). exists e'.
    split; [right; exact Hin|exact H'].
Qed.

Lemma globs_false (entries : list string) (f : Finding) :
  allowlist_globs re_match entries f = Some false ->
  forall e, In e entries -> Py.contains "*" e = true ->
            re_match (rx e) (fingerprint f) = Some false /\
            re_match (rx e) (full_fingerprint f) = Some false.
Proof.
  induction entries as [|e rest IH]; cbn [allowlist_globs];
    [intros _ e []|].
  destruct (Py.contains "*" e) eqn:Es.
  - destruct (re_match (rx e) (fingerprint f)) as [[|]|] eqn:E1;
      try discriminate.
    destruct (re_match (rx e) (full_fingerprint f)) as [[|]|] eqn:E2;
      try discriminate.
    intros H e' [<-|Hin] Hs; [auto|]. apply IH; assumption.
  - intros H e' [<-|Hin] Hs; [congruence|]. apply IH; assumption.
Qed.

Lemma globs_app_true (entries extra : list string) (f : Finding) :
  allowlist_globs re_match entries f = Some true ->
  allowlist_globs re_match (entries ++ extra) f = Some true.
Proof.
  induction entries as [|e rest IH]; cbn [allowlist_globs app];
    [discriminate|].
  destruct (Py.contains "*" e); [|exact IH].
  destruct (re_match (rx e) (fingerprint f)) as [[|]|]; auto.
  destruct (re_match (rx e) (full_fingerprint f)) as [[|]|]; auto.
Qed.

Lemma allowed_after_append (allowlist extra : list string) (f : Finding) :
  is_allowlisted re_match allowlist f = Some true ->
  is_allowlisted re_match (allowlist ++ extra) f = Some true.
Proof.
  unfold is_allowlisted. rewrite !mem_str_app.
  destruct (mem_str (fingerprint f) allowlist); [reflexivity|].
  destruct (mem_str (full_fingerprint f) allowlist); simpl.
  - intros _. destruct (mem_str (fingerprint f) extra); reflexivity.
  - intros H. rewrite (globs_app_true _ extra _ H).
    destruct (mem_str (fingerprint f) extra),
             (mem_str (full_fingerprint f) extra); reflexivity.
Qed.

Lemma allowed_in_superset (allowlist bigger : list string) (f : Finding) :
  incl allowlist bigger ->
  is_allowlisted re_match allowlist f = Some true ->
  is_allowlisted re_match bigger f = Some true \/
  is_allowlisted re_match bigger f = None.
Proof.
  intros Hincl. unfold is_allowlisted.
  assert (Mem : forall x, mem_str x allowlist = true ->
                          mem_str x bigger = true).
  { intros x H. apply mem_str_iff in H. apply mem_str_iff. auto. }
  destruct (mem_str (fingerprint f) allowlist) eqn:M1;
    [rewrite (Mem _ M1); auto|].
  destruct (mem_str (fingerprint f) bigger); [auto|].
  destruct (mem_str (full_fingerprint f) allowlist) eqn:M2;
    [rewrite (Mem _ M2); auto|].
  destruct (mem_str (full_fingerprint f) bigger); [auto|].
  intros H. apply globs_true in H. destruct H as (e & Hin & Hs & Hm).
  destruct (allowlist_globs re_match bigger f) as [[|]|] eqn:G; auto.
  exfalso. destruct (globs_false _ _ G e (Hincl _ Hin) Hs) as [F1 F2].
  destruct Hm; congruence.
Qed.

End V2.
End AllowGrowth.

(** X9: entries added to the allowlist never bring an allowed Finding
    back into the report.  If [is_allowlisted] of [secrets_scanner2.py]
    answers true for a Finding, it still answers true after any entries
    were appended to the allowlist; and on any allowlist that holds the
    same entries at any place among others it answers true or raises
    (a wildcard entry that the [re] engine rejects), never false. *)
Theorem allowlist_growth_keeps_a_finding_allowed :
  forall (re_match : string -> string -> option bool)
         (allowlist : list string) (f : Scanner2.Finding),
    Scanner2.is_allowlisted re_match allowlist f = Some true ->
    (forall extra,
        Scanner2.is_allowlisted re_match (allowlist ++ extra) f = Some true) /\
    (forall bigger,
        incl allowlist bigger ->
        Scanner2.is_allowlisted re_match bigger f = Some true \/
        Scanner2.is_allowlisted re_match bigger f = None).
Proof.
  intros re_match allowlist f H. split.
  - intros extra. apply AllowGrowth.allowed_after_append. exact H.
  - intros bigger Hincl. eapply AllowGrowth.allowed_in_superset; eauto.
Qed.

Lemma allowlist_growth_witness :
  (forall extra,
      Scanner2.is_allowlisted Literal.re_match (["app.py:*"] ++ extra)
        Demo.finding = Some true) /\
  (forall bigger,
      incl ["app.py:*"] bigger ->
      Scanner2.is_allowlisted Literal.re_match bigger Demo.finding
        = Some true \/
      Scanner2.is_allowlisted Literal.re_match bigger Demo.finding = None).
Proof.
  exact (allowlist_growth_keeps_a_finding_allowed Literal.re_match
           ["app.py:*"] Demo.finding eq_refl).
Defined.

(** ** Guarantees of the severity rules *)

Section SeverityRules.
Variable Compiled : Type.
Variable search : Compiled -> string -> bool.
Variable fnmatch : string -> string -> bool.
Variable re_search : string -> string -> bool.
Variable pm : Scanner2.PatternManager Compiled.

Local Abbreviation classify2 :=
  (Scanner2._determine_severity_and_risk Compiled search fnmatch re_search pm).
Local Abbreviation classify1 :=
  (Scanner1._determine_severity_and_risk Compiled search re_search
     (Scanner2.compiled_overrides pm)).

Ltac rules_cases :=
  repeat match goal with
         | |- context [if ?b then _ else _] => destruct b; simpl
         end.

Lemma any_in_logging2 (lc : string) :
  Py.any_in ["console."; "print"; "echo"; "log."] lc =
  Py.contains "console." lc || Py.contains "print" lc ||
  Py.contains "echo" lc || Py.contains "log." lc.
Proof.
  unfold Py.any_in. cbn [existsb]. rewrite orb_false_r, !orb_assoc.
  reflexivity.
Qed.

Lemma any_in_logging1 (lc : string) :
  Py.any_in ["console."; "print"; "echo"] lc =
  Py.contains "console." lc || Py.contains "print" lc ||
  Py.contains "echo" lc.
Proof.
  unfold Py.any_in. cbn [existsb]. rewrite orb_false_r, !orb_assoc.
  reflexivity.
Qed.

(** X10: what the severity rules guarantee, for every file, line,
    pattern, pattern set and [re] engine, in both scanners.  A line that
    holds a logging token and one of "pass", "secret", "token", "api",
    "cred" (letter case ignored) is HIGH.  A line that holds
    "client_id" or "client_secret" is never LOW: it is MEDIUM when the
    quoted-value rule comes first, HIGH otherwise.  A line is LOW only
    if no override pattern fires on it.  The risk type is that of the
    pre-pass, whichever rule sets the severity. *)
Theorem severity_rules_guarantees :
  forall path line pattern : string,
    let lc := Py.lower line in
    let secret := Py.any_in ["pass"; "secret"; "token"; "api"; "cred"] lc in
    let client :=
      Py.contains "client_id" lc || Py.contains "client_secret" lc in
    let fired :=
      existsb (fun cp => search (fst cp) line) (Scanner2.compiled_overrides pm)
    in
    (Py.any_in ["console."; "print"; "echo"; "log."] lc && secret = true ->
     fst (classify2 path line pattern) = HIGH) /\
    (Py.any_in ["console."; "print"; "echo"] lc && secret = true ->
     fst (classify1 path line pattern) = HIGH) /\
    (client = true ->
     fst (classify2 path line pattern) <> LOW /\
     fst (classify1 path line pattern) <> LOW) /\
    (fired = true ->
     fst (classify2 path line pattern) = HIGH /\
     fst (classify1 path line pattern) = HIGH) /\
    snd (classify2 path line pattern) = Scanner2._determine_risk_type line /\
    snd (classify1 path line pattern) = Scanner1.risk_of line.
Proof.
  intros path line pattern lc secret client fired.
  unfold Scanner2._determine_severity_and_risk,
         Scanner1._determine_severity_and_risk.
  fold lc. fold fired. fold client.
  rewrite any_in_logging2, any_in_logging1. fold secret.
  split; [|split; [|split; [|split; [|split]]]].
  - intros H. rewrite H. rules_cases; reflexivity.
  - intros H. rewrite H. rules_cases; reflexivity.
  - intros ->. split; rules_cases; discriminate.
  - intros ->. split; reflexivity.
  - rules_cases; reflexivity.
  - rules_cases; reflexivity.
Qed.

End SeverityRules.

(** ** The files to scan *)

Section Collect.
Import Scanner2.
Variable Compiled : Type.
Variable fnmatch : string -> string -> bool.
Variable pm : PatternManager Compiled.
Variable is_git_repo : bool.
Variable git_ignored : string -> bool.
Variable scan_gitignored : bool.

Local Abbreviation wanted := (should_scan_file Compiled fnmatch pm).
Local Abbreviation step :=
  (collect_step Compiled fnmatch pm is_git_repo git_ignored scan_gitignored).

Lemma collect_loop (walk a b : list string) :
  fold_left step walk (a, b) =
  (a ++ filter (fun p => wanted p [] && negb (is_git_repo && git_ignored p))
          walk,
   b ++ (if scan_gitignored
         then filter (fun p => wanted p [] && (is_git_repo && git_ignored p))
                walk
         else [])).
Proof.
  revert a b. induction walk as [|p walk IH]; intros a b.
  - destruct scan_gitignored; simpl; rewrite !app_nil_r; reflexivity.
  - cbn [fold_left filter]. unfold collect_step at 2.
    destruct (should_scan_file Compiled fnmatch pm p []) eqn:W;
      cbn [negb andb fst snd].
    + replace (if is_git_repo then git_ignored p else false)
        with (is_git_repo && git_ignored p)
        by (destruct is_git_repo; auto).
      destruct (is_git_repo && git_ignored p) eqn:I; cbn [negb].
      * destruct scan_gitignored eqn:S; rewrite IH.
        -- rewrite <- app_assoc. reflexivity.
        -- reflexivity.
      * rewrite IH, <- app_assoc. reflexivity.
    + rewrite IH. reflexivity.
Qed.

(** X11: [_collect_files_to_scan] of [secrets_scanner2.py] returns, of
    the paths that the directory walk yields, those that
    [should_scan_file] accepts and git does not ignore, in the order of
    the walk, followed, with [--scan-gitignored] only, by those that
    [should_scan_file] accepts and git ignores.  So every path of the
    returned list is a path of the walk that [should_scan_file]
    accepts, and without [--scan-gitignored] none of them is ignored by
    git.  The statement is about this list, from which the pattern scan
    of [scan] takes its files; it does not cover the files that the
    history scan reads. *)
Theorem collect_files_to_scan_is_a_filter :
  forall walk : list string,
    _collect_files_to_scan Compiled fnmatch pm is_git_repo git_ignored
      scan_gitignored walk =
    filter (fun p => wanted p [] && negb (is_git_repo && git_ignored p))
      walk ++
    (if scan_gitignored
     then filter (fun p => wanted p [] && (is_git_repo && git_ignored p))
            walk
     else []) /\
    Forall (fun p => In p walk /\ wanted p [] = true /\
                     (scan_gitignored = false ->
                      is_git_repo && git_ignored p = false))
      (_collect_files_to_scan Compiled fnmatch pm is_git_repo git_ignored
         scan_gitignored walk).
Proof.
  intros walk.
  assert (E : _collect_files_to_scan Compiled fnmatch pm is_git_repo
                git_ignored scan_gitignored walk =
              filter (fun p => wanted p [] &&
                               negb (is_git_repo && git_ignored p)) walk ++
              (if scan_gitignored
               then filter (fun p => wanted p [] &&
                                     (is_git_repo && git_ignored p)) walk
               else [])).
  { unfold _collect_files_to_scan. rewrite collect_loop.
    cbn [fst snd app].
    destruct scan_gitignored; [|rewrite app_nil_r; reflexivity].
    generalize (filter (fun p => wanted p [] && (is_git_repo && git_ignored p))
                  walk).
    intros [|x l]; [rewrite app_nil_r|]; reflexivity. }
  split; [exact E|]. rewrite E. apply Forall_app. split.
  - apply Forall_forall. intros p Hp. apply filter_In in Hp.
    destruct Hp as [Hin Hp]. apply andb_true_iff in Hp.
    destruct Hp as [Hw Hi]. apply negb_true_iff in Hi. auto.
  - destruct scan_gitignored; [|constructor].
    apply Forall_forall. intros p Hp. apply filter_In in Hp.
    destruct Hp as [Hin Hp]. apply andb_true_iff in Hp.
    destruct Hp as [Hw Hi]. split; [exact Hin|]. split; [exact Hw|].
    discriminate.
Qed.

End Collect.

(** ** The code context shown in the report *)

Module ContextFacts.

Lemma enumerate_length {A} (start : Z) (xs : list A) :
  length (Py.enumerate start xs) = length xs.
Proof.
  revert start. induction xs as [|x xs IH]; intros start; simpl;
    [reflexivity|]. rewrite IH. reflexivity.
Qed.

(** A slice between two indices in range. *)
Lemma slice_in_range {A} (xs : list A) (a b : Z) :
  (0 <= a <= Z.of_nat (length xs))%Z ->
  (0 <= b <= Z.of_nat (length xs))%Z ->
  Py.slice xs a b = firstn (Z.to_nat (b - a)) (skipn (Z.to_nat a) xs).
Proof.
  intros Ha Hb. unfold Py.slice, Py.slice_index.
  destruct (Z.ltb_spec a 0); [lia|]. destruct (Z.ltb_spec b 0); [lia|].
  rewrite !Z.min_l by lia. reflexivity.
Qed.

Lemma slice_nth {A} (xs : list A) (a b : Z) (k : nat) (x : A) :
  (0 <= a <= Z.of_nat (length xs))%Z ->
  (0 <= b <= Z.of_nat (length xs))%Z ->
  (nth_error (Py.slice xs a b) k = Some x <->
   (Z.of_nat k < b - a)%Z /\ nth_error xs (Z.to_nat a + k) = Some x).
Proof.
  intros Ha Hb. rewrite slice_in_range by assumption.
  rewrite nth_error_firstn, nth_error_skipn.
  destruct (Nat.ltb_spec k (Z.to_nat (b - a))).
  - split; [intros E; split; [lia|exact E]|intros [_ E]; exact E].
  - split; [discriminate|intros [Hk _]; lia].
Qed.

End ContextFacts.

(** X12: the code context that [print_report] shows for a Finding of
    line [n] of a file that still has that line.  [_get_context_lines]
    returns at most five lines; the number printed before each of them
    is its true 1-based line number in the file; the text is that line
    with trailing white space removed; the mark "FINDING HERE" is on
    line [n], which is among the lines shown, and on no other. *)
Theorem code_context_shows_the_true_line_numbers :
  forall (lines : list string) (e : string) (n : Z),
    (1 <= n <= Z.of_nat (length lines))%Z ->
    let shown :=
      Scanner2.code_context n
        (Scanner2._get_context_lines (Some lines) e n 2) in
    Forall (fun entry =>
              exists line,
                (1 <= fst (fst entry))%Z /\
                nth_error lines (Z.to_nat (fst (fst entry) - 1)) = Some line /\
                snd (fst entry) = Py.rstrip line /\
                snd entry = Z.eqb (fst (fst entry)) n)
      shown /\
    (exists line, nth_error lines (Z.to_nat (n - 1)) = Some line /\
                  In (n, Py.rstrip line, true) shown) /\
    length shown <= 5.
Proof.
  intros lines e n Hn shown. subst shown.
  unfold Scanner2.code_context, Scanner2._get_context_lines.
  set (start := Z.max 0 (n - 2 - 1)).
  set (stop := Z.min (Z.of_nat (length lines)) (n + 2)).
  assert (Hstart : (0 <= start <= Z.of_nat (length lines))%Z) by lia.
  assert (Hstop : (0 <= stop <= Z.of_nat (length lines))%Z) by lia.
  assert (Hline : (Z.max 1 (n - 2) = start + 1)%Z) by lia.
  rewrite Hline. split; [|split].
  - apply Forall_forall. intros entry Hin.
    apply in_map_iff in Hin. destruct Hin as ([i l] & <- & Hin).
    apply LoopFacts.enumerate_In in Hin. destruct Hin as (k & -> & Hk).
    apply ContextFacts.slice_nth in Hk; [|assumption|assumption].
    destruct Hk as [Hlt Hk]. exists l. cbn [fst snd].
    replace (Z.to_nat (start + 1 + (0 + Z.of_nat k) - 1))
      with (Z.to_nat start + k)%nat by lia.
    repeat split; [lia|exact Hk].
  - destruct (nth_error lines (Z.to_nat (n - 1))) as [line|] eqn:E.
    + exists line. split; [reflexivity|].
      apply in_map_iff.
      exists (Z.of_nat (Z.to_nat (n - 1 - start)), line). cbn [fst snd].
      split.
      * f_equal; [f_equal; lia|]. apply Z.eqb_eq. lia.
      * apply LoopFacts.enumerate_In. exists (Z.to_nat (n - 1 - start)).
        split; [lia|].
        apply ContextFacts.slice_nth; [assumption|assumption|].
        split; [lia|].
        replace (Z.to_nat start + Z.to_nat (n - 1 - start))%nat
          with (Z.to_nat (n - 1)) by lia.
        exact E.
    + apply nth_error_None in E. lia.
  - rewrite length_map, ContextFacts.enumerate_length.
    rewrite ContextFacts.slice_in_range by assumption.
    rewrite length_firstn. lia.
Qed.

Lemma code_context_witness :
  Forall (fun entry =>
            exists line,
              (1 <= fst (fst entry))%Z /\
              nth_error Demo.app_py (Z.to_nat (fst (fst entry) - 1))
                = Some line /\
              snd (fst entry) = Py.rstrip line /\
              snd entry = Z.eqb (fst (fst entry)) 3)
    (Scanner2.code_context 3
       (Scanner2._get_context_lines (Some Demo.app_py) EmptyString 3 2)) /\
  (exists line, nth_error Demo.app_py (Z.to_nat (3 - 1)) = Some line /\
                In (3%Z, Py.rstrip line, true)
                  (Scanner2.code_context 3
                     (Scanner2._get_context_lines (Some Demo.app_py)
                        EmptyString 3 2))) /\
  length (Scanner2.code_context 3
            (Scanner2._get_context_lines (Some Demo.app_py) EmptyString 3 2))
  <= 5.
Proof.
  apply (code_context_shows_the_true_line_numbers Demo.app_py EmptyString 3).
  simpl. lia.
Defined.

(** ** Lines written to a text file and read back *)

Module TextFacts.
Import PyFacts Report.

Lemma append_nil_r (s : string) : (s ++ EmptyString)%string = s.
Proof. induction s as [|c s IH]; simpl; [|rewrite IH]; reflexivity. Qed.

Lemma append_assoc (a b c : string) :
  ((a ++ b) ++ c)%string = (a ++ (b ++ c))%string.
Proof. induction a as [|x a IH]; simpl; [|rewrite IH]; reflexivity. Qed.

Lemma written_cons (x : string) (xs : list string) :
  Py.written (x :: xs) = (x ++ Py.written xs)%string.
Proof.
  unfold Py.written. destruct xs as [|y ys]; simpl;
    [rewrite append_nil_r|]; reflexivity.
Qed.

Lemma written_app (xs ys : list string) :
  Py.written (xs ++ ys) = (Py.written xs ++ Py.written ys)%string.
Proof.
  induction xs as [|x xs IH]; [reflexivity|].
  rewrite <- app_comm_cons, !written_cons, IH, append_assoc. reflexivity.
Qed.

Lemma lacks_app (c : ascii) (a b : string) :
  lacks c (a ++ b) = lacks c a && lacks c b.
Proof.
  induction a as [|d a IH]; simpl; [reflexivity|].
  rewrite IH, andb_assoc. reflexivity.
Qed.

(** A text without carriage return is read as it is. *)
Lemma translate_without_cr (s : string) :
  lacks Py.CR s = true -> Py.translate_newlines s = s.
Proof.
  induction s as [|c s IH]; simpl; [reflexivity|].
  intros H. apply andb_true_iff in H. destruct H as [Hc Hs].
  apply negb_true_iff in Hc. rewrite Hc, (IH Hs). reflexivity.
Qed.

(** A line without line feed, followed by a line feed, is read as one
    line. *)
Lemma split_lines_line (k rest : string) :
  lacks Py.LF k = true ->
  Py.split_lines (k ++ Py.nl ++ rest) = (k ++ Py.nl)%string :: Py.split_lines rest.
Proof.
  induction k as [|c k IH]; intros H.
  - reflexivity.
  - cbn [lacks] in H. apply andb_true_iff in H. destruct H as [Hc Hk].
    apply negb_true_iff in Hc.
    cbn [append Py.split_lines]. rewrite Hc.
    change (k ++ String Py.LF rest)%string with (k ++ Py.nl ++ rest)%string.
    rewrite (IH Hk). reflexivity.
Qed.

Lemma split_lines_written (ks : list string) :
  forallb (lacks Py.LF) ks = true ->
  Py.split_lines (Py.written (map (fun k => (k ++ Py.nl)%string) ks)) =
  map (fun k => (k ++ Py.nl)%string) ks.
Proof.
  induction ks as [|k ks IH]; intros H; [reflexivity|].
  cbn [forallb] in H. apply andb_true_iff in H. destruct H as [Hk Hks].
  cbn [map]. rewrite written_cons, append_assoc, split_lines_line by exact Hk.
  rewrite (IH Hks). reflexivity.
Qed.

End TextFacts.

Module StripFacts.

Lemma lstrip_length (s : string) :
  String.length (Py.lstrip s) <= String.length s.
Proof.
  induction s as [|c s IH]; simpl; [lia|].
  destruct (Py.isspace c); simpl; lia.
Qed.

Lemma rstrip_length (s : string) :
  String.length (Py.rstrip s) <= String.length s.
Proof.
  induction s as [|c s IH]; simpl; [lia|].
  destruct (Py.rstrip s); [destruct (Py.isspace c)|]; simpl in *; lia.
Qed.

(** A text that [strip] leaves alone does not start with white space. *)
Lemma strip_fixed_head (c : ascii) (t : string) :
  Py.strip (String c t) = String c t -> Py.isspace c = false.
Proof.
  intros H. destruct (Py.isspace c) eqn:E; [|reflexivity].
  apply (f_equal String.length) in H. unfold Py.strip in H.
  cbn [Py.lstrip] in H. rewrite E in H.
  pose proof (rstrip_length (Py.lstrip t)). pose proof (lstrip_length t).
  simpl in H. lia.
Qed.

Lemma rstrip_snoc_space (k : string) (c : ascii) :
  Py.isspace c = true ->
  Py.rstrip (k ++ String c EmptyString) = Py.rstrip k.
Proof.
  intros Hc. induction k as [|d k IH]; cbn [append Py.rstrip].
  - rewrite Hc. reflexivity.
  - rewrite IH. reflexivity.
Qed.

(** The entry written on a line comes back from [line.strip()]. *)
Lemma strip_line (k : string) :
  Py.strip k = k -> Py.strip (k ++ Py.nl) = k.
Proof.
  intros H. destruct k as [|c t]; [reflexivity|].
  pose proof (strip_fixed_head c t H) as Hc.
  unfold Py.strip in *. cbn [append Py.lstrip] in *. rewrite Hc in *.
  change (String c (t ++ Py.nl))%string with (String c t ++ Py.nl)%string.
  unfold Py.nl. rewrite rstrip_snoc_space by reflexivity. exact H.
Qed.

End StripFacts.

(** ** The allowlist written to a text file and read back *)

Module AllowFile.
Import Report TextFacts StripFacts PyFacts.

Lemma line_safe_parts (s : string) :
  line_safe s = true ->
  lacks Py.LF s = true /\ lacks Py.CR s = true /\ Py.strip s = s /\
  Py.is_empty s = false /\ Py.startswith "#" s = false.
Proof.
  unfold line_safe. intros H.
  repeat (apply andb_true_iff in H; destruct H as [H ?]).
  repeat split; auto using negb_true_iff.
  - apply String.eqb_eq. assumption.
  - apply negb_true_iff. assumption.
  - apply negb_true_iff. assumption.
Qed.

Lemma lacks_cr_written (ks : list string) :
  forallb (lacks Py.CR) ks = true ->
  lacks Py.CR (Py.written (map (fun k => (k ++ Py.nl)%string) ks)) = true.
Proof.
  induction ks as [|k ks IH]; intros H; [reflexivity|].
  cbn [forallb] in H. apply andb_true_iff in H. destruct H as [Hk Hks].
  cbn [map]. rewrite written_cons, !lacks_app, Hk, (IH Hks). reflexivity.
Qed.

(** The lines read from a file in which safe entries were written one
    per line. *)
Lemma readlines_written (ks : list string) :
  forallb line_safe ks = true ->
  Py.readlines (Py.written (map (fun k => (k ++ Py.nl)%string) ks)) =
  map (fun k => (k ++ Py.nl)%string) ks.
Proof.
  intros H. unfold Py.readlines.
  assert (Hparts : forall k, In k ks ->
                     lacks Py.LF k = true /\ lacks Py.CR k = true).
  { intros k Hk. rewrite forallb_forall in H.
    destruct (line_safe_parts k (H k Hk)) as (A & B & _). auto. }
  rewrite translate_without_cr.
  - apply split_lines_written. apply forallb_forall.
    intros k Hk. apply Hparts. exact Hk.
  - apply lacks_cr_written. apply forallb_forall.
    intros k Hk. apply Hparts. exact Hk.
Qed.

Section V2.
Import Scanner2.

Lemma allowlist_set_keys (k : string) (i : option string) (d : Allowlist) :
  allowlist_keys (allowlist_set k i d) =
  if mem_str k (allowlist_keys d) then allowlist_keys d
  else allowlist_keys d ++ [k].
Proof.
  unfold allowlist_keys, mem_str.
  induction d as [|[k0 i0] d IH]; cbn [allowlist_set map fst existsb app];
    [reflexivity|].
  destruct (String.eqb k k0) eqn:E; cbn [map fst orb]; [reflexivity|].
  rewrite IH. destruct (existsb (String.eqb k) (map fst d)); reflexivity.
Qed.

Lemma allowlist_set_In (k k' : string) (i : option string) (d : Allowlist) :
  In k' (allowlist_keys (allowlist_set k i d)) <->
  In k' (allowlist_keys d) \/ k' = k.
Proof.
  rewrite allowlist_set_keys.
  destruct (mem_str k (allowlist_keys d)) eqn:M.
  - apply mem_str_iff in M. split; [auto|]. intros [H| ->]; assumption.
  - split; intros H.
    + apply in_app_or in H. destruct H as [H|[<-|[]]]; auto.
    + apply in_or_app. destruct H as [H| ->]; [auto|right; left; reflexivity].
Qed.

(** The keys after a loop of [allowlist[g(x)] = info]. *)
Lemma fold_set_In {X} (g : X -> string) (i : option string) (xs : list X)
    (d : Allowlist) (k : string) :
  In k (allowlist_keys
          (fold_left (fun d x => allowlist_set (g x) i d) xs d)) <->
  In k (allowlist_keys d) \/ exists x, In x xs /\ k = g x.
Proof.
  revert d. induction xs as [|x xs IH]; intros d; cbn [fold_left].
  - split; [auto|]. intros [H|(x & [] & _)]. exact H.
  - split.
    + intros H. apply IH in H. destruct H as [H|(y & Hy & ->)].
      * apply allowlist_set_In in H. destruct H as [H| ->]; [auto|].
        right. exists x. split; [left; reflexivity|reflexivity].
      * right. exists y. split; [right; exact Hy|reflexivity].
    + intros H. apply IH. destruct H as [H|(y & [<-|Hy] & ->)].
      * left. apply allowlist_set_In. auto.
      * left. apply allowlist_set_In. auto.
      * right. exists y. auto.
Qed.

Lemma load_written (ks : list string) :
  forallb line_safe ks = true ->
  _load_allowlist (Some (Py.written (map (fun k => (k ++ Py.nl)%string) ks)))
  = fold_left (fun d k => allowlist_set k (Some "Preapproved") d) ks [].
Proof.
  intros H. unfold _load_allowlist. rewrite readlines_written by exact H.
  generalize (@nil (string * option string)).
  induction ks as [|k ks IH]; intros d; [reflexivity|].
  cbn [forallb] in H. apply andb_true_iff in H. destruct H as [Hk Hks].
  destruct (line_safe_parts k Hk) as (_ & _ & Hs & He & Hc).
  cbn [map fold_left]. rewrite (strip_line k Hs), He, Hc. cbn [orb].
  apply IH. exact Hks.
Qed.

End V2.
End AllowFile.

(** X13: an allowlist generated in the text format reads back.  When
    [generate_allowlist_from_findings] of [secrets_scanner2.py] writes
    the Findings to a file that is neither YAML nor JSON and
    [_load_allowlist] reads that file, the allowlist loaded holds
    exactly the full fingerprints of those Findings, and
    [is_allowlisted] answers true for each of them, with every [re]
    engine, provided each full fingerprint is a text that a line keeps
    (no line break, no white space at either end, no leading [#]). *)
Theorem generated_allowlist_reads_back :
  forall (re_match : string -> string -> option bool)
         (findings : list Scanner2.Finding),
    Forall (fun f => Report.line_safe (Scanner2.full_fingerprint f) = true)
      findings ->
    (forall k,
        In k (Scanner2.allowlist_keys
                (Scanner2._load_allowlist
                   (Some (Scanner2.generate_allowlist_from_findings
                            findings)))) <->
        exists f, In f findings /\ k = Scanner2.full_fingerprint f) /\
    Forall (fun f =>
              Scanner2.is_allowlisted re_match
                (Scanner2.allowlist_keys
                   (Scanner2._load_allowlist
                      (Some (Scanner2.generate_allowlist_from_findings
                               findings)))) f = Some true)
      findings.
Proof.
  intros re_match findings Hsafe.
  assert (Gen : forall k,
             In k (Scanner2.allowlist_keys
                     (Scanner2.generated_allowlist findings)) <->
             exists f, In f findings /\ k = Scanner2.full_fingerprint f).
  { intros k. unfold Scanner2.generated_allowlist.
    rewrite (AllowFile.fold_set_In Scanner2.full_fingerprint).
    split; [intros [[]|H]; exact H|auto]. }
  assert (Keys : forall k,
             In k (Scanner2.allowlist_keys
                     (Scanner2._load_allowlist
                        (Some (Scanner2.generate_allowlist_from_findings
                                 findings)))) <->
             exists f, In f findings /\ k = Scanner2.full_fingerprint f).
  { intros k. unfold Scanner2.generate_allowlist_from_findings.
    rewrite <- (map_map fst (fun k => (k ++ Py.nl)%string)).
    change (map fst (Scanner2.generated_allowlist findings))
      with (Scanner2.allowlist_keys (Scanner2.generated_allowlist findings)).
    rewrite AllowFile.load_written.
    - rewrite (AllowFile.fold_set_In (fun k => k)).
      split.
      + intros [[]|(x & Hx & ->)]. apply Gen. exact Hx.
      + intros H. right. exists k. split; [apply Gen; exact H|reflexivity].
    - apply forallb_forall. intros x Hx. apply Gen in Hx.
      destruct Hx as (f & Hf & ->).
      rewrite Forall_forall in Hsafe. apply Hsafe. exact Hf. }
  split; [exact Keys|].
  apply Forall_forall. intros f Hf. unfold Scanner2.is_allowlisted.
  destruct (mem_str (Scanner2.fingerprint f) _); [reflexivity|].
  replace (mem_str (Scanner2.full_fingerprint f) _) with true; [reflexivity|].
  symmetry. apply PyFacts.mem_str_iff. apply Keys. exists f. auto.
Qed.

Lemma generated_allowlist_witness :
  (forall k,
      In k (Scanner2.allowlist_keys
              (Scanner2._load_allowlist
                 (Some (Scanner2.generate_allowlist_from_findings
                          [Demo.finding])))) <->
      exists f, In f [Demo.finding] /\ k = Scanner2.full_fingerprint f) /\
  Forall (fun f =>
            Scanner2.is_allowlisted Literal.re_match
              (Scanner2.allowlist_keys
                 (Scanner2._load_allowlist
                    (Some (Scanner2.generate_allowlist_from_findings
                             [Demo.finding])))) f = Some true)
    [Demo.finding].
Proof.
  apply (generated_allowlist_reads_back Literal.re_match [Demo.finding]).
  constructor; [vm_compute; reflexivity|constructor].
Defined.

(** ** An entry saved by [add_finding_to_allowlist] in the text format *)

Module SavedEntry.
Import Report TextFacts StripFacts PyFacts.

Lemma lstrip_head (s : string) (d : ascii) (u : string) :
  Py.lstrip s = String d u -> Py.isspace d = false.
Proof.
  induction s as [|c s IH]; simpl; [discriminate|].
  destruct (Py.isspace c) eqn:E; [exact IH|].
  intros [= <- <-]. exact E.
Qed.

Lemma lstrip_app (a b : string) :
  Py.is_empty (Py.lstrip a) = false ->
  Py.lstrip (a ++ b) = (Py.lstrip a ++ b)%string.
Proof.
  induction a as [|c a IH]; simpl; [discriminate|].
  destruct (Py.isspace c); [exact IH|reflexivity].
Qed.

Lemma rstrip_keep (a : string) (c : ascii) (b : string) :
  Py.isspace c = false ->
  Py.rstrip (a ++ String c b) = (a ++ String c (Py.rstrip b))%string.
Proof.
  intros Hc. induction a as [|d a IH]; cbn [append Py.rstrip].
  - rewrite Hc. destruct (Py.rstrip b); reflexivity.
  - rewrite IH. destruct a; reflexivity.
Qed.

(** Text added after the stripped form never gives the text back. *)
Lemma lstrip_app_neq (s t : string) :
  Py.is_empty t = false -> Py.is_empty (Py.lstrip s) = false ->
  (Py.lstrip s ++ t)%string <> s.
Proof.
  intros Ht Hs E. destruct s as [|c s]; [discriminate|].
  cbn [Py.lstrip] in *. destruct (Py.isspace c) eqn:Ec.
  - destruct (Py.lstrip s) as [|d u] eqn:El; [discriminate|].
    apply lstrip_head in El. simpl in E. injection E as -> _. congruence.
  - apply (f_equal String.length) in E.
    assert (L : forall a b, String.length (a ++ b)
                            = String.length a + String.length b).
    { intros a b. induction a as [|x a IH]; simpl; [|rewrite IH];
        reflexivity. }
    rewrite L in E. destruct t; [discriminate|]. simpl in E. lia.
Qed.

Lemma lacks_lstrip (c : ascii) (s : string) :
  lacks c s = true -> lacks c (Py.lstrip s) = true.
Proof.
  induction s as [|d s IH]; simpl; [reflexivity|]. intros H.
  destruct (Py.isspace d); [|exact H].
  apply andb_true_iff in H. apply IH, H.
Qed.

Lemma lacks_rstrip (c : ascii) (s : string) :
  lacks c s = true -> lacks c (Py.rstrip s) = true.
Proof.
  induction s as [|d s IH]; simpl; [reflexivity|]. intros H.
  apply andb_true_iff in H. destruct H as [Hd Hs]. specialize (IH Hs).
  destruct (Py.rstrip s); [destruct (Py.isspace d)|]; simpl in *;
    rewrite ?Hd, ?IH; reflexivity.
Qed.

Lemma lacks_contains (c : ascii) (s : string) :
  lacks c s = true -> Py.contains (String c EmptyString) s = false.
Proof.
  induction s as [|d s IH]; [reflexivity|]. cbn [lacks]. intros H.
  apply andb_true_iff in H. destruct H as [Hd Hs].
  rewrite contains_unfold, (IH Hs), orb_false_r.
  cbn [Py.startswith]. rewrite andb_true_r.
  apply negb_true_iff in Hd. rewrite Ascii.eqb_sym. exact Hd.
Qed.

Lemma lstrip_nonempty (a : string) (c : ascii) (b : string) :
  Py.isspace c = false -> Py.is_empty (Py.lstrip (a ++ String c b)) = false.
Proof.
  intros Hc. induction a as [|d a IH]; simpl.
  - rewrite Hc. reflexivity.
  - destruct (Py.isspace d); [exact IH|reflexivity].
Qed.

(** The one line of a file that holds [k] and a line feed. *)
Lemma readlines_one (k : string) :
  lacks Py.LF k = true -> lacks Py.CR k = true ->
  Py.readlines (k ++ Py.nl) = [(k ++ Py.nl)%string].
Proof.
  intros Hlf Hcr. unfold Py.readlines.
  rewrite translate_without_cr by (rewrite lacks_app, Hcr; reflexivity).
  rewrite <- (append_nil_r (k ++ Py.nl)) at 1.
  rewrite append_assoc, split_lines_line by exact Hlf. reflexivity.
Qed.

(** What [line.strip()] makes of the line written for an entry with a
    reason. *)
Lemma strip_saved_line (x r : string) :
  Py.is_empty (Py.lstrip x) = false ->
  Py.strip (x ++ " # " ++ r ++ Py.nl) =
  (Py.lstrip x ++ " #" ++ Py.rstrip (" " ++ r ++ Py.nl))%string.
Proof.
  intros Hx. unfold Py.strip. rewrite lstrip_app by exact Hx.
  change (" # " ++ r ++ Py.nl)%string
    with (" " ++ String "#" (" " ++ r ++ Py.nl))%string.
  rewrite <- append_assoc, rstrip_keep by reflexivity.
  rewrite append_assoc. reflexivity.
Qed.

End SavedEntry.

Section SavedEntryV2.
Import Scanner2 Report TextFacts SavedEntry.
Variable re_match : string -> string -> option bool.

Lemma saved_text (f : Finding) (r : string) :
  saved_allowlist [(full_fingerprint f, Some r)] =
  ((full_fingerprint f ++ " # " ++ r) ++ Py.nl)%string.
Proof.
  unfold saved_allowlist. cbn [map fst snd]. rewrite written_cons.
  unfold Py.written. cbn [String.concat]. rewrite append_nil_r.
  rewrite !append_assoc. reflexivity.
Qed.

Lemma reloaded_key_misses (f : Finding) (r : string) :
  lacks "*" (full_fingerprint f) = true -> lacks "*" r = true ->
  let key := Py.strip ((full_fingerprint f ++ " # " ++ r) ++ Py.nl) in
  String.eqb (fingerprint f) key = false /\
  String.eqb (full_fingerprint f) key = false /\
  Py.contains "*" key = false.
Proof.
  intros Hf Hr key. subst key.
  assert (Hfp : Py.is_empty (Py.lstrip (fingerprint f)) = false)
    by (apply lstrip_nonempty; reflexivity).
  assert (Efull : full_fingerprint f
                  = (fingerprint f ++ ":" ++ pattern f)%string).
  { unfold full_fingerprint, fingerprint. rewrite !append_assoc.
    reflexivity. }
  assert (Hfull : Py.is_empty (Py.lstrip (full_fingerprint f)) = false).
  { rewrite Efull. apply lstrip_nonempty. reflexivity. }
  rewrite !append_assoc.
  change ((" # " ++ r) ++ Py.nl)%string with (" # " ++ r ++ Py.nl)%string.
  rewrite strip_saved_line by exact Hfull.
  split; [|split].
  - apply String.eqb_neq. intros E. symmetry in E. revert E.
    rewrite Efull, lstrip_app, append_assoc by exact Hfp.
    apply lstrip_app_neq; [reflexivity|exact Hfp].
  - apply String.eqb_neq. intros E. symmetry in E. revert E.
    apply lstrip_app_neq; [reflexivity|exact Hfull].
  - apply lacks_contains. rewrite lacks_app. rewrite lacks_lstrip by exact Hf.
    change (" #" ++ Py.rstrip (" " ++ r ++ Py.nl))%string
      with (String " " (String "#" (Py.rstrip (" " ++ r ++ Py.nl)))).
    cbn [lacks andb]. rewrite lacks_rstrip; [reflexivity|].
    cbn [append lacks]. rewrite lacks_app, Hr. reflexivity.
Qed.

End SavedEntryV2.

(** X14: an entry added with [add_finding_to_allowlist] of
    [secrets_scanner2.py] is honoured at once and lost when the
    allowlist is a text file that is read again.  After the call,
    [is_allowlisted] answers true for the Finding, whatever the
    allowlist held before and whatever the [re] engine.  But the line
    written to a file that is neither YAML nor JSON is the full
    fingerprint followed by [" # "] and the reason, and [_load_allowlist]
    takes the whole line as the entry: on an allowlist that held nothing
    else, reloaded from that file, [is_allowlisted] answers false for
    the same Finding (full fingerprint and reason without line break
    and without wildcard). *)
Theorem saved_text_entry_is_lost_on_reload :
  forall (re_match : string -> string -> option bool)
         (f : Scanner2.Finding) (reason : string),
    Report.plain_line (Scanner2.full_fingerprint f) = true ->
    Report.plain_line reason = true ->
    (forall allowlist,
        Scanner2.is_allowlisted re_match
          (Scanner2.allowlist_keys
             (Scanner2.add_finding_to_allowlist allowlist f reason)) f
        = Some true) /\
    Scanner2.is_allowlisted re_match
      (Scanner2.allowlist_keys
         (Scanner2._load_allowlist
            (Some (Scanner2.saved_allowlist
                     (Scanner2.add_finding_to_allowlist [] f reason))))) f
    = Some false.
Proof.
  intros re_match f reason Hf Hr. split.
  - intros allowlist. unfold Scanner2.is_allowlisted.
    destruct (mem_str (Scanner2.fingerprint f) _); [reflexivity|].
    replace (mem_str (Scanner2.full_fingerprint f) _) with true;
      [reflexivity|].
    symmetry. apply PyFacts.mem_str_iff.
    unfold Scanner2.add_finding_to_allowlist.
    apply AllowFile.allowlist_set_In. right. reflexivity.
  - unfold Scanner2.add_finding_to_allowlist.
    set (r := if Py.is_empty reason then "Manually allowlisted" else reason).
    assert (Hr' : Report.plain_line r = true)
      by (subst r; destruct reason; [reflexivity|exact Hr]).
    cbn [Scanner2.allowlist_set]. rewrite saved_text.
    unfold Report.plain_line in Hf, Hr'.
    apply andb_true_iff in Hf. destruct Hf as [Hf Hfs].
    apply andb_true_iff in Hf. destruct Hf as [Hflf Hfcr].
    apply andb_true_iff in Hr'. destruct Hr' as [Hr' Hrs].
    apply andb_true_iff in Hr'. destruct Hr' as [Hrlf Hrcr].
    unfold Scanner2._load_allowlist.
    rewrite SavedEntry.readlines_one
      by (rewrite !TextFacts.lacks_app, ?Hflf, ?Hfcr, ?Hrlf, ?Hrcr;
          reflexivity).
    cbn [fold_left].
    destruct (reloaded_key_misses f r Hfs Hrs) as (K1 & K2 & K3).
    cbv zeta in K1, K2, K3.
    destruct (Py.is_empty _ || Py.startswith "#" _); [reflexivity|].
    cbn [Scanner2.allowlist_set Scanner2.allowlist_keys map fst].
    unfold Scanner2.is_allowlisted, mem_str. cbn [existsb].
    rewrite K1, K2. cbn [orb Scanner2.allowlist_globs].
    rewrite K3. reflexivity.
Qed.

Lemma saved_text_entry_witness :
  (forall allowlist,
      Scanner2.is_allowlisted Literal.re_match
        (Scanner2.allowlist_keys
           (Scanner2.add_finding_to_allowlist allowlist Demo.finding
              "false positive")) Demo.finding
      = Some true) /\
  Scanner2.is_allowlisted Literal.re_match
    (Scanner2.allowlist_keys
       (Scanner2._load_allowlist
          (Some (Scanner2.saved_allowlist
                   (Scanner2.add_finding_to_allowlist [] Demo.finding
                      "false positive"))))) Demo.finding
  = Some false.
Proof.
  apply (saved_text_entry_is_lost_on_reload Literal.re_match Demo.finding
           "false positive"); vm_compute; reflexivity.
Defined.

(** ** The fingerprints file of [secrets_scanner.py] *)

Module FingerprintsFile.
Import Report TextFacts StripFacts PyFacts Scanner1.

Lemma mem_keys (k : string) (d : dict) :
  mem_str k (map fst d) =
  match dict_get k d with Some _ => true | None => false end.
Proof.
  unfold mem_str. induction d as [|[k0 v0] d IH]; simpl; [reflexivity|].
  destruct (String.eqb k k0); [reflexivity|exact IH].
Qed.

(** The loop over the Findings writes what the de-duplication keeps. *)
Lemma fingerprints_loop (findings : list Finding) (d : dict) :
  fold_left fingerprints_step findings
    (map (fun kv => (full_fingerprint (snd kv) ++ Py.nl)%string) d,
     map fst d) =
  (map (fun kv => (full_fingerprint (snd kv) ++ Py.nl)%string)
     (fold_left dedup_step findings d),
   map fst (fold_left dedup_step findings d)).
Proof.
  revert d. induction findings as [|f l IH]; intros d; [reflexivity|].
  cbn [fold_left]. unfold fingerprints_step at 2, dedup_step at 2 4.
  cbn [fst snd]. rewrite mem_keys.
  destruct (dict_get (fingerprint f) d); [apply IH|].
  rewrite <- IH, !map_app. reflexivity.
Qed.

Lemma written_fingerprints (findings : list Finding) :
  fst (fold_left fingerprints_step findings ([], [])) =
  map (fun k => (k ++ Py.nl)%string) (map full_fingerprint (dedup findings)).
Proof.
  pose proof (fingerprints_loop findings []) as H. cbn [map] in H.
  rewrite H. cbn [fst].
  unfold dedup, unique_findings. rewrite !map_map. reflexivity.
Qed.

(** A comment line is skipped, whatever follows the [#]. *)
Lemma strip_comment (b : string) :
  Py.startswith "#" (Py.strip (String "#" b)) = true.
Proof.
  unfold Py.strip. cbn [Py.lstrip].
  change (Py.isspace "#") with false. cbv iota.
  pose proof (SavedEntry.rstrip_keep EmptyString "#" b eq_refl) as R.
  cbn [append] in R. rewrite R. reflexivity.
Qed.

(** The loop of [_load_acceptable_findings] on the lines of safe
    entries. *)
Lemma load_entries (ks acc : list string) :
  forallb line_safe ks = true ->
  fold_left
    (fun acceptable_findings line =>
       let line := Py.strip line in
       if Py.is_empty line || Py.startswith "#" line
       then acceptable_findings
       else acceptable_findings ++ [line])
    (map (fun k => (k ++ Py.nl)%string) ks) acc = acc ++ ks.
Proof.
  revert acc. induction ks as [|k ks IH]; intros acc H.
  - rewrite app_nil_r. reflexivity.
  - cbn [forallb] in H. apply andb_true_iff in H. destruct H as [Hk Hks].
    destruct (AllowFile.line_safe_parts k Hk) as (_ & _ & Hs & He & Hc).
    cbn [map fold_left]. rewrite (strip_line k Hs), He, Hc. cbn [orb].
    rewrite (IH _ Hks), <- app_assoc. reflexivity.
Qed.

End FingerprintsFile.

Module FingerprintsText.
Import Report TextFacts StripFacts PyFacts Scanner1.

Lemma split_lines_head (h k rest : string) :
  h = (k ++ Py.nl)%string -> lacks Py.LF k = true ->
  Py.split_lines (h ++ rest) = h :: Py.split_lines rest.
Proof.
  intros -> Hk. rewrite append_assoc. apply split_lines_line. exact Hk.
Qed.

(** The lines of the fingerprints file: three comments, a blank line,
    the entries. *)
Lemma fingerprints_file_lines (now allow_file : string) (ks : list string) :
  lacks Py.LF now && lacks Py.CR now = true ->
  lacks Py.LF allow_file && lacks Py.CR allow_file = true ->
  forallb line_safe ks = true ->
  Py.readlines
    (Py.written
       ([("# Generated fingerprints from scan on " ++ now ++ Py.nl)%string;
         ("# Add lines from this file to " ++ allow_file
          ++ " to allowlist them" ++ Py.nl)%string;
         ("# Format: file:line:pattern" ++ Py.nl ++ Py.nl)%string]
        ++ map (fun k => (k ++ Py.nl)%string) ks)) =
  [("# Generated fingerprints from scan on " ++ now ++ Py.nl)%string;
   ("# Add lines from this file to " ++ allow_file
    ++ " to allowlist them" ++ Py.nl)%string;
   ("# Format: file:line:pattern" ++ Py.nl)%string;
   Py.nl]
  ++ map (fun k => (k ++ Py.nl)%string) ks.
Proof.
  intros Hn Ha Hks.
  apply andb_true_iff in Hn. destruct Hn as [Hnl Hnc].
  apply andb_true_iff in Ha. destruct Ha as [Hal Hac].
  assert (Hparts : forall k, In k ks ->
                     lacks Py.LF k = true /\ lacks Py.CR k = true).
  { intros k Hk. rewrite forallb_forall in Hks.
    destruct (AllowFile.line_safe_parts k (Hks k Hk)) as (A & B & _). auto. }
  assert (Hlf : forallb (lacks Py.LF) ks = true)
    by (apply forallb_forall; intros k Hk; apply Hparts; exact Hk).
  assert (Hcr : forallb (lacks Py.CR) ks = true)
    by (apply forallb_forall; intros k Hk; apply Hparts; exact Hk).
  unfold Py.readlines. rewrite <- !app_comm_cons, !written_cons.
  cbn [app]. rewrite translate_without_cr.
  - rewrite (split_lines_head _ ("# Generated fingerprints from scan on "
                                  ++ now));
      [|rewrite !append_assoc; reflexivity
       |rewrite lacks_app, Hnl; reflexivity].
    rewrite (split_lines_head _ ("# Add lines from this file to "
                                  ++ allow_file ++ " to allowlist them"));
      [|rewrite !append_assoc; reflexivity
       |rewrite !lacks_app, Hal; reflexivity].
    rewrite (append_assoc "# Format: file:line:pattern" (Py.nl ++ Py.nl)),
            (append_assoc Py.nl Py.nl),
            <- (append_assoc "# Format: file:line:pattern" Py.nl).
    rewrite (split_lines_head ("# Format: file:line:pattern" ++ Py.nl)
               "# Format: file:line:pattern");
      [|reflexivity|reflexivity].
    rewrite (split_lines_head Py.nl EmptyString); [|reflexivity|reflexivity].
    rewrite split_lines_written by exact Hlf. reflexivity.
  - rewrite !lacks_app, Hnc, Hac, (AllowFile.lacks_cr_written ks Hcr).
    reflexivity.
Qed.

End FingerprintsText.

Lemma dedup1_subset (stream : list Scanner1.Finding) (g : Scanner1.Finding) :
  In g (Scanner1.dedup stream) -> In g stream.
Proof.
  intros H. apply DedupFacts.dedup_In1 in H. unfold Spec.first_of in H.
  apply find_some in H. apply H.
Qed.

(** An entry equal to the full fingerprint is reached unless an earlier
    wildcard entry allows the Finding first or makes [re.match] raise. *)
Lemma acceptable_of_member (re_match : string -> string -> option bool)
    (entries : list string) (f : Scanner1.Finding) :
  In (Scanner1.full_fingerprint f) entries ->
  Scanner1._is_acceptable_finding re_match entries f = Some true \/
  Scanner1._is_acceptable_finding re_match entries f = None.
Proof.
  induction entries as [|e rest IH]; [intros []|].
  intros Hin. cbn [Scanner1._is_acceptable_finding].
  destruct (String.eqb (Scanner1.full_fingerprint f) e) eqn:E; [auto|].
  destruct Hin as [->|Hin]; [rewrite String.eqb_refl in E; discriminate|].
  destruct (Py.contains "*" e); [|apply IH; exact Hin].
  destruct (re_match _ _) as [[|]|]; auto.
Qed.

(** X15: the fingerprints file of [secrets_scanner.py] reads back as an
    allow file.  What [_load_acceptable_findings] loads from the text
    written by [_generate_fingerprints_file] is the list of the full
    fingerprints of the Findings that the de-duplication keeps (the
    first Finding of each file and line), in their order: the three
    comment lines and the blank line of the header are skipped.  So
    each of those Findings is acceptable on the next run, unless an
    earlier wildcard entry makes [re.match] raise.  The full
    fingerprints are texts that a line keeps, and the date and the
    allow file name hold no line break. *)
Theorem fingerprints_file_reads_back :
  forall (re_match : string -> string -> option bool)
         (now allow_file : string) (findings : list Scanner1.Finding),
    Report.lacks Py.LF now && Report.lacks Py.CR now = true ->
    Report.lacks Py.LF allow_file && Report.lacks Py.CR allow_file = true ->
    Forall (fun f => Report.line_safe (Scanner1.full_fingerprint f) = true)
      findings ->
    Scanner1._load_acceptable_findings
      (Some (Scanner1._generate_fingerprints_file now allow_file findings))
    = map Scanner1.full_fingerprint (Scanner1.dedup findings) /\
    Forall (fun f =>
              Scanner1._is_acceptable_finding re_match
                (Scanner1._load_acceptable_findings
                   (Some (Scanner1._generate_fingerprints_file now
                            allow_file findings))) f = Some true \/
              Scanner1._is_acceptable_finding re_match
                (Scanner1._load_acceptable_findings
                   (Some (Scanner1._generate_fingerprints_file now
                            allow_file findings))) f = None)
      (Scanner1.dedup findings).
Proof.
  intros re_match now allow_file findings Hn Ha Hsafe.
  assert (Hks : forallb Report.line_safe
                  (map Scanner1.full_fingerprint (Scanner1.dedup findings))
                = true).
  { apply forallb_forall. intros k Hk. apply in_map_iff in Hk.
    destruct Hk as (g & <- & Hg). rewrite Forall_forall in Hsafe.
    apply Hsafe. apply dedup1_subset. exact Hg. }
  assert (E : Scanner1._load_acceptable_findings
                (Some (Scanner1._generate_fingerprints_file now allow_file
                         findings))
              = map Scanner1.full_fingerprint (Scanner1.dedup findings)).
  { unfold Scanner1._generate_fingerprints_file,
           Scanner1._load_acceptable_findings.
    rewrite FingerprintsFile.written_fingerprints.
    rewrite FingerprintsText.fingerprints_file_lines by assumption.
    cbn [app fold_left append].
    rewrite !FingerprintsFile.strip_comment, !orb_true_r.
    change (Py.strip Py.nl) with EmptyString. cbn [Py.is_empty orb].
    apply (FingerprintsFile.load_entries _ [] Hks). }
  split; [exact E|]. rewrite E.
  apply Forall_forall. intros f Hf. apply acceptable_of_member.
  apply in_map. exact Hf.
Qed.

Lemma fingerprints_file_witness :
  Scanner1._load_acceptable_findings
    (Some (Scanner1._generate_fingerprints_file "2024-05-01 12:00:00"
             ".gitleaks-acceptable.txt" [Demo.finding1; Demo.finding1]))
  = map Scanner1.full_fingerprint
      (Scanner1.dedup [Demo.finding1; Demo.finding1]) /\
  Forall (fun f =>
            Scanner1._is_acceptable_finding Literal.re_match
              (Scanner1._load_acceptable_findings
                 (Some (Scanner1._generate_fingerprints_file
                          "2024-05-01 12:00:00" ".gitleaks-acceptable.txt"
                          [Demo.finding1; Demo.finding1]))) f = Some true \/
            Scanner1._is_acceptable_finding Literal.re_match
              (Scanner1._load_acceptable_findings
                 (Some (Scanner1._generate_fingerprints_file
                          "2024-05-01 12:00:00" ".gitleaks-acceptable.txt"
                          [Demo.finding1; Demo.finding1]))) f = None)
    (Scanner1.dedup [Demo.finding1; Demo.finding1]).
Proof.
  apply (fingerprints_file_reads_back Literal.re_match "2024-05-01 12:00:00"
           ".gitleaks-acceptable.txt" [Demo.finding1; Demo.finding1]).
  - vm_compute. reflexivity.
  - vm_compute. reflexivity.
  - repeat constructor.
Defined.

(** ** A scan in which the allowlist matcher never raises *)

Section Completeness2.
Import Scanner2 Report.
Variable Compiled : Type.
Variable search : Compiled -> string -> bool.
Variable fnmatch : string -> string -> bool.
Variable re_search : string -> string -> bool.
Variable re_match : string -> string -> option bool.
Variable pm : PatternManager Compiled.
Variable allowlist : list string.
Variable high_only : bool.
Hypothesis returns :
  forall f, is_allowlisted re_match allowlist f <> None.

Local Abbreviation gate := (Report.gate re_match allowlist high_only).
Local Abbreviation line_findings :=
  (Report.line_findings Compiled search fnmatch re_search re_match pm
     allowlist high_only).

Lemma report_runs (f : Finding) (st : list Finding) :
  report re_match allowlist high_only f st = (st ++ gate f, Some tt).
Proof.
  unfold report, Report.gate, Loop.bind, Loop.call.
  pose proof (returns f) as R.
  destruct (is_allowlisted re_match allowlist f) as [[|]|]; [| |congruence].
  - unfold Loop.ret. rewrite app_nil_r. reflexivity.
  - unfold Loop.ret.
    destruct (high_only && negb (Severity_eqb (severity f) HIGH));
      [rewrite app_nil_r|]; reflexivity.
Qed.

Lemma group_runs (make : Compiled * string -> Finding) (line : string)
    (group : list (Compiled * string)) (st : list Finding) :
  Loop.for_each group
    (fun cp => if search (fst cp) line
               then report re_match allowlist high_only (make cp)
               else Loop.ret tt) st =
  (st ++ Report.group_findings Compiled search re_match allowlist high_only
           make line group, Some tt).
Proof.
  apply for_each_appends. intros cp st'.
  destruct (search (fst cp) line); [apply report_runs|].
  unfold Loop.ret. rewrite app_nil_r. reflexivity.
Qed.

Lemma scan_line_runs (path : string) (i : Z) (line : string)
    (st : list Finding) :
  scan_line Compiled search fnmatch re_search re_match pm allowlist
    high_only path i line st = (st ++ line_findings path i line, Some tt).
Proof.
  unfold scan_line, Report.line_findings.
  destruct (should_exclude_line Compiled search pm line).
  - unfold Loop.ret. rewrite app_nil_r. reflexivity.
  - unfold Loop.bind.
    rewrite (group_runs (override_finding Compiled search fnmatch re_search
                           pm path i line)).
    rewrite (group_runs (primary_finding Compiled search fnmatch re_search
                           pm path i line)).
    destruct (is_config_file Compiled fnmatch pm path).
    + rewrite (group_runs (config_finding Compiled path i line)).
      rewrite <- !app_assoc. reflexivity.
    + unfold Loop.ret. rewrite app_nil_r, <- !app_assoc. reflexivity.
Qed.

(** The scan of a file is the concatenation of the scans of its
    lines. *)
Lemma scan_lines_closed (path : string) (lines : list string) :
  scan_lines Compiled search fnmatch re_search re_match pm allowlist
    high_only path lines =
  flat_map (fun il => line_findings path (fst il) (snd il))
    (Py.enumerate 1 lines).
Proof.
  unfold scan_lines, Loop.catching.
  rewrite (for_each_appends _ _
             (fun il => line_findings path (fst il) (snd il))).
  - reflexivity.
  - intros [i line] st. apply scan_line_runs.
Qed.

End Completeness2.

(** X16: [scan_file] of [secrets_scanner2.py] misses nothing when the
    allowlist matcher does not raise.  Take a line of the file that no
    exclusion pattern matches and a compiled pattern that fires on it.
    If the pattern is an override pattern, the Finding that the scanner
    builds for it (path, 1-based line number, stripped line, pattern
    text, the severity and risk type of the classifier) is in the
    result of the scan exactly when it passes the two gates:
    [is_allowlisted] answers false for it and, under [--high-only], its
    severity is HIGH.  The same holds for a primary pattern and its
    Finding.  If the file is a configuration file and the pattern is a
    config-specific one, its Finding, which is HIGH, is in the result
    exactly when [is_allowlisted] answers false for it. *)
Theorem scan_file_misses_nothing :
  forall (Compiled : Type) (search : Compiled -> string -> bool)
         (fnmatch re_search : string -> string -> bool)
         (re_match : string -> string -> option bool)
         (pm : Scanner2.PatternManager Compiled) (allowlist : list string)
         (high_only : bool) (path : string) (lines : list string)
         (k : nat) (line : string) (cp : Compiled * string),
    (forall f, Scanner2.is_allowlisted re_match allowlist f <> None) ->
    nth_error lines k = Some line ->
    Scanner2.should_exclude_line Compiled search pm line = false ->
    search (fst cp) line = true ->
    (In cp (Scanner2.compiled_overrides pm) ->
     (In (Report.override_finding Compiled search fnmatch re_search pm path
            (1 + Z.of_nat k) line cp)
         (Scanner2.scan_lines Compiled search fnmatch re_search re_match pm
            allowlist high_only path lines) <->
      Report.passed re_match allowlist high_only
        (Report.override_finding Compiled search fnmatch re_search pm path
           (1 + Z.of_nat k) line cp))) /\
    (In cp (Scanner2.compiled_patterns pm) ->
     (In (Report.primary_finding Compiled search fnmatch re_search pm path
            (1 + Z.of_nat k) line cp)
         (Scanner2.scan_lines Compiled search fnmatch re_search re_match pm
            allowlist high_only path lines) <->
      Report.passed re_match allowlist high_only
        (Report.primary_finding Compiled search fnmatch re_search pm path
           (1 + Z.of_nat k) line cp))) /\
    (Scanner2.is_config_file Compiled fnmatch pm path = true ->
     In cp (Scanner2.compiled_config_patterns pm) ->
     Scanner2.severity
       (Report.config_finding Compiled path (1 + Z.of_nat k) line cp) =
       HIGH /\
     (In (Report.config_finding Compiled path (1 + Z.of_nat k) line cp)
         (Scanner2.scan_lines Compiled search fnmatch re_search re_match pm
            allowlist high_only path lines) <->
      Scanner2.is_allowlisted re_match allowlist
        (Report.config_finding Compiled path (1 + Z.of_nat k) line cp) =
        Some false)).
Proof.
  intros Compiled search fnmatch re_search re_match pm allowlist high_only
         path lines k line cp Hret Hk Hex Hs.
  assert (Hil : In ((1 + Z.of_nat k)%Z, line) (Py.enumerate 1 lines))
    by (apply LoopFacts.enumerate_In; exists k; auto).
  assert (Back : forall f,
             In f (Scanner2.scan_lines Compiled search fnmatch re_search
                     re_match pm allowlist high_only path lines) ->
             Report.passed re_match allowlist high_only f).
  { intros f Hf.
    pose proof (scan_lines_reported Compiled search fnmatch re_search
                  re_match pm allowlist high_only path lines) as R.
    rewrite Forall_forall in R.
    destruct (R f Hf) as (k' & line' & _ & Rp).
    destruct Rp as [_ _ _ _ _ _ _ P]. exact P. }
  assert (Gate : forall f,
             Report.passed re_match allowlist high_only f ->
             In f (Report.gate re_match allowlist high_only f)).
  { intros f [Pa Ph]. unfold Report.gate. rewrite Pa.
    destruct high_only; [|left; reflexivity].
    rewrite (Ph eq_refl). left. reflexivity. }
  assert (Found : forall make group,
             In cp group ->
             Report.passed re_match allowlist high_only (make cp) ->
             In (make cp)
               (Report.group_findings Compiled search re_match allowlist
                  high_only make line group)).
  { intros make group Hin Hp. unfold Report.group_findings.
    apply in_flat_map. exists cp. rewrite Hs. auto. }
  assert (Line : forall f,
             In f (Report.line_findings Compiled search fnmatch re_search
                     re_match pm allowlist high_only path
                     (1 + Z.of_nat k) line) ->
             In f (Scanner2.scan_lines Compiled search fnmatch re_search
                     re_match pm allowlist high_only path lines)).
  { intros f Hf. rewrite scan_lines_closed by exact Hret.
    apply in_flat_map. exists ((1 + Z.of_nat k)%Z, line). auto. }
  split; [|split].
  - intros Hcp. split; [apply Back|]. intros Hp.
    apply Line. unfold Report.line_findings. rewrite Hex.
    apply in_or_app. left. apply Found; assumption.
  - intros Hcp. split; [apply Back|]. intros Hp.
    apply Line. unfold Report.line_findings. rewrite Hex.
    apply in_or_app. right. apply in_or_app. left. apply Found; assumption.
  - intros Cf Hcp. split; [reflexivity|]. split.
    + intros Hf. destruct (Back _ Hf) as [Pa _]. exact Pa.
    + intros Pa. apply Line. unfold Report.line_findings. rewrite Hex, Cf.
      apply in_or_app. right. apply in_or_app. right.
      apply Found; [exact Hcp|]. split; [exact Pa|reflexivity].
Qed.

(** On the demo project: without [--high-only] the LOW Finding of line 3
    of [app.py] is reported; with it, the HIGH Finding of a logged
    token is. *)
Lemma scan_file_misses_nothing_witness :
  In (Report.primary_finding Literal.Compiled Literal.search Literal.fnmatch
        Literal.re_search Demo.pm "app.py" (1 + Z.of_nat 2) "token = abc"
        ("token", "token"))
     (Scanner2.scan_lines Literal.Compiled Literal.search Literal.fnmatch
        Literal.re_search Literal.re_match Demo.pm [] false "app.py"
        Demo.app_py) /\
  In (Report.primary_finding Literal.Compiled Literal.search Literal.fnmatch
        Literal.re_search Demo.pm "app.js" (1 + Z.of_nat 0)
        "console.log(token)" ("token", "token"))
     (Scanner2.scan_lines Literal.Compiled Literal.search Literal.fnmatch
        Literal.re_search Literal.re_match Demo.pm [] true "app.js"
        ["console.log(token)"]).
Proof.
  split.
  - apply (proj1 (proj2 (scan_file_misses_nothing Literal.Compiled
             Literal.search Literal.fnmatch Literal.re_search
             Literal.re_match Demo.pm [] false "app.py" Demo.app_py 2
             "token = abc" ("token", "token")
             ltac:(intros f; discriminate) eq_refl eq_refl eq_refl))).
    + vm_compute. auto.
    + split; [reflexivity|discriminate].
  - apply (proj1 (proj2 (scan_file_misses_nothing Literal.Compiled
             Literal.search Literal.fnmatch Literal.re_search
             Literal.re_match Demo.pm [] true "app.js"
             ["console.log(token)"] 0 "console.log(token)"
             ("token", "token")
             ltac:(intros f; discriminate) eq_refl eq_refl eq_refl))).
    + vm_compute. auto.
    + split; [reflexivity|intros _; vm_compute; reflexivity].
Defined.

(** ** Allowlist entries read as globs *)

Module GlobFacts.
Import Report PyRe.

Lemma rx_cons (c : ascii) (t : string) :
  Py.replace_go "*" ".*" (String c t) 0 =
  if Ascii.eqb "*" c
  then String "." (String "*" (Py.replace_go "*" ".*" t 0))
  else String c (Py.replace_go "*" ".*" t 0).
Proof.
  cbn [Py.replace_go Py.startswith String.length Nat.sub].
  rewrite andb_true_r. destruct (Ascii.eqb "*" c); reflexivity.
Qed.

Lemma glob_char_cases (c : ascii) :
  glob_char c = true ->
  unmodelled c = false /\ Ascii.eqb c "(" = false /\ Ascii.eqb c ")" = false.
Proof.
  unfold glob_char. intros H.
  apply andb_true_iff in H. destruct H as [H H3].
  apply andb_true_iff in H. destruct H as [H1 H2].
  repeat split; apply negb_true_iff; assumption.
Qed.

Lemma in_fragment_rx (e : string) :
  simple_entry e = true ->
  in_fragment (Py.replace_go "*" ".*" e 0) = true.
Proof.
  induction e as [|c e IH]; [reflexivity|]. cbn [simple_entry]. intros H.
  apply andb_true_iff in H. destruct H as [Hc He].
  destruct (glob_char_cases c Hc) as (U & _ & _).
  rewrite rx_cons. destruct (Ascii.eqb "*" c); cbn [in_fragment].
  - rewrite (IH He). reflexivity.
  - rewrite U, (IH He). reflexivity.
Qed.

(** Reading the regular expression of an entry pushes one item per
    character of the entry. *)
Lemma parse_go_rx (e : string) (cur : list item) :
  simple_entry e = true ->
  parse_go (Py.replace_go "*" ".*" e 0) cur [] =
  Some (seq_of (rev (map glob_atom (list_ascii_of_string e)) ++ cur)).
Proof.
  revert cur. induction e as [|c e IH]; intros cur H; [reflexivity|].
  cbn [simple_entry] in H. apply andb_true_iff in H. destruct H as [Hc He].
  destruct (glob_char_cases c Hc) as (_ & P1 & P2).
  rewrite rx_cons. cbn [list_ascii_of_string map rev].
  rewrite <- app_assoc. cbn [app]. unfold glob_atom at 2.
  rewrite (Ascii.eqb_sym "*" c).
  destruct (Ascii.eqb c "*") eqn:Es.
  - cbn [parse_go].
    change (Ascii.eqb "." "(") with false.
    change (Ascii.eqb "." ")") with false.
    change (Ascii.eqb "." "*") with false.
    change (Ascii.eqb "." ".") with true.
    change (Ascii.eqb "*" "(") with false.
    change (Ascii.eqb "*" ")") with false.
    change (Ascii.eqb "*" "*") with true.
    cbv iota. apply IH. exact He.
  - cbn [parse_go]. rewrite P1, P2, Es.
    destruct (Ascii.eqb c "."); apply IH; exact He.
Qed.

Lemma seq_of_snoc (items : list item) (x : item) :
  seq_of (items ++ [x]) = Cat (fst x) (seq_of items).
Proof. unfold seq_of. rewrite fold_left_app. reflexivity. Qed.

Lemma seq_of_rev (e : string) :
  seq_of (rev (map glob_atom (list_ascii_of_string e))) = glob_regex e.
Proof.
  induction e as [|c e IH]; [reflexivity|].
  cbn [list_ascii_of_string map rev glob_regex].
  rewrite seq_of_snoc, IH. reflexivity.
Qed.

(** The regular expression built from a simple entry always compiles. *)
Lemma parse_rx (e : string) :
  simple_entry e = true ->
  parse (Py.replace "*" ".*" e) = Some (glob_regex e).
Proof.
  intros H. unfold parse, Py.replace.
  rewrite (parse_go_rx e [] H), app_nil_r, seq_of_rev. reflexivity.
Qed.

End GlobFacts.

Module GlobLang.
Import Report PyRe GlobFacts.

Lemma star_any (u : string) :
  star (lang Any) u <-> lacks newline u = true.
Proof.
  split.
  - intros H. induction H as [|a b Ha _ IH]; [reflexivity|].
    destruct Ha as (c & Hc & ->). cbn [append lacks]. rewrite IH.
    apply Ascii.eqb_neq in Hc. rewrite Hc. reflexivity.
  - induction u as [|c u IH]; intros H; [constructor|].
    cbn [lacks] in H. apply andb_true_iff in H. destruct H as [Hc Hu].
    apply negb_true_iff, Ascii.eqb_neq in Hc.
    change (String c u) with (String c EmptyString ++ u)%string.
    constructor; [exists c; auto|apply IH; exact Hu].
Qed.

(** The language of the regular expression of an entry is the set of
    texts that match the entry as a glob. *)
Lemma lang_glob (e p : string) : lang (glob_regex e) p <-> glob_lang e p.
Proof.
  revert p. induction e as [|c e IH]; intros p; [split; auto|].
  cbn [glob_regex glob_lang lang]. unfold glob_atom.
  destruct (Ascii.eqb c "*") eqn:Es; [|destruct (Ascii.eqb c ".") eqn:Ed];
    cbn [fst lang].
  - split; intros (u & v & -> & Hu & Hv); exists u, v;
      (split; [reflexivity|split; [apply star_any; exact Hu|apply IH; exact Hv]]).
  - split.
    + intros (u & v & -> & (d & Hd & ->) & Hv). exists d, v.
      split; [reflexivity|split; [exact Hd|apply IH; exact Hv]].
    + intros (d & v & -> & Hd & Hv). exists (String d EmptyString), v.
      split; [reflexivity|split; [exists d; auto|apply IH; exact Hv]].
  - split.
    + intros (u & v & -> & -> & Hv). exists c, v.
      split; [reflexivity|split; [reflexivity|apply IH; exact Hv]].
    + intros (d & v & -> & -> & Hv). exists (String c EmptyString), v.
      split; [reflexivity|split; [reflexivity|apply IH; exact Hv]].
Qed.

(** [re.match] on the regular expression of a simple entry returns, and
    tells whether a prefix of the text matches the entry. *)
Lemma re_match_glob (ext : string -> string -> option bool) (e s : string) :
  simple_entry e = true ->
  exists b, re_match_with ext (Py.replace "*" ".*" e) s = Some b /\
            (b = true <-> glob_prefix e s).
Proof.
  intros H. exists (match_prefix (glob_regex e) s). split.
  - unfold re_match_with. rewrite (parse_rx e H).
    unfold Py.replace. rewrite (in_fragment_rx e H). reflexivity.
  - rewrite PyReLang.match_prefix_lang. unfold glob_prefix.
    split; intros (p & t & E & L); exists p, t; (split; [exact E|]);
      apply lang_glob; exact L.
Qed.

Lemma glob_prefix_app (e s t : string) :
  glob_prefix e s -> glob_prefix e (s ++ t).
Proof.
  intros (p & r & -> & L). exists p, (r ++ t)%string.
  split; [apply TextFacts.append_assoc|exact L].
Qed.

End GlobLang.

Module GlobAllow.
Import Report GlobLang.

Lemma globs_simple (ext : string -> string -> option bool)
    (entries : list string) (f : Scanner2.Finding) :
  forallb simple_entry entries = true ->
  exists b,
    Scanner2.allowlist_globs (PyRe.re_match_with ext) entries f = Some b /\
    (b = true <->
     exists e, In e entries /\ Py.contains "*" e = true /\
               (glob_prefix e (Scanner2.fingerprint f) \/
                glob_prefix e (Scanner2.full_fingerprint f))).
Proof.
  induction entries as [|e rest IH]; intros H.
  - exists false. split; [reflexivity|].
    split; [discriminate|intros (e & [] & _)].
  - cbn [forallb] in H. apply andb_true_iff in H. destruct H as [He Hrest].
    destruct (IH Hrest) as (b & Eb & Hb).
    assert (Rest : b = true ->
              exists e0, In e0 (e :: rest) /\ Py.contains "*" e0 = true /\
                (glob_prefix e0 (Scanner2.fingerprint f) \/
                 glob_prefix e0 (Scanner2.full_fingerprint f))).
    { intros B. destruct (proj1 Hb B) as (e0 & Hin & H0).
      exists e0. split; [right; exact Hin|exact H0]. }
    cbn [Scanner2.allowlist_globs].
    destruct (Py.contains "*" e) eqn:Es.
    + destruct (re_match_glob ext e (Scanner2.fingerprint f) He)
        as (b1 & E1 & H1).
      destruct (re_match_glob ext e (Scanner2.full_fingerprint f) He)
        as (b2 & E2 & H2).
      rewrite E1. destruct b1.
      * exists true. split; [reflexivity|]. split; [|reflexivity].
        intros _. exists e. split; [left; reflexivity|].
        split; [exact Es|left; apply H1; reflexivity].
      * rewrite E2. destruct b2.
        -- exists true. split; [reflexivity|]. split; [|reflexivity].
           intros _. exists e. split; [left; reflexivity|].
           split; [exact Es|right; apply H2; reflexivity].
        -- exists b. split; [exact Eb|]. split; [exact Rest|].
           intros (e0 & [<-|Hin] & Hs & [G|G]).
           ++ apply H1 in G. discriminate.
           ++ apply H2 in G. discriminate.
           ++ apply Hb. exists e0. auto.
           ++ apply Hb. exists e0. auto.
    + exists b. split; [exact Eb|]. split; [exact Rest|].
      intros (e0 & [<-|Hin] & Hs & G); [congruence|].
      apply Hb. exists e0. auto.
Qed.

Lemma acceptable_simple (ext : string -> string -> option bool)
    (entries : list string) (f : Scanner1.Finding) :
  forallb simple_entry entries = true ->
  exists b,
    Scanner1._is_acceptable_finding (PyRe.re_match_with ext) entries f
    = Some b /\
    (b = true <->
     In (Scanner1.full_fingerprint f) entries \/
     exists e, In e entries /\ Py.contains "*" e = true /\
               glob_prefix e (Scanner1.full_fingerprint f)).
Proof.
  induction entries as [|e rest IH]; intros H.
  - exists false. split; [reflexivity|].
    split; [discriminate|intros [[]|(e & [] & _)]].
  - cbn [forallb] in H. apply andb_true_iff in H. destruct H as [He Hrest].
    destruct (IH Hrest) as (b & Eb & Hb).
    assert (Rest : b = true ->
              In (Scanner1.full_fingerprint f) (e :: rest) \/
              exists e0, In e0 (e :: rest) /\ Py.contains "*" e0 = true /\
                glob_prefix e0 (Scanner1.full_fingerprint f)).
    { intros B. destruct (proj1 Hb B) as [Hin|(e0 & Hin & H0)].
      - left. right. exact Hin.
      - right. exists e0. split; [right; exact Hin|exact H0]. }
    cbn [Scanner1._is_acceptable_finding].
    destruct (String.eqb (Scanner1.full_fingerprint f) e) eqn:Ee.
    + exists true. split; [reflexivity|]. split; [|reflexivity].
      intros _. left. left. symmetry. apply String.eqb_eq. exact Ee.
    + apply String.eqb_neq in Ee.
      destruct (Py.contains "*" e) eqn:Es.
      * destruct (re_match_glob ext e (Scanner1.full_fingerprint f) He)
          as (b2 & E2 & H2).
        rewrite E2. destruct b2.
        -- exists true. split; [reflexivity|]. split; [|reflexivity].
           intros _. right. exists e. split; [left; reflexivity|].
           split; [exact Es|apply H2; reflexivity].
        -- exists b. split; [exact Eb|]. split; [exact Rest|].
           intros [[E|Hin]|(e0 & [<-|Hin] & Hs & G)].
           ++ congruence.
           ++ apply Hb. left. exact Hin.
           ++ apply H2 in G. discriminate.
           ++ apply Hb. right. exists e0. auto.
      * exists b. split; [exact Eb|]. split; [exact Rest|].
        intros [[E|Hin]|(e0 & [<-|Hin] & Hs & G)].
        -- congruence.
        -- apply Hb. left. exact Hin.
        -- congruence.
        -- apply Hb. right. exists e0. auto.
Qed.

End GlobAllow.

(** X17: the allowlist on simple entries.  When no entry holds a
    parenthesis or one of [^ $ + ? { } [ ] \ |], the matchers of both
    scanners never raise, whatever the [re] engine does elsewhere, and
    an entry with a wildcard is a prefix glob: [is_allowlisted] of
    [secrets_scanner2.py] answers true exactly when the bare or the
    full fingerprint is an entry, or some prefix of the full
    fingerprint matches a wildcard entry read as a glob ([*]: any run
    of characters without newline, [.]: any character but a newline,
    any other character: itself); [_is_acceptable_finding] of
    [secrets_scanner.py] answers true exactly when the full fingerprint
    is an entry or has such a prefix. *)
Theorem simple_entries_are_prefix_globs :
  forall (ext : string -> string -> option bool) (allowlist : list string),
    forallb Report.simple_entry allowlist = true ->
    (forall f : Scanner2.Finding,
        exists b,
          Scanner2.is_allowlisted (PyRe.re_match_with ext) allowlist f
          = Some b /\
          (b = true <->
           In (Scanner2.fingerprint f) allowlist \/
           In (Scanner2.full_fingerprint f) allowlist \/
           exists e, In e allowlist /\ Py.contains "*" e = true /\
                     Report.glob_prefix e (Scanner2.full_fingerprint f))) /\
    (forall f : Scanner1.Finding,
        exists b,
          Scanner1._is_acceptable_finding (PyRe.re_match_with ext)
            allowlist f = Some b /\
          (b = true <->
           In (Scanner1.full_fingerprint f) allowlist \/
           exists e, In e allowlist /\ Py.contains "*" e = true /\
                     Report.glob_prefix e (Scanner1.full_fingerprint f))).
Proof.
  intros ext allowlist H. split; [|intros f; apply GlobAllow.acceptable_simple;
                                   exact H].
  intros f. unfold Scanner2.is_allowlisted.
  destruct (mem_str (Scanner2.fingerprint f) allowlist) eqn:M1.
  - exists true. split; [reflexivity|]. split; [|reflexivity].
    intros _. left. apply PyFacts.mem_str_iff. exact M1.
  - destruct (mem_str (Scanner2.full_fingerprint f) allowlist) eqn:M2.
    + exists true. split; [reflexivity|]. split; [|reflexivity].
      intros _. right. left. apply PyFacts.mem_str_iff. exact M2.
    + destruct (GlobAllow.globs_simple ext allowlist f H) as (b & Eb & Hb).
      exists b. split; [exact Eb|]. split.
      * intros B. right. right.
        destruct (proj1 Hb B) as (e & Hin & Hs & [G|G]);
          exists e; (split; [exact Hin|split; [exact Hs|]]); [|exact G].
        unfold Scanner2.full_fingerprint.
        replace (Scanner2.file_path f ++ ":" ++
                 Py.str_int (Scanner2.line_number f) ++ ":" ++
                 Scanner2.pattern f)%string
          with (Scanner2.fingerprint f ++ ":" ++ Scanner2.pattern f)%string
          by (unfold Scanner2.fingerprint;
              rewrite !TextFacts.append_assoc; reflexivity).
        apply GlobLang.glob_prefix_app. exact G.
      * intros [Hin|[Hin|(e & Hin & Hs & G)]].
        -- apply PyFacts.mem_str_iff in Hin. congruence.
        -- apply PyFacts.mem_str_iff in Hin. congruence.
        -- apply Hb. exists e. auto.
Qed.

Lemma simple_entries_witness :
  (forall f : Scanner2.Finding,
      exists b,
        Scanner2.is_allowlisted Literal.re_match
          ["app.py:3"; "src/*.py:4*"] f = Some b /\
        (b = true <->
         In (Scanner2.fingerprint f) ["app.py:3"; "src/*.py:4*"] \/
         In (Scanner2.full_fingerprint f) ["app.py:3"; "src/*.py:4*"] \/
         exists e, In e ["app.py:3"; "src/*.py:4*"] /\
                   Py.contains "*" e = true /\
                   Report.glob_prefix e (Scanner2.full_fingerprint f))) /\
  (forall f : Scanner1.Finding,
      exists b,
        Scanner1._is_acceptable_finding Literal.re_match
          ["app.py:3"; "src/*.py:4*"] f = Some b /\
        (b = true <->
         In (Scanner1.full_fingerprint f) ["app.py:3"; "src/*.py:4*"] \/
         exists e, In e ["app.py:3"; "src/*.py:4*"] /\
                   Py.contains "*" e = true /\
                   Report.glob_prefix e (Scanner1.full_fingerprint f))).
Proof.
  exact (simple_entries_are_prefix_globs (fun _ _ => Some false)
           ["app.py:3"; "src/*.py:4*"] eq_refl).
Defined.

(** ** Provenance flags through the whole run *)

Section Provenance.
Import Scanner2 Report.
Variable Compiled : Type.
Variable search : Compiled -> string -> bool.
Variable fnmatch : string -> string -> bool.
Variable re_search : string -> string -> bool.
Variable re_match : string -> string -> option bool.
Variable pm : PatternManager Compiled.
Variable allowlist : list string.
Variable high_only : bool.

Lemma scan_file_unflagged (fs : string -> option (list string))
    (path : string) :
  Forall (fun f => is_gitignored f = false /\ in_git_history f = false /\
                   is_still_tracked f = false)
    (scan_file Compiled search fnmatch re_search re_match pm allowlist
       high_only fs path).
Proof.
  eapply Forall_impl; [|apply scan_file_reported].
  intros f (k & line & lines & _ & _ & R). apply R.
Qed.

Lemma blobs_provenance (w : World) :
  Forall (fun f => in_git_history f = true /\ is_still_tracked f = false /\
                   is_gitignored f = false /\
                   Py.startswith "[Git blob] " (file_path f) = true /\
                   severity f = HIGH)
    (_scan_git_objects Compiled search re_match pm allowlist w).
Proof.
  unfold _scan_git_objects.
  destruct (is_git_repo w); [|constructor].
  match goal with |- context [Loop.for_each ?xs ?body []] =>
    destruct (LoopFacts.adds_for_each
                (fun f => in_git_history f = true /\
                          is_still_tracked f = false /\
                          is_gitignored f = false /\
                          Py.startswith "[Git blob] " (file_path f) = true /\
                          severity f = HIGH) xs body)
      with (st := @nil Finding) as (new & E & H)
  end.
  - intros [path content] _. simpl.
    apply LoopFacts.adds_for_each. intros [i line] _. simpl.
    unfold blob_line.
    destruct (should_exclude_line _ _ _ _); [apply LoopFacts.adds_ret|].
    apply LoopFacts.adds_for_each. intros cp _.
    destruct (search (fst cp) line); [|apply LoopFacts.adds_ret].
    apply LoopFacts.adds_bind; [apply LoopFacts.adds_call|].
    intros [|]; [apply LoopFacts.adds_ret|].
    apply LoopFacts.adds_append. cbn [in_git_history is_still_tracked
      is_gitignored file_path severity].
    repeat split.
  - simpl in E.
    destruct (Loop.for_each _ _ []) as [findings [u|]]; [|constructor].
    simpl in E. subst findings. exact H.
Qed.

(** X18: the provenance flags of every Finding that [scan] of
    [secrets_scanner2.py] returns fit together.  A Finding marked
    [is_still_tracked] is also marked [in_git_history] and
    [is_gitignored]; a Finding marked [in_git_history] is marked
    [is_gitignored] too, or it comes from a blob: its path starts with
    ["[Git blob] "] and it is HIGH. *)
Theorem scan_sets_consistent_provenance_flags :
  forall (use_detect_secrets check_git_history deep_scan : bool) (w : World),
    Forall provenance_ok
      (scan Compiled search fnmatch re_search re_match pm allowlist
         high_only use_detect_secrets check_git_history deep_scan w).
Proof.
  intros u c d w. unfold scan.
  destruct (files_to_scan w) as [|f0 fl]; [constructor|].
  apply dedup_Forall.
  apply Forall_app. split; [|apply Forall_app; split].
  - apply Forall_flat_map. apply Forall_forall. intros path _.
    eapply Forall_impl; [|apply scan_file_unflagged].
    intros f (_ & Hh & Ht). split; intros H; congruence.
  - unfold _run_detect_secrets_scan. destruct u; [|constructor].
    apply Forall_flat_map. apply Forall_forall. intros [[filename n] ty] _.
    unfold detect_one.
    destruct (is_allowlisted _ _ _) as [[|]|]; try constructor.
    destruct (_ && _); constructor; [|constructor].
    split; cbn [is_still_tracked in_git_history]; discriminate.
  - destruct c; [|constructor]. unfold scan_historical_files.
    destruct (is_git_repo w); [|constructor].
    apply Forall_app. split.
    + apply Forall_flat_map. apply Forall_forall. intros [path t] _. simpl.
      destruct (should_scan_file _ _ _ _ _); [|constructor].
      apply Forall_map. apply Forall_forall. intros f _.
      destruct (tag_historical_fields t f) as (Eh & _ & Ei).
      split; intros _; auto.
    + destruct d; [|constructor].
      eapply Forall_impl; [|apply blobs_provenance].
      intros f (Hh & Ht & Hi & Hp & Hs). split; intros H; [congruence|auto].
Qed.

End Provenance.

(** ** What the file loop of [secrets_scanner.py] reports *)

Section Reports1.
Import Scanner1 LoopFacts.
Variable Compiled : Type.
Variable search : Compiled -> string -> bool.
Variable re_search : string -> string -> bool.
Variable re_match : string -> string -> option bool.
Variable compiled_patterns : list (Compiled * string).
Variable compiled_overrides : list (Compiled * string).
Variable compiled_config_patterns : list (Compiled * string).
Variable compiled_exclusions : list Compiled.
Variable acceptable_findings : list string.
Variable high_only : bool.
Variable is_git_repo : bool.
Variable git_ignored : string -> bool.

Local Abbreviation reported1 :=
  (Report.reported1 Compiled search re_match compiled_patterns
     compiled_overrides compiled_config_patterns compiled_exclusions
     acceptable_findings high_only).

Lemma escalate_content (h t : bool) (f : Finding) :
  line_content (escalate h t f) = line_content f.
Proof. unfold escalate. destruct (_ && _); reflexivity. Qed.

Lemma scan_line1_reports (path : string) (h t : bool) (i : Z)
    (line : string) :
  adds (reported1 path i line)
    (scan_line Compiled search re_search re_match compiled_patterns
       compiled_overrides compiled_config_patterns compiled_exclusions
       acceptable_findings high_only is_git_repo git_ignored path h t i
       line).
Proof.
  unfold scan_line.
  destruct (_should_exclude Compiled search compiled_exclusions line) eqn:Ex;
    [apply adds_ret|].
  apply adds_for_each. intros cp Hin.
  destruct (search (fst cp) line) eqn:Es; [|apply adds_ret].
  intros st. unfold Loop.bind, Loop.call.
  match goal with |- context [_is_acceptable_finding _ _ ?f] =>
    set (finding := f) end.
  destruct (_is_acceptable_finding re_match acceptable_findings finding)
    as [[|]|] eqn:Ea; simpl;
    try (exists []; rewrite app_nil_r; split; [reflexivity|constructor]).
  destruct (high_only && negb (Severity_eqb (severity finding) HIGH))
    eqn:G; simpl.
  - exists []. rewrite app_nil_r. split; [reflexivity|constructor].
  - exists [finding]. split; [reflexivity|]. constructor; [|constructor].
    subst finding.
    match goal with |- reported1 _ _ _ (escalate _ _ ?f) =>
      destruct (escalate_fields h t f) as (E1 & _ & E3 & E4);
      pose proof (escalate_content h t f) as E5 end.
    unfold Report.reported1. rewrite E1, E3, E4, E5. cbn [file_path line_number
      line_content pattern].
    repeat split; auto.
    + exists cp. auto.
    + intros ->. cbn [andb] in G. apply negb_false_iff in G.
      apply DedupFacts.Severity_eqb_eq. exact G.
Qed.

Lemma scan_lines1_reported (path : string) (h t : bool)
    (lines : list string) (findings : list Finding) :
  exists new,
    scan_lines Compiled search re_search re_match compiled_patterns
      compiled_overrides compiled_config_patterns compiled_exclusions
      acceptable_findings high_only is_git_repo git_ignored path h t lines
      findings = findings ++ new /\
    Forall (fun f => exists k line,
                nth_error lines k = Some line /\
                reported1 path (1 + Z.of_nat k) line f) new.
Proof.
  unfold scan_lines. apply catching_adds.
  apply adds_for_each. intros [i line] Hin. simpl.
  apply enumerate_In in Hin. destruct Hin as (k & -> & Hk).
  eapply adds_weaken; [|apply scan_line1_reports].
  intros f Hf. exists k, line. split; assumption.
Qed.

End Reports1.

Lemma fold_left_Forall {A B} (P : A -> Prop) (step : list A -> B -> list A)
    (xs : list B) (acc : list A) :
  (forall acc x, In x xs -> Forall P acc -> Forall P (step acc x)) ->
  Forall P acc -> Forall P (fold_left step xs acc).
Proof.
  revert acc. induction xs as [|x xs IH]; intros acc Hstep Hacc;
    [exact Hacc|].
  cbn [fold_left]. apply IH.
  - intros a y Hy. apply Hstep. right. exact Hy.
  - apply Hstep; [left; reflexivity|exact Hacc].
Qed.

(** X19: what the file loop of [scan] of [secrets_scanner.py] reports.
    Every Finding it appends is in one of the files to scan, which
    could be opened; its [line_number] is the 1-based number of a line
    of that file that no exclusion pattern matches and on which fires a
    compiled pattern (primary, override or config-specific) whose text
    is the Finding's [pattern]; its [line_content] is that line
    stripped; [_is_acceptable_finding] answers false for it; and with
    [--high-only] it is HIGH. *)
Theorem scanner1_file_loop_reports :
  forall (Compiled : Type) (search : Compiled -> string -> bool)
         (re_search : string -> string -> bool)
         (re_match : string -> string -> option bool)
         (compiled_patterns compiled_overrides compiled_config_patterns
            : list (Compiled * string))
         (compiled_exclusions : list Compiled)
         (acceptable_findings : list string) (high_only is_git_repo : bool)
         (git_ignored : string -> bool)
         (fs : string -> option (list string))
         (historical_files : list (string * bool))
         (all_files_to_scan : list string),
    Forall (fun f =>
              In (Scanner1.file_path f) all_files_to_scan /\
              (exists lines line,
                  fs (Scanner1.file_path f) = Some lines /\
                  (1 <= Scanner1.line_number f <= Z.of_nat (length lines))%Z /\
                  nth_error lines (Z.to_nat (Scanner1.line_number f - 1))
                    = Some line /\
                  Scanner1.line_content f = Py.strip line /\
                  Scanner1._should_exclude Compiled search compiled_exclusions
                    line = false /\
                  exists cp,
                    In cp (compiled_patterns ++ compiled_overrides ++
                           compiled_config_patterns) /\
                    search (fst cp) line = true /\
                    Scanner1.pattern f = snd cp) /\
              Scanner1._is_acceptable_finding re_match acceptable_findings f
                = Some false /\
              (high_only = true -> Scanner1.severity f = HIGH))
      (Scanner1.scan_files Compiled search re_search re_match
         compiled_patterns compiled_overrides compiled_config_patterns
         compiled_exclusions acceptable_findings high_only is_git_repo
         git_ignored fs historical_files all_files_to_scan).
Proof.
  intros. unfold Scanner1.scan_files.
  apply fold_left_Forall; [|constructor].
  intros acc path Hpath Hacc.
  destruct (fs path) as [lines|] eqn:Efs; [|exact Hacc].
  match goal with |- Forall _ (Scanner1.scan_lines _ _ _ _ _ _ _ _ _ _ _ _
                                 ?p ?h ?t ?l ?a) =>
    destruct (scan_lines1_reported Compiled search re_search re_match
                compiled_patterns compiled_overrides compiled_config_patterns
                compiled_exclusions acceptable_findings high_only is_git_repo
                git_ignored p h t l a) as (new & -> & Hnew)
  end.
  apply Forall_app. split; [exact Hacc|].
  eapply Forall_impl; [|exact Hnew].
  intros f (k & line & Hk & Hp & Hl & Hc & Hx & Hcp & Ha & Hh).
  assert (Hlen : (k < length lines)%nat)
    by (apply nth_error_Some; congruence).
  rewrite Hp. split; [exact Hpath|]. split; [|auto].
  exists lines, line. rewrite Hl.
  replace (Z.to_nat (1 + Z.of_nat k - 1)) with k by lia.
  repeat split; auto; lia.
Qed.

(** ** The results of detect-secrets *)

Module DetectFacts.

(** The loop with early return of [_get_line_content] finds the line
    numbered [n], if there is one. *)
Lemma find_line (lines : list string) (start n : Z) :
  find (fun il : Z * string => Z.eqb (fst il) n) (Py.enumerate start lines) =
  if ((start <=? n) && (n <? start + Z.of_nat (length lines)))%Z
  then match nth_error lines (Z.to_nat (n - start)) with
       | Some line => Some (n, line)
       | None => None
       end
  else None.
Proof.
  revert start. induction lines as [|l lines IH]; intros start.
  - cbn [Py.enumerate find length].
    destruct (Z.leb_spec start n); [|reflexivity].
    destruct (Z.ltb_spec n (start + Z.of_nat 0)); [lia|reflexivity].
  - cbn [Py.enumerate find fst]. destruct (Z.eqb_spec start n) as [->|Hne].
    + replace (n - n)%Z with 0%Z by lia. cbn [Z.to_nat nth_error].
      destruct (Z.leb_spec n n); [|lia].
      destruct (Z.ltb_spec n (n + Z.of_nat (length (l :: lines))));
        [reflexivity|]. cbn [length] in *. lia.
    + rewrite IH. cbn [length].
      destruct (Z.leb_spec start n), (Z.leb_spec (start + 1) n);
        try lia; cbn [andb]; [|reflexivity].
      destruct (Z.ltb_spec n (start + 1 + Z.of_nat (length lines))),
               (Z.ltb_spec n (start + Z.of_nat (S (length lines))));
        try lia; [|reflexivity].
      replace (Z.to_nat (n - start)) with (S (Z.to_nat (n - (start + 1))))
        by lia.
      reflexivity.
Qed.

End DetectFacts.

(** X20: the Findings made from the results of detect-secrets in
    [secrets_scanner2.py].  Each comes from one result (file name, line
    number, secret type) and has the pattern ["detect-secrets:"]
    followed by the type; its [line_content] is the stripped text of
    the line of that number when the file has one, the empty text when
    the number is out of range, and ["<could not read line>"] when the
    file cannot be read; it is MEDIUM when that content holds "test",
    "example", "sample" or "mock" (letter case ignored) and HIGH
    otherwise, never LOW; and it carries no history flag. *)
Theorem detect_secrets_findings_shape :
  forall (re_match : string -> string -> option bool)
         (allowlist : list string) (high_only use_detect_secrets : bool)
         (w : Scanner2.World),
    Forall (fun f =>
              (exists secret_type,
                  In (Scanner2.file_path f, Scanner2.line_number f,
                      secret_type) (Scanner2.detected w) /\
                  Scanner2.pattern f
                  = ("detect-secrets:" ++ secret_type)%string) /\
              Scanner2.line_content f =
                match Scanner2.fs w (Scanner2.file_path f) with
                | None => "<could not read line>"
                | Some lines =>
                    if ((1 <=? Scanner2.line_number f) &&
                        (Scanner2.line_number f <=? Z.of_nat (length lines)))%Z
                    then Py.strip
                           (nth (Z.to_nat (Scanner2.line_number f - 1)) lines
                              EmptyString)
                    else EmptyString
                end /\
              Scanner2.severity f =
                (if Py.any_in ["test"; "example"; "sample"; "mock"]
                      (Py.lower (Scanner2.line_content f))
                 then MEDIUM else HIGH) /\
              Scanner2.risk_type f
              = Scanner2._determine_risk_type (Scanner2.line_content f) /\
              Scanner2.in_git_history f = false /\
              Scanner2.is_still_tracked f = false)
      (Scanner2._run_detect_secrets_scan re_match allowlist high_only
         use_detect_secrets w).
Proof.
  intros re_match allowlist high_only u w.
  unfold Scanner2._run_detect_secrets_scan. destruct u; [|constructor].
  apply Forall_flat_map. apply Forall_forall.
  intros [[filename n] ty] Hin. unfold Scanner2.detect_one.
  destruct (Scanner2.is_allowlisted _ _ _) as [[|]|]; try constructor.
  destruct (_ && _); constructor; [|constructor].
  cbn [Scanner2.file_path Scanner2.line_number Scanner2.pattern
       Scanner2.line_content Scanner2.severity Scanner2.risk_type
       Scanner2.in_git_history Scanner2.is_still_tracked].
  split; [exists ty; auto|]. split; [|auto].
  unfold Scanner2._get_line_content.
  destruct (Scanner2.fs w filename) as [lines|]; [|reflexivity].
  rewrite DetectFacts.find_line.
  destruct (Z.leb_spec 1 n); [|reflexivity].
  destruct (Z.ltb_spec n (1 + Z.of_nat (length lines))),
           (Z.leb_spec n (Z.of_nat (length lines)));
    try lia; [|reflexivity].
  cbn [andb].
  destruct (nth_error lines (Z.to_nat (n - 1))) as [line|] eqn:E.
  - cbn [snd]. rewrite (nth_error_nth _ _ _ E). reflexivity.
  - apply nth_error_None in E. lia.
Qed.

(** ** Exclusions taken from [.gitignore] *)

Module GitignoreFacts.
Import PyFacts Report.

Lemma add_new_loop (g : string -> option string) (xs acc : list string) :
  (exists added,
      fold_left (add_new g) xs acc = acc ++ added /\
      NoDup added /\ (forall p, In p added -> ~ In p acc)) /\
  (forall p, In p (fold_left (add_new g) xs acc) <->
             In p acc \/ exists x, In x xs /\ g x = Some p).
Proof.
  revert acc. induction xs as [|x xs IH]; intros acc.
  - split.
    + exists []. rewrite app_nil_r. repeat split; [constructor|intros p []].
    + intros p. split; [auto|]. intros [H|(x & [] & _)]. exact H.
  - cbn [fold_left].
    destruct (IH (add_new g acc x)) as ((added & E & Hnd & Hdis) & Hin).
    assert (Step : add_new g acc x = acc \/
                   exists p, g x = Some p /\ ~ In p acc /\
                             add_new g acc x = acc ++ [p]).
    { unfold add_new. destruct (g x) as [p|]; [|auto].
      destruct (mem_str p acc) eqn:M; [auto|]. right. exists p.
      split; [reflexivity|]. split; [|reflexivity].
      intros H. apply mem_str_iff in H. congruence. }
    split.
    + destruct Step as [S|(p & Gp & Hp & S)]; rewrite S in *.
      * exists added. auto.
      * exists (p :: added). rewrite E, <- app_assoc. split; [reflexivity|].
        split.
        -- constructor; [|exact Hnd]. intros H. apply (Hdis p H).
           apply in_or_app. right. left. reflexivity.
        -- intros q [<-|Hq]; [exact Hp|]. intros H. apply (Hdis q Hq).
           apply in_or_app. left. exact H.
    + intros p. rewrite Hin. split.
      * intros [H|(y & Hy & Gy)].
        -- destruct Step as [S|(q & Gq & Hq & S)]; rewrite S in H;
             [auto|].
           apply in_app_or in H. destruct H as [H|[<-|[]]]; [auto|].
           right. exists x. split; [left; reflexivity|exact Gq].
        -- right. exists y. split; [right; exact Hy|exact Gy].
      * intros [H|(y & [<-|Hy] & Gy)].
        -- left. destruct Step as [S|(q & Gq & Hq & S)]; rewrite S;
             [exact H|apply in_or_app; left; exact H].
        -- left. unfold add_new. rewrite Gy.
           destruct (mem_str p acc) eqn:M; [apply mem_str_iff; exact M|].
           apply in_or_app. right. left. reflexivity.
        -- right. exists y. auto.
Qed.

End GitignoreFacts.

(** The entries that the readers of line-based files keep. *)
Lemma gitignore_patterns_In (content e : string) :
  In e (Scanner2.get_gitignore_patterns (Some content)) <->
  exists line,
    In line (Py.readlines content) /\
    Py.is_empty (Py.strip line) = false /\
    Py.startswith "#" (Py.strip line) = false /\ e = Py.strip line.
Proof.
  unfold Scanner2.get_gitignore_patterns.
  assert (G : forall xs acc,
             In e (fold_left
                     (fun patterns line =>
                        let line := Py.strip line in
                        if Py.is_empty line || Py.startswith "#" line
                        then patterns else patterns ++ [line]) xs acc) <->
             In e acc \/
             exists line,
               In line xs /\ Py.is_empty (Py.strip line) = false /\
               Py.startswith "#" (Py.strip line) = false /\
               e = Py.strip line).
  { induction xs as [|x xs IH]; intros acc; cbn [fold_left].
    - split; [auto|]. intros [H|(l & [] & _)]. exact H.
    - rewrite IH. cbv zeta.
      destruct (Py.is_empty (Py.strip x)) eqn:E1;
        [|destruct (Py.startswith "#" (Py.strip x)) eqn:E2]; cbn [orb].
      + split; intros [H|(l & Hl & H)]; auto.
        * right. exists l. split; [right; exact Hl|exact H].
        * destruct Hl as [<-|Hl]; [destruct H; congruence|].
          right. exists l. auto.
      + split; intros [H|(l & Hl & H)]; auto.
        * right. exists l. split; [right; exact Hl|exact H].
        * destruct Hl as [<-|Hl]; [destruct H as (_ & H & _); congruence|].
          right. exists l. auto.
      + split.
        * intros [H|(l & Hl & H)].
          -- apply in_app_or in H. destruct H as [H|[<-|[]]]; [auto|].
             right. exists x. split; [left; reflexivity|auto].
          -- right. exists l. split; [right; exact Hl|exact H].
        * intros [H|(l & [<-|Hl] & H)].
          -- left. apply in_or_app. left. exact H.
          -- left. apply in_or_app. right. left.
             destruct H as (_ & _ & ->). reflexivity.
          -- right. exists l. auto. }
  rewrite G. split; [intros [[]|H]; exact H|auto].
Qed.

Lemma fold_left_ext {A B} (f g : A -> B -> A) (xs : list B) (a : A) :
  (forall a x, f a x = g a x) -> fold_left f xs a = fold_left g xs a.
Proof.
  intros H. revert a. induction xs as [|x xs IH]; intros a; [reflexivity|].
  cbn [fold_left]. rewrite H. apply IH.
Qed.

(** X21: [_add_gitignore_patterns] of [secrets_scanner.py] only adds
    exclusions, each once.  The list afterwards is the list before,
    unchanged, followed by new patterns without repetition, none of
    which was in the list; and a pattern is in the list afterwards
    exactly when it was there before or is the translation of a line of
    [.gitignore] that is neither blank nor a comment: the stripped line
    without its leading slash if it has one, the stripped line after
    ["**/"] otherwise.  These lines are the entries that
    [get_gitignore_patterns] returns for the same file. *)
Theorem gitignore_lines_become_exclusions :
  forall (content : string) (exclude_dirs : list string),
    (exists added,
        Scanner1._add_gitignore_patterns (Some content) exclude_dirs
        = exclude_dirs ++ added /\
        NoDup added /\ (forall p, In p added -> ~ In p exclude_dirs)) /\
    (forall p,
        In p (Scanner1._add_gitignore_patterns (Some content) exclude_dirs)
        <->
        In p exclude_dirs \/
        exists line,
          In line (Py.readlines content) /\
          Py.is_empty (Py.strip line) = false /\
          Py.startswith "#" (Py.strip line) = false /\
          p = if Py.startswith "/" (Py.strip line)
              then Py.drop 1 (Py.strip line)
              else ("**/" ++ Py.strip line)%string) /\
    (forall p,
        In p (Scanner1._add_gitignore_patterns (Some content) exclude_dirs)
        <->
        In p exclude_dirs \/
        exists e,
          In e (Scanner2.get_gitignore_patterns (Some content)) /\
          p = if Py.startswith "/" e then Py.drop 1 e
              else ("**/" ++ e)%string).
Proof.
  intros content exclude_dirs.
  assert (E : Scanner1._add_gitignore_patterns (Some content) exclude_dirs =
              fold_left (Report.add_new Report.gitignore_exclusion)
                (Py.readlines content) exclude_dirs).
  { unfold Scanner1._add_gitignore_patterns. apply fold_left_ext.
    intros acc line. unfold Report.add_new, Report.gitignore_exclusion.
    cbv zeta. destruct (Py.is_empty _ || Py.startswith "#" _); reflexivity. }
  rewrite E.
  destruct (GitignoreFacts.add_new_loop Report.gitignore_exclusion
              (Py.readlines content) exclude_dirs) as (H1 & H2).
  assert (Lines : forall p,
             In p (fold_left (Report.add_new Report.gitignore_exclusion)
                     (Py.readlines content) exclude_dirs) <->
             In p exclude_dirs \/
             exists line,
               In line (Py.readlines content) /\
               Py.is_empty (Py.strip line) = false /\
               Py.startswith "#" (Py.strip line) = false /\
               p = if Py.startswith "/" (Py.strip line)
                   then Py.drop 1 (Py.strip line)
                   else ("**/" ++ Py.strip line)%string).
  { intros p. rewrite H2.
    split; intros [H|(line & Hin & G)]; auto; right; exists line;
      (split; [exact Hin|]); unfold Report.gitignore_exclusion in *;
      cbv zeta in *.
    - destruct (Py.is_empty (Py.strip line)); [discriminate|].
      destruct (Py.startswith "#" (Py.strip line)); [discriminate|].
      injection G as <-. auto.
    - destruct G as (-> & -> & ->). reflexivity. }
  split; [exact H1|]. split; [exact Lines|].
  intros p. rewrite Lines. split; intros [H|H]; auto; right.
  - destruct H as (line & Hin & He & Hc & ->). exists (Py.strip line).
    split; [|reflexivity]. apply gitignore_patterns_In. exists line. auto.
  - destruct H as (e & He & ->). apply gitignore_patterns_In in He.
    destruct He as (line & Hin & He & Hc & ->). exists line. auto.
Qed.

(** ** [--high-only] as a filter *)

Module HighOnly.
Import Scanner2 Report.

(** The HIGH Findings of a list. *)
Local Abbreviation high := (findings_of_severity HIGH).

Lemma sim_ret {A} (a : A) : sim (Loop.ret a) (Loop.ret a).
Proof. intros st. split; reflexivity. Qed.

Lemma sim_bind {A B} (m1 m2 : Loop.M A) (k1 k2 : A -> Loop.M B) :
  sim m1 m2 -> (forall a, sim (k1 a) (k2 a)) ->
  sim (Loop.bind m1 k1) (Loop.bind m2 k2).
Proof.
  intros Hm Hk st. unfold Loop.bind. destruct (Hm st) as [E1 E2].
  destruct (m1 (high st)) as [s1 r1], (m2 st) as [s2 r2].
  cbn [fst snd] in E1, E2. subst s1 r1.
  destruct r2 as [a|]; [apply Hk|split; reflexivity].
Qed.

Lemma sim_for_each {X} (xs : list X) (b1 b2 : X -> Loop.M unit) :
  (forall x, sim (b1 x) (b2 x)) ->
  sim (Loop.for_each xs b1) (Loop.for_each xs b2).
Proof.
  intros H. induction xs as [|x xs IH]; cbn [Loop.for_each].
  - apply sim_ret.
  - apply sim_bind; [apply H|intros _; exact IH].
Qed.

Lemma sim_report (re_match : string -> string -> option bool)
    (allowlist : list string) (f : Finding) :
  sim (report re_match allowlist true f) (report re_match allowlist false f).
Proof.
  intros st. unfold report, Loop.bind, Loop.call.
  destruct (is_allowlisted re_match allowlist f) as [[|]|];
    cbn [Loop.ret Loop.raise fst snd]; try (split; reflexivity).
  cbn [andb]. unfold findings_of_severity.
  destruct (Severity_eqb (severity f) HIGH) eqn:E;
    cbn [negb Loop.ret Loop.append fst snd]; rewrite filter_app;
    cbn [filter]; rewrite E; [|rewrite app_nil_r]; split; reflexivity.
Qed.

End HighOnly.

Section HighOnlyFilter.
Import Scanner2.
Variable Compiled : Type.
Variable search : Compiled -> string -> bool.
Variable fnmatch : string -> string -> bool.
Variable re_search : string -> string -> bool.
Variable re_match : string -> string -> option bool.
Variable pm : PatternManager Compiled.
Variable allowlist : list string.

Lemma scan_line_sim (path : string) (i : Z) (line : string) :
  Report.sim
    (scan_line Compiled search fnmatch re_search re_match pm allowlist true
       path i line)
    (scan_line Compiled search fnmatch re_search re_match pm allowlist false
       path i line).
Proof.
  unfold scan_line.
  destruct (should_exclude_line Compiled search pm line);
    [apply HighOnly.sim_ret|].
  apply HighOnly.sim_bind; [|intros _; apply HighOnly.sim_bind; [|intros _]].
  - apply HighOnly.sim_for_each. intros cp.
    destruct (search (fst cp) line);
      [apply HighOnly.sim_report|apply HighOnly.sim_ret].
  - apply HighOnly.sim_for_each. intros cp.
    destruct (search (fst cp) line);
      [apply HighOnly.sim_report|apply HighOnly.sim_ret].
  - destruct (is_config_file Compiled fnmatch pm path);
      [|apply HighOnly.sim_ret].
    apply HighOnly.sim_for_each. intros cp.
    destruct (search (fst cp) line);
      [apply HighOnly.sim_report|apply HighOnly.sim_ret].
Qed.

Lemma scan_file_high_only (fs : string -> option (list string))
    (path : string) :
  scan_file Compiled search fnmatch re_search re_match pm allowlist true
    fs path =
  findings_of_severity HIGH
    (scan_file Compiled search fnmatch re_search re_match pm allowlist false
       fs path).
Proof.
  unfold scan_file. destruct (fs path) as [lines|]; [|reflexivity].
  unfold scan_lines, Loop.catching.
  pose proof (HighOnly.sim_for_each (Py.enumerate 1 lines)
                (fun il => scan_line Compiled search fnmatch re_search
                             re_match pm allowlist true path (fst il) (snd il))
                (fun il => scan_line Compiled search fnmatch re_search
                             re_match pm allowlist false path (fst il)
                             (snd il))
                (fun il => scan_line_sim path (fst il) (snd il)) []) as [E _].
  exact E.
Qed.

(** X22: [--high-only] is a filter on the result of [scan_file] of
    [secrets_scanner2.py], applied before the history scan escalates.
    With the flag, [scan_file] returns the HIGH Findings of what it
    returns without the flag, in the same order (an exception raised by
    the allowlist matcher ends both scans at the same place).  So the
    history scan run with the flag reports, besides the blob Findings,
    only Findings that were HIGH before the tagging: a Finding of a
    still-tracked file that the tagging would escalate to HIGH is not
    reported under [--high-only]. *)
Theorem high_only_filters_before_escalation :
  (forall (fs : string -> option (list string)) (path : string),
      scan_file Compiled search fnmatch re_search re_match pm allowlist true
        fs path =
      findings_of_severity HIGH
        (scan_file Compiled search fnmatch re_search re_match pm allowlist
           false fs path)) /\
  (forall (deep_scan : bool) (w : World),
      Forall (fun f =>
                (exists pt g,
                    In pt (historical_files w) /\
                    In g (scan_file Compiled search fnmatch re_search
                            re_match pm allowlist false (fs w) (fst pt)) /\
                    severity g = HIGH /\
                    f = tag_historical (snd pt) g) \/
                In f (_scan_git_objects Compiled search re_match pm
                        allowlist w))
        (scan_historical_files Compiled search fnmatch re_search re_match pm
           allowlist true deep_scan w)).
Proof.
  split; [exact scan_file_high_only|].
  intros deep_scan w. unfold scan_historical_files.
  destruct (is_git_repo w); [|constructor].
  apply Forall_app. split.
  - apply Forall_flat_map. apply Forall_forall. intros pt Hpt.
    destruct (should_scan_file _ _ _ _ _); [|constructor].
    rewrite scan_file_high_only. apply Forall_map. apply Forall_forall.
    intros g Hg. unfold findings_of_severity in Hg. apply filter_In in Hg.
    destruct Hg as [Hg Hs]. left. exists pt, g.
    split; [exact Hpt|]. split; [exact Hg|].
    split; [apply DedupFacts.Severity_eqb_eq; exact Hs|reflexivity].
  - destruct deep_scan; [|constructor].
    apply Forall_forall. intros f Hf. right. exact Hf.
Qed.

End HighOnlyFilter.

(** On the demo project: the Finding of the tracked, gitignored
    [old_keys.py] is reported as HIGH without [--high-only] and not at
    all with it. *)
Example scenario_high_only_history :
  map Scanner2.file_path
    (Scanner2.scan Literal.Compiled Literal.search Literal.fnmatch
       Literal.re_search Literal.re_match Demo.pm [] false false true false
       Demo.world) = ["app.py"; "old_keys.py"] /\
  Scanner2.scan Literal.Compiled Literal.search Literal.fnmatch
    Literal.re_search Literal.re_match Demo.pm [] true false true false
    Demo.world = [].
Proof. split; vm_compute; reflexivity. Qed.

(** ** Allowlists without wildcard *)

Lemma globs_without_wildcard (re_match : string -> string -> option bool)
    (entries : list string) (f : Scanner2.Finding) :
  forallb (fun e => negb (Py.contains "*" e)) entries = true ->
  Scanner2.allowlist_globs re_match entries f = Some false.
Proof.
  induction entries as [|e rest IH]; intros H; [reflexivity|].
  cbn [forallb] in H. apply andb_true_iff in H. destruct H as [He Hrest].
  apply negb_true_iff in He. cbn [Scanner2.allowlist_globs]. rewrite He.
  apply IH. exact Hrest.
Qed.

(** X23: an allowlist without wildcard is compared literally and never
    raises.  When no entry holds a [*], the [re] engine is not
    consulted, whatever other characters the entries hold (an unclosed
    parenthesis included): [is_allowlisted] of [secrets_scanner2.py]
    tells whether the bare or the full fingerprint of the Finding is an
    entry, and [_is_acceptable_finding] of [secrets_scanner.py] whether
    the full fingerprint is. *)
Theorem wildcard_free_allowlist_is_literal :
  forall (re_match : string -> string -> option bool)
         (allowlist : list string),
    forallb (fun e => negb (Py.contains "*" e)) allowlist = true ->
    (forall f : Scanner2.Finding,
        Scanner2.is_allowlisted re_match allowlist f =
        Some (mem_str (Scanner2.fingerprint f) allowlist ||
              mem_str (Scanner2.full_fingerprint f) allowlist)) /\
    (forall f : Scanner1.Finding,
        Scanner1._is_acceptable_finding re_match allowlist f =
        Some (mem_str (Scanner1.full_fingerprint f) allowlist)).
Proof.
  intros re_match allowlist H. split.
  - intros f. unfold Scanner2.is_allowlisted.
    rewrite (globs_without_wildcard re_match allowlist f H).
    destruct (mem_str (Scanner2.fingerprint f) allowlist),
             (mem_str (Scanner2.full_fingerprint f) allowlist); reflexivity.
  - intros f. apply acceptable_without_globs. exact H.
Qed.

Lemma wildcard_free_allowlist_witness :
  (forall f : Scanner2.Finding,
      Scanner2.is_allowlisted Literal.re_match ["src/(old"; "app.py:3"] f =
      Some (mem_str (Scanner2.fingerprint f) ["src/(old"; "app.py:3"] ||
            mem_str (Scanner2.full_fingerprint f) ["src/(old"; "app.py:3"])) /\
  (forall f : Scanner1.Finding,
      Scanner1._is_acceptable_finding Literal.re_match
        ["src/(old"; "app.py:3"] f =
      Some (mem_str (Scanner1.full_fingerprint f) ["src/(old"; "app.py:3"])).
Proof.
  exact (wildcard_free_allowlist_is_literal Literal.re_match
           ["src/(old"; "app.py:3"] eq_refl).
Defined.

(** ** The order of the Findings of a file *)

Module OrderFacts.
Import Scanner2 LoopFacts.

(** The Findings are in the order of their line numbers. *)
Local Abbreviation by_line :=
  (Sorted.StronglySorted
     (fun f g : Finding => (line_number f <= line_number g)%Z)).

Lemma sorted_app (l1 l2 : list Finding) :
  by_line l1 -> by_line l2 ->
  (forall a b, In a l1 -> In b l2 -> (line_number a <= line_number b)%Z) ->
  by_line (l1 ++ l2).
Proof.
  intros H1 H2 H. induction H1 as [|a l1 Hs IH Ha]; [exact H2|].
  cbn [app]. constructor.
  - apply IH. intros x y Hx Hy. apply H; [right; exact Hx|exact Hy].
  - apply Forall_app. split; [exact Ha|].
    apply Forall_forall. intros b Hb. apply H; [left; reflexivity|exact Hb].
Qed.

Lemma sorted_same_line (i : Z) (l : list Finding) :
  Forall (fun f => line_number f = i) l -> by_line l.
Proof.
  induction 1 as [|a l Ha Hl IH]; constructor; [exact IH|].
  eapply Forall_impl; [|exact Hl]. intros b Hb. cbv beta in *. lia.
Qed.

(** A loop over the numbered lines that appends, for each line, Findings
    of that line only, keeps the list in the order of the lines. *)
Lemma for_each_sorted {X} (xs : list X) (body : Z * X -> Loop.M unit)
    (start : Z) (st : list Finding) :
  (forall i x, adds (fun f => line_number f = i) (body (i, x))) ->
  by_line st -> Forall (fun f => (line_number f < start)%Z) st ->
  by_line (fst (Loop.for_each (Py.enumerate start xs) body st)).
Proof.
  intros Hbody. revert start st.
  induction xs as [|x xs IH]; intros start st Hs Hb; [exact Hs|].
  cbn [Py.enumerate Loop.for_each]. unfold Loop.bind.
  destruct (Hbody start x st) as (new & E & Hnew).
  assert (Hs' : by_line (st ++ new)).
  { apply sorted_app; [exact Hs|apply (sorted_same_line start); exact Hnew|].
    intros a b Ha Hin. rewrite Forall_forall in Hb, Hnew.
    specialize (Hb a Ha). specialize (Hnew b Hin). cbv beta in *. lia. }
  destruct (body (start, x) st) as [st' [u|]]; cbn [fst] in E; subst st'.
  - apply IH; [exact Hs'|]. apply Forall_app. split.
    + eapply Forall_impl; [|exact Hb]. intros a Ha. cbv beta in *. lia.
    + eapply Forall_impl; [|exact Hnew]. intros a Ha. cbv beta in *. lia.
  - exact Hs'.
Qed.

End OrderFacts.

(** X24: [scan_file] of [secrets_scanner2.py] returns the Findings of a
    file in the order of its lines: the line numbers never decrease
    along the list, also when an exception ends the scan early. *)
Theorem scan_file_reports_in_line_order :
  forall (Compiled : Type) (search : Compiled -> string -> bool)
         (fnmatch re_search : string -> string -> bool)
         (re_match : string -> string -> option bool)
         (pm : Scanner2.PatternManager Compiled) (allowlist : list string)
         (high_only : bool) (fs : string -> option (list string))
         (path : string),
    Sorted.StronglySorted
      (fun f g => (Scanner2.line_number f <= Scanner2.line_number g)%Z)
      (Scanner2.scan_file Compiled search fnmatch re_search re_match pm
         allowlist high_only fs path).
Proof.
  intros. unfold Scanner2.scan_file.
  destruct (fs path) as [lines|]; [|constructor].
  unfold Scanner2.scan_lines, Loop.catching.
  apply (OrderFacts.for_each_sorted lines
           (fun il => Scanner2.scan_line Compiled search fnmatch re_search
                        re_match pm allowlist high_only path (fst il)
                        (snd il))); [|constructor|constructor].
  intros i x. cbn [fst snd].
  eapply LoopFacts.adds_weaken; [|apply scan_line_reports].
  intros f R. apply R.
Qed.

(** ** What an exception of the allowlist matcher does *)

Module RaiseFacts.
Import Scanner2 LoopFacts.

(** A loop raises when the body raises on one of its items. *)
Lemma for_each_raises {F X} (xs : list X) (body : X -> Loop.M (F:=F) unit)
    (x : X) :
  In x xs -> (forall st, snd (body x st) = None) ->
  forall st, snd (Loop.for_each xs body st) = None.
Proof.
  intros Hin Hx. induction xs as [|y xs IH]; [destruct Hin|].
  intros st. cbn [Loop.for_each]. unfold Loop.bind.
  destruct (body y st) as [st' [u|]] eqn:E; [|reflexivity].
  destruct Hin as [->|Hin]; [|apply IH; exact Hin].
  specialize (Hx st). rewrite E in Hx. discriminate.
Qed.

Lemma bind_raises_left {F A B} (m : Loop.M (F:=F) A) (k : A -> Loop.M B)
    (st : list F) :
  snd (m st) = None -> snd (Loop.bind m k st) = None.
Proof.
  unfold Loop.bind. destruct (m st) as [st' [a|]]; [discriminate|reflexivity].
Qed.

Lemma bind_raises_right {F A B} (m : Loop.M (F:=F) A) (k : A -> Loop.M B) :
  (forall a st, snd (k a st) = None) ->
  forall st, snd (Loop.bind m k st) = None.
Proof.
  intros H st. unfold Loop.bind.
  destruct (m st) as [st' [a|]]; [apply H|reflexivity].
Qed.

(** When the body raises on the item numbered [start + k], the loop
    over the numbered lines appends nothing for a later line. *)
Lemma for_each_bounded {X} (xs : list X) (body : Z * X -> Loop.M unit)
    (start : Z) (k : nat) (x : X) (st : list Finding) :
  nth_error xs k = Some x ->
  (forall st, snd (body ((start + Z.of_nat k)%Z, x) st) = None) ->
  (forall i y, adds (fun f => line_number f = i) (body (i, y))) ->
  Forall (fun f => (line_number f <= start + Z.of_nat k)%Z) st ->
  Forall (fun f => (line_number f <= start + Z.of_nat k)%Z)
    (fst (Loop.for_each (Py.enumerate start xs) body st)).
Proof.
  revert start k st. induction xs as [|y xs IH]; intros start k st Hk Hx Hb Hst;
    [destruct k; discriminate|].
  cbn [Py.enumerate Loop.for_each]. unfold Loop.bind.
  destruct (Hb start y st) as (new & E & Hnew).
  assert (Hst' : Forall (fun f => (line_number f <= start + Z.of_nat k)%Z)
                   (st ++ new)).
  { apply Forall_app. split; [exact Hst|].
    eapply Forall_impl; [|exact Hnew]. intros f Hf. cbv beta in *. lia. }
  destruct k as [|k].
  - cbn [nth_error] in Hk. injection Hk as ->.
    replace (start + Z.of_nat 0)%Z with start in Hx by lia.
    specialize (Hx st).
    destruct (body (start, x) st) as [st' [u|]]; [discriminate|].
    cbn [fst] in *. subst st'. exact Hst'.
  - cbn [nth_error] in Hk.
    destruct (body (start, y) st) as [st' [u|]]; cbn [fst] in E; subst st';
      [|exact Hst'].
    replace (start + Z.of_nat (S k))%Z with (start + 1 + Z.of_nat k)%Z
      in * by lia.
    apply IH; assumption.
Qed.

End RaiseFacts.

Lemma report_raises (re_match : string -> string -> option bool)
    (allowlist : list string) (high_only : bool) (f : Scanner2.Finding) :
  Scanner2.is_allowlisted re_match allowlist f = None ->
  forall st, snd (Scanner2.report re_match allowlist high_only f st) = None.
Proof.
  intros H st. unfold Scanner2.report, Loop.bind, Loop.call. rewrite H.
  reflexivity.
Qed.

(** X25: an exception of the allowlist matcher ends the scan of the
    file.  If [is_allowlisted] raises on the Finding of some pattern
    that fires on line [1 + k] of the file (a line that no exclusion
    pattern matches), then [scan_file] of [secrets_scanner2.py] reports
    nothing for any later line: every Finding it returns has a line
    number of at most [1 + k]. *)
Theorem exception_ends_the_scan_of_the_file :
  forall (Compiled : Type) (search : Compiled -> string -> bool)
         (fnmatch re_search : string -> string -> bool)
         (re_match : string -> string -> option bool)
         (pm : Scanner2.PatternManager Compiled) (allowlist : list string)
         (high_only : bool) (path : string) (lines : list string)
         (k : nat) (line : string) (cp : Compiled * string),
    nth_error lines k = Some line ->
    Scanner2.should_exclude_line Compiled search pm line = false ->
    In cp (Report.groups_for Compiled fnmatch pm path) ->
    search (fst cp) line = true ->
    (forall f,
        Scanner2.file_path f = path ->
        Scanner2.line_number f = (1 + Z.of_nat k)%Z ->
        Scanner2.pattern f = snd cp ->
        Scanner2.is_allowlisted re_match allowlist f = None) ->
    Forall (fun f => (Scanner2.line_number f <= 1 + Z.of_nat k)%Z)
      (Scanner2.scan_lines Compiled search fnmatch re_search re_match pm
         allowlist high_only path lines).
Proof.
  intros Compiled search fnmatch re_search re_match pm allowlist high_only
         path lines k line cp Hk Hex Hcp Hs Hraise.
  unfold Scanner2.scan_lines, Loop.catching.
  apply (RaiseFacts.for_each_bounded lines
           (fun il => Scanner2.scan_line Compiled search fnmatch re_search
                        re_match pm allowlist high_only path (fst il)
                        (snd il)) 1 k line); [exact Hk| | |constructor].
  - cbn [fst snd]. unfold Scanner2.scan_line. rewrite Hex.
    assert (Body : forall (make : Compiled * string -> Scanner2.Finding) group,
               In cp group ->
               (forall c, Scanner2.file_path (make c) = path /\
                          Scanner2.line_number (make c) = (1 + Z.of_nat k)%Z /\
                          Scanner2.pattern (make c) = snd c) ->
               forall st,
                 snd (Loop.for_each group
                        (fun c => if search (fst c) line
                                  then Scanner2.report re_match allowlist
                                         high_only (make c)
                                  else Loop.ret tt) st) = None).
    { intros make group Hin Hmake.
      apply (RaiseFacts.for_each_raises group _ cp Hin).
      intros st. rewrite Hs. apply report_raises.
      destruct (Hmake cp) as (M1 & M2 & M3). apply Hraise; assumption. }
    unfold Report.groups_for in Hcp.
    apply in_app_or in Hcp. destruct Hcp as [Hcp|Hcp];
      [|apply in_app_or in Hcp; destruct Hcp as [Hcp|Hcp]].
    + intros st. apply RaiseFacts.bind_raises_left.
      apply (Body (fun c => Scanner2.mkFinding path (1 + Z.of_nat k)
                              (Py.strip line) (snd c) _ _ _ false false false)
               _ Hcp).
      intros c. repeat split.
    + apply RaiseFacts.bind_raises_right. intros _ st.
      apply RaiseFacts.bind_raises_left.
      apply (Body (fun c => Scanner2.mkFinding path (1 + Z.of_nat k)
                              (Py.strip line) (snd c) _ _ _ false false false)
               _ Hcp).
      intros c. repeat split.
    + apply RaiseFacts.bind_raises_right. intros _.
      apply RaiseFacts.bind_raises_right. intros _.
      destruct (Scanner2.is_config_file Compiled fnmatch pm path);
        [|destruct Hcp].
      apply (Body (fun c => Scanner2.mkFinding path (1 + Z.of_nat k)
                              (Py.strip line) (snd c) _ _ _ false false false)
               _ Hcp).
      intros c. repeat split.
  - intros i x. cbn [fst snd].
    eapply LoopFacts.adds_weaken; [|apply scan_line_reports].
    intros f R. apply R.
Qed.

Lemma exception_ends_the_scan_witness :
  Forall (fun f => (Scanner2.line_number f <= 1 + Z.of_nat 1)%Z)
    (Scanner2.scan_lines Literal.Compiled Literal.search Literal.fnmatch
       Literal.re_search Literal.re_match Demo.pm ["src/(old*"] false
       "app.yaml" Demo.app_py).
Proof.
  apply (exception_ends_the_scan_of_the_file Literal.Compiled Literal.search
           Literal.fnmatch Literal.re_search Literal.re_match Demo.pm
           ["src/(old*"] false "app.yaml" Demo.app_py 1 "user = bob"
           ("user =", "user =")).
  - reflexivity.
  - reflexivity.
  - vm_compute. auto.
  - reflexivity.
  - intros f H1 H2 H3.
    unfold Scanner2.is_allowlisted, Scanner2.fingerprint,
           Scanner2.full_fingerprint.
    rewrite H1, H2, H3. reflexivity.
Defined.

(** X26: an exception of the allowlist matcher discards all the blob
    Findings.  If [is_allowlisted] raises on the Finding of some primary
    pattern that fires on a line (not excluded) of one of the sampled
    blobs, [_scan_git_objects] of [secrets_scanner2.py] returns no
    Finding at all, also not those found before the exception. *)
Theorem exception_discards_the_blob_findings :
  forall (Compiled : Type) (search : Compiled -> string -> bool)
         (re_match : string -> string -> option bool)
         (pm : Scanner2.PatternManager Compiled) (allowlist : list string)
         (w : Scanner2.World) (pc : string * list string) (k : nat)
         (line : string) (cp : Compiled * string),
    In pc (Scanner2.blob_samples w) ->
    nth_error (snd pc) k = Some line ->
    Scanner2.should_exclude_line Compiled search pm line = false ->
    In cp (Scanner2.compiled_patterns pm) ->
    search (fst cp) line = true ->
    (forall f,
        Scanner2.file_path f = ("[Git blob] " ++ fst pc)%string ->
        Scanner2.line_number f = (1 + Z.of_nat k)%Z ->
        Scanner2.pattern f = snd cp ->
        Scanner2.is_allowlisted re_match allowlist f = None) ->
    Scanner2._scan_git_objects Compiled search re_match pm allowlist w = [].
Proof.
  intros Compiled search re_match pm allowlist w pc k line cp
         Hpc Hk Hex Hcp Hs Hraise.
  unfold Scanner2._scan_git_objects.
  destruct (Scanner2.is_git_repo w); [|reflexivity].
  match goal with |- context [Loop.for_each ?xs ?body []] =>
    pose proof (RaiseFacts.for_each_raises xs body pc Hpc) as R
  end.
  match type of R with ?P -> _ => assert (HP : P) end.
  { apply (RaiseFacts.for_each_raises _ _ ((1 + Z.of_nat k)%Z, line)).
    - apply LoopFacts.enumerate_In. exists k. auto.
    - cbn [fst snd]. unfold Scanner2.blob_line. rewrite Hex.
      apply (RaiseFacts.for_each_raises _ _ cp Hcp).
      intros st. rewrite Hs. unfold Loop.bind, Loop.call.
      rewrite Hraise; reflexivity. }
  specialize (R HP []).
  destruct (Loop.for_each _ _ []) as [findings [u|]];
    [discriminate|reflexivity].
Qed.

Lemma exception_discards_blobs_witness :
  Scanner2._scan_git_objects Literal.Compiled Literal.search Literal.re_match
    Demo.pm ["src/(old*"]
    (Scanner2.mkWorld Demo.fs [] [] true (fun _ => false) []
       [("old.py", ["token = abc"; "user = bob"; "token = xyz"])]) = [].
Proof.
  apply (exception_discards_the_blob_findings Literal.Compiled Literal.search
           Literal.re_match Demo.pm ["src/(old*"]
           (Scanner2.mkWorld Demo.fs [] [] true (fun _ => false) []
              [("old.py", ["token = abc"; "user = bob"; "token = xyz"])])
           ("old.py", ["token = abc"; "user = bob"; "token = xyz"]) 2
           "token = xyz" ("token", "token")).
  - left. reflexivity.
  - reflexivity.
  - reflexivity.
  - left. reflexivity.
  - reflexivity.
  - intros f H1 H2 H3.
    unfold Scanner2.is_allowlisted, Scanner2.fingerprint,
           Scanner2.full_fingerprint.
    rewrite H1, H2, H3. reflexivity.
Defined.

(** ** [--high-only] in the older scanner *)

Module HighOnly1.
Import Scanner1 Report.

Lemma sim1_ret {A} (a : A) : sim1 (Loop.ret a) (Loop.ret a).
Proof. intros st. split; reflexivity. Qed.

Lemma sim1_bind {A B} (m1 m2 : Loop.M A) (k1 k2 : A -> Loop.M B) :
  sim1 m1 m2 -> (forall a, sim1 (k1 a) (k2 a)) ->
  sim1 (Loop.bind m1 k1) (Loop.bind m2 k2).
Proof.
  intros Hm Hk st. unfold Loop.bind. destruct (Hm st) as [E1 E2].
  destruct (m1 (high_findings st)) as [s1 r1], (m2 st) as [s2 r2].
  cbn [fst snd] in E1, E2. subst s1 r1.
  destruct r2 as [a|]; [apply Hk|split; reflexivity].
Qed.

Lemma sim1_for_each {X} (xs : list X) (b1 b2 : X -> Loop.M unit) :
  (forall x, sim1 (b1 x) (b2 x)) ->
  sim1 (Loop.for_each xs b1) (Loop.for_each xs b2).
Proof.
  intros H. induction xs as [|x xs IH]; cbn [Loop.for_each].
  - apply sim1_ret.
  - apply sim1_bind; [apply H|intros _; exact IH].
Qed.

End HighOnly1.

Section HighOnlyFilter1.
Import Scanner1 Report.
Variable Compiled : Type.
Variable search : Compiled -> string -> bool.
Variable re_search : string -> string -> bool.
Variable re_match : string -> string -> option bool.
Variable compiled_patterns : list (Compiled * string).
Variable compiled_overrides : list (Compiled * string).
Variable compiled_config_patterns : list (Compiled * string).
Variable compiled_exclusions : list Compiled.
Variable acceptable_findings : list string.
Variable is_git_repo : bool.
Variable git_ignored : string -> bool.

Local Abbreviation scan_line1 :=
  (scan_line Compiled search re_search re_match compiled_patterns
     compiled_overrides compiled_config_patterns compiled_exclusions
     acceptable_findings).
Local Abbreviation scan_files1 :=
  (scan_files Compiled search re_search re_match compiled_patterns
     compiled_overrides compiled_config_patterns compiled_exclusions
     acceptable_findings).

Lemma scan_line1_sim (path : string) (h t : bool) (i : Z) (line : string) :
  sim1 (scan_line1 true is_git_repo git_ignored path h t i line)
       (scan_line1 false is_git_repo git_ignored path h t i line).
Proof.
  unfold scan_line.
  destruct (_should_exclude Compiled search compiled_exclusions line);
    [apply HighOnly1.sim1_ret|].
  apply HighOnly1.sim1_for_each. intros cp.
  destruct (search (fst cp) line); [|apply HighOnly1.sim1_ret].
  intros st. unfold Loop.bind, Loop.call.
  destruct (_is_acceptable_finding re_match acceptable_findings _)
    as [[|]|]; cbn [Loop.ret Loop.raise fst snd]; try (split; reflexivity).
  cbn [andb]. unfold high_findings.
  match goal with |- context [Severity_eqb (severity ?f) HIGH] =>
    destruct (Severity_eqb (severity f) HIGH) eqn:E end;
    cbn [negb Loop.ret Loop.append fst snd]; rewrite filter_app;
    cbn [filter]; rewrite E; [|rewrite app_nil_r]; split; reflexivity.
Qed.

(** X27: in [secrets_scanner.py], [--high-only] acts as a filter on the
    result of the file loop of [scan] (PART 2), applied after the
    escalation: on the same files, the loop run with the flag returns
    exactly the HIGH Findings of the loop run without it, in the same
    order.  A Finding of a historical, still-tracked file that the
    escalation raised to HIGH is therefore kept by the loop under
    [--high-only].  The removal of duplicates that follows the loop is
    not part of this statement. *)
Theorem scanner1_high_only_filters_after_escalation :
  forall (fs : string -> option (list string))
         (historical_files : list (string * bool))
         (all_files_to_scan : list string),
    scan_files1 true is_git_repo git_ignored fs historical_files
      all_files_to_scan =
    high_findings
      (scan_files1 false is_git_repo git_ignored fs historical_files
         all_files_to_scan).
Proof.
  intros fs historical_files all_files_to_scan. unfold scan_files.
  change (@nil Finding) with (high_findings []) at 1.
  generalize (@nil Finding).
  induction all_files_to_scan as [|path files IH]; intros acc; [reflexivity|].
  cbn [fold_left]. destruct (fs path) as [lines|]; [|apply IH].
  rewrite <- IH. f_equal. unfold scan_lines, Loop.catching.
  refine (proj1 (HighOnly1.sim1_for_each _ _ _ _ acc)).
  intros [i line]. apply scan_line1_sim.
Qed.

End HighOnlyFilter1.
